(* ===== verification/_CoqProject ===== *)
-Q . S2P
Prelude.v
Utf8.v
PyVal.v
Csv.v
DictReader.v
Loader.v
Argmax.v
Cosine.v
Embedding.v
Ui.v
Matcher.v
Rubric.v
Instructor.v
App.v
Session.v
