(* ===== verification/Prelude.v ===== *)
(** * A verification development for ai-pbl-app ([src/app.py])

    The program is one Streamlit script, [src/app.py].  Streamlit runs
    it from the top on every user interaction.  Each run configures the
    page and the sidebar menu (lines 37-40), then initialises: loads the
    embedding model (line 42), loads the prompt library CSV with
    [load_prompt_library] (lines 9-20: [open] in UTF-8 text mode,
    [csv.DictReader], the append loop) and encodes every entry's
    question into one tensor (lines 44-45).  Only then does it run the
    page the menu selects:
    - the student page (lines 81-91), the matcher: the typed question is
      encoded, compared with every indexed question by [util.cos_sim],
      and the entry at [argmax] of the scores is shown;
    - the instructor page (lines 48-78): dtype-based project suggestions
      for an uploaded CSV and the Word export [export_to_word] (23-34),
      whose summary f-string (line 75) prints the column lists with
      [repr];
    - the rubric page (lines 94-111): three criteria with five levels,
      summed by the first digit of each chosen level.

    ** Files, in dependency order

    - [Prelude] (this file): Python exceptions [exn], the result monad
      [res] ([let* x := m in k], scope [py_scope]), [py_index] for
      [l[i]], the comprehension [map_res] and the append loop
      [append_loop] with their lemmas (the loop equals the comprehension,
      the first failing element decides the error), tactics
      [res_inv] and [decide_goal], the rewrite database [py_rw], and
      lemmas on strings.
    - [Utf8]: UTF-8 as CPython decodes it: [decode_head]/[decode] (the
      well-formed sequences of Table 3-7), [encode_cp]/[encode], their
      inverse laws, and [scan_text], the position where the strict
      incremental decoder raises [UnicodeDecodeError].  A text is kept
      as the bytes of its UTF-8 encoding; [str_cps] gives its code
      points.
    - [PyVal]: the values reaching f-strings ([VStr], [VNone], [VList]),
      [str()] as [py_str], and CPython's [unicode_repr] in [Repr]
      (quote choice, escapes, [\x]/[\u]/[\U] for the characters the
      Unicode printable table excludes); in [Unrepr], the reading of
      that text back as a Python literal ([unrepr], [parse_list_prefix]).
    - [Csv]: the file opened with [encoding="utf-8"] in text mode:
      [read_lines] decodes it by chunks of 8192 bytes as
      [TextIOWrapper] does, raising [UnicodeDecodeError] when the chunk
      holding an ill-formed byte is read, translates [\r\n] and [\r]
      ([translate_newlines]) and yields lines ([file_lines]); the
      tokenizer of [csv.reader], CPython's [Modules/_csv.c] with the
      [excel] dialect: [parse_process_char] is its state machine
      (states [pstate], parser [parser]), [reader_loop]/[reader_next_in]
      is [Reader_iternext] (lines fed until a record ends; the end of
      the input, or the exception of the file), [reader_rows] takes
      every record, [csv_rows] the records of a text; [Writer] is
      [csv.writer], the reference of the round trip.
    - [DictReader]: [csv.DictReader] over tokenised rows: header row,
      blank-row skipping, [dict(zip(...))] (a duplicated column keeps its
      last value), [restkey]/[restval] for long/short rows; [reorder]
      permutes the columns of a table for the column-order theorems.
    - [Loader]: the entry record and [load_prompt_library] (the append
      loop of the source) over the records, and
      [load_prompt_library_file] over the bytes of the file, where the
      text file, the tokenizer, [DictReader] and the loop run in step
      ([load_loop]), so the first exception Python meets is the one
      raised.
    - [Argmax]: [torch.argmax] as a left fold in a Section over any
      strict total order, and its specification [first_max].
    - [Cosine]: [util.cos_sim] over exact reals: [dot], [norm],
      [normalize] (with [torch]'s clamp [eps = 1e-12]), [cos_sim].
    - [Embedding]: [SentenceTransformer.encode] as the library writes
      it: the texts sorted by decreasing [_text_length] with
      [np.argsort] (the typeclass [Encoder] carries the network
      [encode_text] and an argsort with its contract [is_argsort]),
      batches of 32 ([batches]), [Transformer.tokenize] ([encode_texts]:
      a batch headed by a [str] encodes [str(x)] of every text, a batch
      headed by [None] raises [TypeError]), the vectors put back in
      input order ([inverse_perm]) and [torch.stack]; [build_index]
      (lines 44-45) and [cos_sim_t] (with [torch.mm]'s shape check).
      [EncoderLaws] is the network's contract (constant dimension);
      [StandIn] is a stable argsort and a toy network for concrete runs.
    - [Ui]: Streamlit calls [st_call] and the page monad [ui] (a trace
      of calls threaded as state, stopped by an exception;
      [let! x := m in k]); widgets return the session's value;
      [ui_frame] (a page appends to any trace) and [ui_avoids] (a page
      never makes a given kind of call), each with its tactic.
    - [Matcher]: [query_scores], [top_index], [match_query] (lines 85-88)
      and [student_page] (lines 81-91), proved against [EncoderLaws];
      concrete runs in [Matcher.Examples].
    - [Rubric], [Instructor]: the two other pages, [export_to_word], and
      [read_summary], the reading of the summary text back.
    - [App]: one run of the script on the bytes of the library file,
      [App.app_script]: initialisation, then the dispatch on the menu.
    - [Session]: Streamlit's reruns around the script: the widget
      interactions [event], the widget values after one ([apply_event],
      buttons pressed for one run only), the step relation [step] (an
      interaction and the run it triggers, on the library file as it is
      then) and the states of a session [reachable], with the invariant
      [reachable_inv].

    ** What is proved

    - Matching (C1-C10, C16): the selected entry is the first one of
      maximal similarity (refinement of [argmax] by [first_max], C2-C3);
      equal vectors resolve to the lower index (C4); every score is in
      [-1, 1] (C5); asking an entry's own question scores 1 (C6); the
      page renders the match for every non-empty input, whitespace
      included (C7), nothing for the empty input (C8), and stops on an
      exception (C9); an empty library raises at query time (C10).
    - Loading (C11-C13, C34-C35): entries per non-blank row, fields by
      last column name, [None] for short rows; [KeyError] for the first
      missing column; an empty library without error; independence
      from the column order; every field a [str] or [None].
    - The script (C14-C15): an initialisation failure blocks every page;
      the student mode uses the index built in the same run.
    - Similarity (C18-C19): self-similarity ([1] above [eps], less
      below), scale invariance above [eps].
    - The CSV reader and the text file (C17, C20-C21, C24, C28-C29,
      C33): every field returned is within the field-size limit, an
      invariant of the tokenizer (C17); a first column name over it
      raises [_csv.Error] (C20); a quote never closed takes the rest of
      the file into one field (C21); what [csv.writer] writes reads
      back as the records written (C24); reading records terminates
      with enough fuel, and more fuel does not change the result (C28);
      a text within the limit never raises [_csv.Error] (C29); an
      ill-formed UTF-8 byte in the first chunk raises
      [UnicodeDecodeError] before the header (C33).
    - Rubric and instructor pages (C22-C23, C25-C27, C30): the total is
      at most 12, and 12 exactly when every select box holds the top
      level; the suggestions follow the column counts; the exported
      document lists exactly the shown suggestions; a read error stops
      the page.
    - Text forms (C31-C32): [repr] of any text reads back as that text;
      the exported summary reads back as the row and column counts and
      the two column lists.
    - The index (C36-C37): a library of one batch whose longest question
      is a text is indexed with every question encoded as [str(q)], a
      missing question as the text ["None"] (C36); a library whose
      questions are all empty or missing raises [TypeError] (C37).
    - Sessions (C38-C40): safety of the rubric page over a session, the
      liveness of the student page (two interactions show the match),
      and a download only in the run an export click triggers.

    ** Choices

    Embeddings and scores are exact reals ([R]), not IEEE floats: the
    rounding of [torch] is not modelled, so ties are exact equalities
    and NaN does not arise.  No fuel is needed for the script: every
    loop runs over a finite list and is a structural recursion.  The
    readers of [Unrepr] and [decode] take the length of their input as
    fuel, enough since every item takes at least one character, so the
    round trips hold unconditionally.  The record loops of the CSV
    reader ([reader_rows], [load_loop]) take one more than the number
    of lines as fuel: every record consumes at least one line
    ([reader_next_in_shorter]), so that fuel is never exhausted
    ([reader_rows_some], [load_prompt_library_file_some]) and more
    would not change the result ([reader_rows_mono_le]).  [batches]
    takes the number of texts as fuel: every batch is non-empty.  The
    field-size limit is [csv.field_size_limit()]'s default, 131072 (an
    [N], compared with the length of the field in code points); the
    chunk size is [TextIOWrapper]'s 8192 bytes.  [np.argsort]'s order
    among texts of equal length depends on numpy's sort kind and the
    platform: the model keeps only its contract, so the theorems hold
    for every such order.  Dicts are stdpp [gmap]s when only lookups
    matter ([DictReader]) and lists of items when insertion order
    matters (the rubric's [scores]).

    Not modelled: file I/O beyond the bytes read ([open] of a missing
    file is [FileNotFoundError]; [doc.save] is the document written),
    the neural network (any [Encoder]), loading the model (assumed to
    succeed), a batch of [model.encode] headed by a list (the pair
    branch of [tokenize]; the loader never produces a list, C35, and it
    is a [TypeError] in the model), pandas' parsing and charts (a frame
    is its row count and column dtypes), the tokenizer's branches for
    an escape character, [skipinitialspace] and [QUOTE_NONNUMERIC]
    (never taken with the [excel] dialect), Streamlit's rendering, and
    the cell values of a frame (a preview or chart is recorded with its
    row count and column names).  The session model in [Session] is
    Streamlit's documented execution model, not code of the
    repository.

    ** Plan for later work

    The [_csv.Error] of a data field (not only the first column name)
    over the size limit; a [UnicodeDecodeError] past the first chunk,
    raised only if the loader reaches it. *)

From stdpp Require Export base list strings.

Declare Scope py_scope.
Delimit Scope py_scope with py.
Open Scope py_scope.

(** ** Python exceptions *)

(** The exceptions the modelled code can raise.  [KeyError k] is raised
    by [d[k]] on a missing key; [IndexError] by [l[i]] out of range;
    [TypeError] by the tokenizer on a non-string text; [RuntimeError] by
    [torch] on a shape mismatch or an empty reduction; [ValueError] by
    [int()] on a non-digit; [FileNotFoundError] by [open] on a missing
    file; [EncodeError] is the failure signal of the
    embedding model (model unavailable, input rejected); [CsvError] is
    [_csv.Error], raised by the CSV tokenizer on a field over the size
    limit or a character after a line break in an unquoted field. *)
Inductive exn :=
| KeyError (key : string)
| IndexError
| TypeError
| RuntimeError
| ValueError
| FileNotFoundError
| EncodeError
| CsvError
| UnicodeDecodeError.

#[export] Instance exn_eq_dec : EqDecision exn.
Proof. solve_decision. Defined.

(** ** The result monad *)

Inductive res (A : Type) : Type :=
| Ok (a : A)
| Err (e : exn).
Arguments Ok {A} a.
Arguments Err {A} e.

Definition res_bind {A B} (m : res A) (k : A -> res B) : res B :=
  match m with
  | Ok a => k a
  | Err e => Err e
  end.

Notation "'let*' x ':=' m 'in' k" := (res_bind m (fun x => k))
  (at level 10, x name, m at level 100, k at level 200) : py_scope.

Definition is_ok {A} (m : res A) : bool :=
  match m with Ok _ => true | Err _ => false end.

(** [of_option e o] is a Python access that raises [e] when [o] is
    absent, e.g. [l[i]] is [of_option IndexError (l !! i)]. *)
Definition of_option {A} (e : exn) (o : option A) : res A :=
  match o with
  | Some a => Ok a
  | None => Err e
  end.

(** [seq[i]] on a Python list with a non-negative index. *)
Definition py_index {A} (l : list A) (i : nat) : res A :=
  of_option IndexError (l !! i).

(** ** The loops of the script *)

(** [[f x for x in xs]] when [f] may raise: the first exception in list
    order escapes. *)
Fixpoint map_res {A B} (f : A -> res B) (xs : list A) : res (list B) :=
  match xs with
  | [] => Ok []
  | x :: xs' => let* y := f x in let* ys := map_res f xs' in Ok (y :: ys)
  end.

(** [for x in xs: acc.append(f(x))] with [acc] threaded as state. *)
Fixpoint append_loop {A B} (f : A -> res B) (acc : list B) (xs : list A)
  : res (list B) :=
  match xs with
  | [] => Ok acc
  | x :: xs' => let* y := f x in append_loop f (acc ++ [y]) xs'
  end.

(** ** Lemmas on the monad *)

Lemma res_bind_Ok {A B} (a : A) (k : A -> res B) : res_bind (Ok a) k = k a.
Proof. reflexivity. Qed.

Lemma res_bind_Err {A B} (e : exn) (k : A -> res B) : res_bind (Err e) k = Err e.
Proof. reflexivity. Qed.

Lemma res_bind_assoc {A B C} (m : res A) (k : A -> res B) (k' : B -> res C) :
  res_bind (res_bind m k) k' = res_bind m (fun a => res_bind (k a) k').
Proof. by destruct m. Qed.

Lemma res_bind_Ok_iff {A B} (m : A -> res B) (m0 : res A) (b : B) :
  res_bind m0 m = Ok b <-> exists a, m0 = Ok a /\ m a = Ok b.
Proof. destruct m0; simpl; naive_solver. Qed.

Lemma res_bind_Err_iff {A B} (m : A -> res B) (m0 : res A) (e : exn) :
  res_bind m0 m = Err e <-> m0 = Err e \/ exists a, m0 = Ok a /\ m a = Err e.
Proof. destruct m0; simpl; naive_solver. Qed.

Lemma of_option_Ok {A} e (o : option A) a : of_option e o = Ok a <-> o = Some a.
Proof. destruct o; simpl; split; intros; congruence. Qed.

Lemma py_index_Ok {A} (l : list A) i a : py_index l i = Ok a <-> l !! i = Some a.
Proof. apply of_option_Ok. Qed.

Lemma py_index_Err {A} (l : list A) i e :
  py_index l i = Err e <-> e = IndexError /\ length l <= i.
Proof.
  unfold py_index. rewrite <-lookup_ge_None.
  destruct (l !! i); simpl; naive_solver.
Qed.

Create HintDb py.
Create Rewrite HintDb py_rw.
#[export] Hint Rewrite @res_bind_Ok @res_bind_Err : py_rw.

(** Split every [res_bind] hypothesis [res_bind m k = Ok b]. *)
Ltac res_inv :=
  repeat match goal with
  | H : res_bind _ _ = Ok _ |- _ =>
      apply res_bind_Ok_iff in H; destruct H as (? & ? & H)
  | H : Ok _ = Ok _ |- _ => injection H as H
  | H : Err _ = Ok _ |- _ => discriminate H
  | H : Ok _ = Err _ |- _ => discriminate H
  end.

(** Close a decidable proposition on concrete data by evaluating its
    decision procedure. *)
Ltac decide_goal := apply (bool_decide_unpack _); vm_compute; exact I.

(** ** Lemmas on the loops *)

Section Loops.
Context {A B : Type} (f : A -> res B).

Lemma map_res_Ok_Forall2 (xs : list A) (ys : list B) :
  map_res f xs = Ok ys <-> Forall2 (fun x y => f x = Ok y) xs ys.
Proof.
  revert ys. induction xs as [|x xs IH]; intros ys; simpl.
  - split; [intros [= <-]; constructor | intros H; inversion H; done].
  - rewrite res_bind_Ok_iff. split.
    + intros (y & Hy & H). apply res_bind_Ok_iff in H as (ys' & Hys & [= <-]).
      constructor; [done | by apply IH].
    + intros H. inversion H as [|? y ? ys' Hy Hys]; subst.
      exists y. split; [done|]. apply IH in Hys. by rewrite Hys.
Qed.

Lemma map_res_Ok_length (xs : list A) (ys : list B) :
  map_res f xs = Ok ys -> length ys = length xs.
Proof. rewrite map_res_Ok_Forall2. intros H. symmetry. by eapply Forall2_length. Qed.

Lemma map_res_Ok_lookup (xs : list A) (ys : list B) i x :
  map_res f xs = Ok ys -> xs !! i = Some x -> exists y, f x = Ok y /\ ys !! i = Some y.
Proof.
  rewrite map_res_Ok_Forall2. intros H Hx.
  destruct (Forall2_lookup_l _ _ _ _ _ H Hx) as (y & Hy & Hf). eauto.
Qed.

(** A failing comprehension fails with the error of its first failing
    element, every element before it having succeeded. *)
Lemma map_res_Err (xs : list A) (e : exn) :
  map_res f xs = Err e <->
  exists pre x post, xs = pre ++ x :: post /\
    Forall (fun a => is_ok (f a) = true) pre /\ f x = Err e.
Proof.
  induction xs as [|a xs IH]; simpl.
  - split; [discriminate|]. intros (pre & x & post & Heq & _).
    destruct pre; discriminate.
  - destruct (f a) as [b|e'] eqn:Ha; simpl.
    + transitivity (map_res f xs = Err e).
      { destruct (map_res f xs); simpl; split; congruence. }
      rewrite IH. split.
      * intros (pre & x & post & -> & Hpre & Hx).
        exists (a :: pre), x, post. split; [done|]. split; [|done].
        constructor; [by rewrite Ha | done].
      * intros (pre & x & post & Heq & Hpre & Hx).
        destruct pre as [|a' pre]; simplify_eq/=; [congruence|].
        apply Forall_cons in Hpre as [_ Hpre]. by exists pre, x, post.
    + split.
      * intros [= ->]. exists [], a, xs. simpl. auto.
      * intros (pre & x & post & Heq & Hpre & Hx).
        destruct pre as [|a' pre]; simplify_eq/=; [congruence|].
        inversion Hpre as [|? ? Hok]; subst. rewrite Ha in Hok. discriminate.
Qed.

(** The append loop of the source is the comprehension, prefixed by
    the accumulator it starts from. *)
Lemma append_loop_mapM (acc : list B) (xs : list A) :
  append_loop f acc xs = res_bind (map_res f xs) (fun ys => Ok (acc ++ ys)).
Proof.
  revert acc. induction xs as [|x xs IH]; intros acc; simpl.
  - by rewrite app_nil_r.
  - destruct (f x) as [y|e]; simpl; [|done].
    rewrite IH. destruct (map_res f xs); simpl; [|done].
    by rewrite <-app_assoc.
Qed.
End Loops.

(** ** Lemmas on [map] (the comprehensions of the script) *)

Lemma lookup_map {A B} (f : A -> B) (l : list A) i : map f l !! i = f <$> l !! i.
Proof. revert i. induction l as [|x l IH]; intros [|i]; simpl; auto. Qed.

Lemma Forall2_map_l {A B C} (f : A -> B) (P : B -> C -> Prop) l k :
  Forall2 P (map f l) k <-> Forall2 (fun x y => P (f x) y) l k.
Proof.
  revert k. induction l as [|x l IH]; intros [|y k]; simpl;
    split; intros Hf; inversion Hf; subst; constructor; try apply IH; done.
Qed.

(** ** Lemmas on strings *)

Lemma list_ascii_of_string_app (a b : string) :
  String.list_ascii_of_string (a ++ b) =
  String.list_ascii_of_string a ++ String.list_ascii_of_string b.
Proof. induction a as [|x a IH]; [reflexivity|]. exact (f_equal (cons x) IH). Qed.

(** Two texts with the same suffix are equal when the whole texts are. *)
Lemma string_app_inj_r (a b c : string) : (a ++ c)%string = (b ++ c)%string -> a = b.
Proof.
  intros H%(f_equal String.list_ascii_of_string). rewrite !list_ascii_of_string_app in H.
  apply app_inv_tail in H.
  by rewrite <-(String.string_of_list_ascii_of_string a), <-(String.string_of_list_ascii_of_string b), H.
Qed.

Lemma string_app_nil_r (s : string) : (s ++ "")%string = s.
Proof. induction s as [|c s IH]; [reflexivity|]. exact (f_equal (String c) IH). Qed.

Lemma string_of_list_ascii_app (d e : list Ascii.ascii) :
  String.string_of_list_ascii (d ++ e) = (String.string_of_list_ascii d ++ String.string_of_list_ascii e)%string.
Proof. induction d as [|c d IH]; [reflexivity|]. exact (f_equal (String c) IH). Qed.

Lemma string_app_assoc (a b c : string) : ((a ++ b) ++ c)%string = (a ++ (b ++ c))%string.
Proof. induction a as [|x a IH]; [reflexivity|]. exact (f_equal (String x) IH). Qed.
