(* ===== verification/Utf8.v ===== *)
(** * UTF-8: the codec of [open(csv_path, encoding="utf-8")] and the text of a [str]

    A Python [str] is a sequence of code points.  The development keeps
    a text as the bytes of its UTF-8 encoding (a Rocq [string], one
    [ascii] per byte), which is what the library file holds on disk and
    what the CSV tokenizer compares byte by byte.  Where the code works
    on code points (the length of a text, [repr] escaping non-printable
    characters), the model decodes.

    [decode_head] reads one well-formed sequence at the head of a text,
    as CPython's UTF-8 decoder does ([Objects/stringlib/codecs.h],
    [utf8_decode]): the ranges are those of the table of well-formed
    byte sequences of the Unicode standard (Table 3-7), so overlong
    forms, surrogates and code points above U+10FFFF are rejected.
    [encode_cp] is the encoder of [Objects/unicodeobject.c].  A text is
    [utf8_valid] when it decodes: the file is then read without
    [UnicodeDecodeError], and the bytes are the encoding of a [str].

    [decode] and [encode] are inverse ([decode_encode], [encode_decode]);
    decoding a concatenation decodes each part ([decode_app]). *)

From S2P Require Import Prelude.
From Stdlib Require Import Ascii NArith ZArith.

Module Utf8.
Local Open Scope N_scope.

Definition byte (b : ascii) : N := N_of_ascii b.

Definition in_range (lo hi : N) (b : ascii) : bool := (lo <=? byte b) && (byte b <=? hi).

(** A continuation byte [10xxxxxx]. *)
Definition cont (b : ascii) : bool := in_range 0x80 0xBF b.

(** One character at the head of a text: its code point and the rest. *)
Definition decode_head (s : list ascii) : option (N * list ascii) :=
  match s with
  | [] => None
  | b0 :: s1 =>
      let x := byte b0 in
      if x <? 0x80 then Some (x, s1)
      else if in_range 0xC2 0xDF b0 then
        match s1 with
        | b1 :: s2 =>
            if cont b1 then Some (64 * (x - 0xC0) + (byte b1 - 0x80), s2) else None
        | _ => None
        end
      else if in_range 0xE0 0xEF b0 then
        match s1 with
        | b1 :: b2 :: s3 =>
            if in_range (if x =? 0xE0 then 0xA0 else 0x80) (if x =? 0xED then 0x9F else 0xBF) b1
               && cont b2
            then Some (4096 * (x - 0xE0) + 64 * (byte b1 - 0x80) + (byte b2 - 0x80), s3)
            else None
        | _ => None
        end
      else if in_range 0xF0 0xF4 b0 then
        match s1 with
        | b1 :: b2 :: b3 :: s4 =>
            if in_range (if x =? 0xF0 then 0x90 else 0x80) (if x =? 0xF4 then 0x8F else 0xBF) b1
               && cont b2 && cont b3
            then Some (262144 * (x - 0xF0) + 4096 * (byte b1 - 0x80)
                       + 64 * (byte b2 - 0x80) + (byte b3 - 0x80), s4)
            else None
        | _ => None
        end
      else None
  end.

(** The whole text; [fuel] bounds the number of characters. *)
Fixpoint decode_go (fuel : nat) (s : list ascii) : option (list N) :=
  match s with
  | [] => Some []
  | _ =>
      match fuel with
      | O => None
      | S fuel' =>
          match decode_head s with
          | Some (c, r) => option_map (cons c) (decode_go fuel' r)
          | None => None
          end
      end
  end.

(** [bytes.decode("utf-8")]; [None] where it raises [UnicodeDecodeError].
    Every character takes at least one byte, so the length is enough fuel. *)
Definition decode (s : list ascii) : option (list N) := decode_go (length s) s.

Definition utf8_valid (s : list ascii) : bool :=
  match decode s with Some _ => true | None => false end.

(** A code point a [str] can hold and UTF-8 can encode: not a surrogate,
    at most U+10FFFF. *)
Definition valid_cp (c : N) : bool := (c <? 0xD800) || ((0xE000 <=? c) && (c <=? 0x10FFFF)).

(** [str.encode("utf-8")] of one character. *)
Definition encode_cp (c : N) : list ascii :=
  if c <? 0x80 then [ascii_of_N c]
  else if c <? 0x800 then [ascii_of_N (0xC0 + c / 64); ascii_of_N (0x80 + c mod 64)]
  else if c <? 0x10000 then
    [ascii_of_N (0xE0 + c / 4096); ascii_of_N (0x80 + (c / 64) mod 64); ascii_of_N (0x80 + c mod 64)]
  else
    [ascii_of_N (0xF0 + c / 262144); ascii_of_N (0x80 + (c / 4096) mod 64);
     ascii_of_N (0x80 + (c / 64) mod 64); ascii_of_N (0x80 + c mod 64)].

Definition encode (cps : list N) : list ascii := concat (map encode_cp cps).

(** The number of characters of a text, [len(s)]. *)
Definition cp_length (s : list ascii) : nat :=
  match decode s with Some cps => length cps | None => length s end.

(** ** Where decoding fails

    The decoder reads a character's bytes one at a time and raises as
    soon as a byte cannot continue a well-formed sequence; a sequence
    cut by the end of the input raises only at the final call.
    [scan_head] classifies the head of a text: a whole character of [n]
    bytes, a byte at offset [j] that makes it ill-formed, or a
    well-formed start cut by the end of the text. *)
Inductive head_scan := SChar (n : nat) | SBad (j : nat) | SShort.

(** [k] continuation bytes, the first in [lo..hi], the others in
    [0x80..0xBF]; [j] counts the bytes read. *)
Fixpoint scan_conts (k : nat) (lo hi : N) (s : list ascii) (j : nat) : head_scan :=
  match k with
  | O => SChar j
  | S k' =>
      match s with
      | [] => SShort
      | b :: s' => if in_range lo hi b then scan_conts k' 0x80 0xBF s' (S j) else SBad j
      end
  end.

Definition scan_head (s : list ascii) : head_scan :=
  match s with
  | [] => SShort
  | b0 :: s1 =>
      let x := byte b0 in
      if x <? 0x80 then SChar 1
      else if in_range 0xC2 0xDF b0 then scan_conts 1 0x80 0xBF s1 1
      else if in_range 0xE0 0xEF b0 then
        scan_conts 2 (if x =? 0xE0 then 0xA0 else 0x80) (if x =? 0xED then 0x9F else 0xBF) s1 1
      else if in_range 0xF0 0xF4 b0 then
        scan_conts 3 (if x =? 0xF0 then 0x90 else 0x80) (if x =? 0xF4 then 0x8F else 0xBF) s1 1
      else SBad 0
  end.

(** The outcome of decoding a whole text: no error, an ill-formed byte
    at position [j], or a sequence starting at [p] cut by the end. *)
Inductive text_scan := Valid | BadAt (j : nat) | ShortAt (p : nat).

Fixpoint scan_go (fuel pos : nat) (s : list ascii) : text_scan :=
  match s with
  | [] => Valid
  | _ =>
      match fuel with
      | O => BadAt pos
      | S fuel' =>
          match scan_head s with
          | SChar n => scan_go fuel' (pos + n) (drop n s)
          | SBad j => BadAt (pos + j)
          | SShort => ShortAt pos
          end
      end
  end.

Definition scan_text (s : list ascii) : text_scan := scan_go (length s) 0 s.

(** ** Lemmas *)

(** Arithmetic on code points, with division and remainder by powers of 2. *)
Ltac nlia := zify; Z.to_euclidean_division_equations; lia.

(** Settle the comparisons of a goal, dropping the impossible branches. *)
Ltac ncase :=
  repeat (match goal with
          | |- context [?a =? ?b] => destruct (N.eqb_spec a b); try (exfalso; lia)
          end; cbv beta iota);
  repeat match goal with
  | |- context [?a <? ?b] => destruct (N.ltb_spec a b); try (exfalso; lia)
  | |- context [?a <=? ?b] => destruct (N.leb_spec a b); try (exfalso; lia)
  end.

Lemma byte_lt b : byte b < 256.
Proof. apply N_ascii_bounded. Qed.

(** Record the bound of every byte in the context. *)
Ltac bytes_bounded :=
  repeat match goal with
  | b : ascii |- _ =>
      lazymatch goal with
      | _ : byte b < 256 |- _ => fail
      | _ => pose proof (byte_lt b)
      end
  end.

Lemma byte_of_N n : n < 256 -> byte (ascii_of_N n) = n.
Proof. apply N_ascii_embedding. Qed.

Lemma ascii_of_byte_eq b n : n = byte b -> ascii_of_N n = b.
Proof. intros ->. apply ascii_N_embedding. Qed.

(** An ASCII character is its own encoding. *)
Lemma encode_cp_ascii b : byte b < 0x80 -> encode_cp (byte b) = [b].
Proof. intros Hb. unfold encode_cp. ncase. by rewrite ascii_N_embedding. Qed.

Lemma valid_cp_ascii c : c < 0x80 -> valid_cp c = true.
Proof. intros Hc. unfold valid_cp. ncase; reflexivity. Qed.

Lemma decode_head_length s c r : decode_head s = Some (c, r) -> (length r < length s)%nat.
Proof.
  intros E. destruct s as [|b0 s1]; [discriminate|]. unfold decode_head in E.
  repeat case_match; simplify_eq/=; lia.
Qed.

Lemma decode_go_fuel n s : (length s <= n)%nat -> decode_go n s = decode s.
Proof.
  unfold decode. revert n. induction s as [s IH] using (induction_ltof1 _ (@length _)).
  unfold ltof in IH. intros n Hn. destruct s as [|b s']; [by destruct n|].
  destruct n as [|n]; [simpl in Hn; lia|].
  cbn [decode_go length]. destruct (decode_head (b :: s')) as [[c r]|] eqn:E; [|done].
  pose proof (decode_head_length _ _ _ E) as Hr. simpl in Hr.
  simpl in Hn. rewrite (IH r ltac:(simpl; lia) n ltac:(lia)).
  by rewrite (IH r ltac:(simpl; lia) (length s') ltac:(lia)).
Qed.

Lemma decode_cons s c r cps :
  decode_head s = Some (c, r) -> decode r = Some cps -> decode s = Some (c :: cps).
Proof.
  intros E Hr. pose proof (decode_head_length _ _ _ E) as Hl. unfold decode.
  destruct s as [|b s']; [discriminate|]. cbn [decode_go length]. rewrite E.
  rewrite decode_go_fuel by (simpl in Hl; lia). by rewrite Hr.
Qed.

Lemma decode_cons_inv s cps :
  decode s = Some cps -> s = [] /\ cps = [] \/
  exists c r cps', decode_head s = Some (c, r) /\ decode r = Some cps' /\ cps = c :: cps'.
Proof.
  unfold decode. intros Hd. destruct s as [|b s']; [simpl in Hd; injection Hd as <-; by left|]. right.
  cbn [decode_go length] in Hd. destruct (decode_head (b :: s')) as [[c r]|] eqn:E; [|discriminate].
  pose proof (decode_head_length _ _ _ E) as Hl. simpl in Hl.
  rewrite decode_go_fuel in Hd by lia. destruct (decode r) as [l|] eqn:Hr; [|discriminate].
  injection Hd as <-. by exists c, r, l.
Qed.

(** The bytes of one character, from its base-64 digits. *)
Lemma enc2 a b : 2 <= a <= 31 -> b < 64 ->
  encode_cp (64 * a + b) = [ascii_of_N (0xC0 + a); ascii_of_N (0x80 + b)].
Proof.
  intros Ha Hb. unfold encode_cp.
  assert ((64 * a + b) / 64 = a /\ (64 * a + b) mod 64 = b) as [-> ->] by nlia.
  ncase. reflexivity.
Qed.

Lemma enc3 a b d : a <= 15 -> (a = 0 -> 32 <= b) -> b < 64 -> d < 64 ->
  encode_cp (4096 * a + 64 * b + d) =
  [ascii_of_N (0xE0 + a); ascii_of_N (0x80 + b); ascii_of_N (0x80 + d)].
Proof.
  intros Ha Ha0 Hb Hd. unfold encode_cp.
  assert ((4096 * a + 64 * b + d) / 4096 = a /\ ((4096 * a + 64 * b + d) / 64) mod 64 = b /\
          (4096 * a + 64 * b + d) mod 64 = d) as (-> & -> & ->) by nlia.
  ncase. reflexivity.
Qed.

Lemma enc4 a b d e : 1 <= a \/ 16 <= b -> a <= 4 -> b < 64 -> d < 64 -> e < 64 ->
  encode_cp (262144 * a + 4096 * b + 64 * d + e) =
  [ascii_of_N (0xF0 + a); ascii_of_N (0x80 + b); ascii_of_N (0x80 + d); ascii_of_N (0x80 + e)].
Proof.
  intros Ha0 Ha Hb Hd He. unfold encode_cp.
  assert ((262144 * a + 4096 * b + 64 * d + e) / 262144 = a /\
          ((262144 * a + 4096 * b + 64 * d + e) / 4096) mod 64 = b /\
          ((262144 * a + 4096 * b + 64 * d + e) / 64) mod 64 = d /\
          (262144 * a + 4096 * b + 64 * d + e) mod 64 = e) as (-> & -> & -> & ->) by nlia.
  ncase. reflexivity.
Qed.

(** Every valid code point has its base-64 digits in the ranges of one
    of the four forms. *)
Lemma valid_cp_digits c :
  valid_cp c = true ->
  c < 0x80 \/
  (exists a b, c = 64 * a + b /\ 2 <= a <= 31 /\ b < 64) \/
  (exists a b d, c = 4096 * a + 64 * b + d /\ a <= 15 /\ (a = 0 -> 32 <= b) /\
                 (a = 13 -> b < 32) /\ b < 64 /\ d < 64) \/
  (exists a b d e, c = 262144 * a + 4096 * b + 64 * d + e /\ (1 <= a \/ 16 <= b) /\
                   (a = 4 -> b < 16) /\ a <= 4 /\ b < 64 /\ d < 64 /\ e < 64).
Proof.
  unfold valid_cp. rewrite orb_true_iff, andb_true_iff, N.ltb_lt, !N.leb_le. intros Hc.
  destruct (N.ltb_spec c 0x80); [by left|right].
  destruct (N.ltb_spec c 0x800); [left; exists (c / 64), (c mod 64); nlia|right].
  destruct (N.ltb_spec c 0x10000); [left; exists (c / 4096), ((c / 64) mod 64), (c mod 64); nlia|right].
  exists (c / 262144), ((c / 4096) mod 64), ((c / 64) mod 64), (c mod 64). nlia.
Qed.

(** Reading back one encoded character. *)
Lemma decode_head_encode c r : valid_cp c = true -> decode_head (encode_cp c ++ r) = Some (c, r).
Proof.
  intros Hc. destruct (valid_cp_digits c Hc)
    as [Hlt|[(a & b & -> & Ha & Hb)|[(a & b & d & -> & Ha & Ha0 & Ha13 & Hb & Hd)
       |(a & b & d & e & -> & Ha0 & Ha4 & Ha & Hb & Hd & He)]]].
  - unfold encode_cp. ncase. cbn [app decode_head]. rewrite byte_of_N by lia. ncase; reflexivity.
  - rewrite enc2 by lia. cbn [app decode_head]. unfold cont, in_range. rewrite !byte_of_N by lia.
    ncase; do 2 f_equal; lia.
  - rewrite enc3 by lia. cbn [app decode_head]. unfold cont, in_range. rewrite !byte_of_N by lia.
    ncase; simpl; do 2 f_equal; lia.
  - rewrite enc4 by lia. cbn [app decode_head]. unfold cont, in_range. rewrite !byte_of_N by lia.
    ncase; simpl; do 2 f_equal; lia.
Qed.

(** A well-formed sequence is the encoding of its code point. *)
Lemma decode_head_inv s c r :
  decode_head s = Some (c, r) -> s = encode_cp c ++ r /\ valid_cp c = true.
Proof.
  destruct s as [|b0 s1]; [discriminate|]. unfold decode_head, cont, in_range.
  pose proof (byte_lt b0) as H0.
  destruct (N.ltb_spec (byte b0) 0x80).
  { intros [= <- <-]. rewrite encode_cp_ascii by done. split; [done|]. by apply valid_cp_ascii. }
  destruct s1 as [|b1 [|b2 [|b3 s4]]]; bytes_bounded; ncase; intros [= <- <-];
    (first [rewrite enc2 by lia|rewrite enc3 by lia|rewrite enc4 by lia]);
    (split; [cbn [app]; repeat f_equal; symmetry; apply ascii_of_byte_eq; lia
            |unfold valid_cp; ncase; reflexivity]).
Qed.

Lemma decode_encode cps : Forall (fun c => valid_cp c = true) cps -> decode (encode cps) = Some cps.
Proof.
  induction 1 as [|c cps Hc _ IH]; [done|]. unfold encode. cbn [map concat].
  apply (decode_cons _ c (concat (map encode_cp cps))); [by apply decode_head_encode|exact IH].
Qed.

Lemma encode_decode s cps :
  decode s = Some cps -> encode cps = s /\ Forall (fun c => valid_cp c = true) cps.
Proof.
  revert cps. induction s as [s IH] using (induction_ltof1 _ (@length _)). unfold ltof in IH.
  intros cps Hd. destruct (decode_cons_inv s cps Hd) as [[-> ->]|(c & r & cps' & E & Hr & ->)];
    [done|].
  destruct (decode_head_inv s c r E) as [-> Hc]. pose proof (decode_head_length _ _ _ E) as Hl.
  destruct (IH r Hl cps' Hr) as [<- Hv]. split; [done|]. by constructor.
Qed.

Lemma encode_app a b : encode (a ++ b) = encode a ++ encode b.
Proof. unfold encode. by rewrite map_app, concat_app. Qed.

Lemma decode_app a b x y :
  decode a = Some x -> decode b = Some y -> decode (a ++ b) = Some (x ++ y).
Proof.
  intros (<- & Hx)%encode_decode (<- & Hy)%encode_decode.
  rewrite <-encode_app. apply decode_encode, Forall_app. by split.
Qed.

Lemma utf8_valid_decode s : utf8_valid s = true <-> exists cps, decode s = Some cps.
Proof. unfold utf8_valid. destruct (decode s) as [l|]; split; intros H; try done; [by exists l|by destruct H]. Qed.

Lemma utf8_valid_app a b : utf8_valid a = true -> utf8_valid b = true -> utf8_valid (a ++ b) = true.
Proof.
  rewrite !utf8_valid_decode. intros [x Hx] [y Hy]. exists (x ++ y). by apply decode_app.
Qed.


(** The scan agrees with the decoder on a character. *)
Lemma decode_head_scan s c r :
  decode_head s = Some (c, r) -> exists n, scan_head s = SChar n /\ r = drop n s.
Proof.
  destruct s as [|b0 s1]; [discriminate|]. unfold decode_head, scan_head.
  destruct (byte b0 <? 0x80); [intros [= _ <-]; by exists 1%nat|].
  destruct (in_range 0xC2 0xDF b0).
  { destruct s1 as [|b1 s2]; [discriminate|]. simpl.
    destruct (cont b1) eqn:Hb; [|discriminate]. unfold cont in Hb. rewrite Hb.
    intros [= _ <-]. by exists 2%nat. }
  destruct (in_range 0xE0 0xEF b0).
  { destruct s1 as [|b1 [|b2 s3]]; try discriminate. simpl.
    destruct (in_range _ _ b1); [|discriminate]. destruct (cont b2) eqn:Hb; [|discriminate].
    unfold cont in Hb. rewrite Hb. intros [= _ <-]. by exists 3%nat. }
  destruct (in_range 0xF0 0xF4 b0); [|discriminate].
  destruct s1 as [|b1 [|b2 [|b3 s4]]]; try discriminate. simpl.
  destruct (in_range _ _ b1); [|discriminate]. destruct (cont b2) eqn:Hb2; [|discriminate].
  destruct (cont b3) eqn:Hb3; [|discriminate]. unfold cont in Hb2, Hb3. rewrite Hb2, Hb3.
  intros [= _ <-]. by exists 4%nat.
Qed.

Lemma decode_go_scan fuel : forall s pos cps, decode_go fuel s = Some cps -> scan_go fuel pos s = Valid.
Proof.
  induction fuel as [|fuel IH]; intros [|b s] pos cps; cbn [decode_go scan_go]; try done.
  destruct (decode_head (b :: s)) as [[c r]|] eqn:Hd; [|discriminate].
  destruct (decode_go fuel r) as [cps'|] eqn:Hr; [|discriminate]. intros _.
  destruct (decode_head_scan _ _ _ Hd) as (n & -> & ->). by eapply IH.
Qed.

(** A text that decodes is scanned without error. *)
Lemma scan_text_valid s : utf8_valid s = true -> scan_text s = Valid.
Proof.
  intros [cps Hd]%utf8_valid_decode. unfold scan_text. by eapply decode_go_scan.
Qed.
End Utf8.
