(* ===== verification/PyVal.v ===== *)
(** * Python values of the script and their text forms

    The values that reach an f-string or a widget in [src/app.py]: the
    strings of a CSV record, [None] (what [csv.DictReader] puts in a
    short record, its [restval]), and lists of strings (the [restkey]
    entry of a long record, the column lists of the instructor page).
    [py_str] is Python's [str()] on them, which is what an f-string
    field [{x}] inserts; [py_repr_str] is [repr()] of a string, as
    CPython's [unicode_repr] ([Objects/unicodeobject.c]) computes it.

    A [str] is a sequence of code points and a Rocq [string] holds its
    UTF-8 bytes ([Utf8]); [str_cps] gives the code points of a text and
    [cps_str] the text of code points.  [unicode_repr] works on code
    points: it escapes the quote and the backslash, writes [\t], [\n],
    [\r], writes the other ASCII control characters as [\xhh], copies
    the other ASCII characters, copies a non-ASCII character when
    [Py_UNICODE_ISPRINTABLE] holds of it and otherwise writes [\xhh],
    [\uhhhh] or [\Uhhhhhhhh] (lower-case hex digits).  Printability is
    the table of the Unicode database: [Repr.printable_ranges] lists the
    printable code points from U+0080 as CPython 3.11's [unicodedata]
    (Unicode 14.0.0) gives them; another Python version assigns more
    characters, which changes which characters are escaped but none of
    the theorems, which hold for any table.

    [Unrepr] reads such text back as Python reads a string literal
    ([ast.literal_eval]), for the escapes [repr] writes; the round trip
    [py_repr_str_roundtrip] shows that [repr] of a [str] loses nothing,
    and [parse_list_prefix] reads [str] of a list back
    ([py_str_list_read]), which the instructor page's summary uses. *)

From S2P Require Import Prelude Utf8.
From Stdlib Require Import Ascii NArith.

Inductive pyval :=
| VStr (s : string)
| VNone
| VList (l : list string).

#[export] Instance pyval_eq_dec : EqDecision pyval.
Proof. solve_decision. Defined.

(** ** Texts as code points *)

(** A text is the UTF-8 encoding of a [str]. *)
Definition str_valid (s : string) : bool := Utf8.utf8_valid (String.list_ascii_of_string s).

(** The code points of a text; a byte sequence that is not UTF-8 (no
    [str] of the program has one) is read byte by byte. *)
Definition str_cps (s : string) : list N :=
  match Utf8.decode (String.list_ascii_of_string s) with
  | Some cps => cps
  | None => map N_of_ascii (String.list_ascii_of_string s)
  end.

Definition cps_str (cps : list N) : string := String.string_of_list_ascii (Utf8.encode cps).

Module Repr.
Local Open Scope N_scope.

Definition squote : N := 39.
Definition dquote : N := 34.
Definition backslash : N := 92.

(** The printable code points from U+0080, as ranges: the characters
    outside the categories Cc, Cf, Cs, Co, Cn, Zl, Zp and Zs, as
    [unicodedata] of CPython 3.11 (Unicode 14.0.0) classifies them. *)
Definition printable_ranges : list (N * N) := [
   (0xA1, 0xAC); (0xAE, 0x377); (0x37A, 0x37F); (0x384, 0x38A); (0x38C, 0x38C); (0x38E, 0x3A1);
   (0x3A3, 0x52F); (0x531, 0x556); (0x559, 0x58A); (0x58D, 0x58F); (0x591, 0x5C7); (0x5D0, 0x5EA);
   (0x5EF, 0x5F4); (0x606, 0x61B); (0x61D, 0x6DC); (0x6DE, 0x70D); (0x710, 0x74A); (0x74D, 0x7B1);
   (0x7C0, 0x7FA); (0x7FD, 0x82D); (0x830, 0x83E); (0x840, 0x85B); (0x85E, 0x85E); (0x860, 0x86A);
   (0x870, 0x88E); (0x898, 0x8E1); (0x8E3, 0x983); (0x985, 0x98C); (0x98F, 0x990); (0x993, 0x9A8);
   (0x9AA, 0x9B0); (0x9B2, 0x9B2); (0x9B6, 0x9B9); (0x9BC, 0x9C4); (0x9C7, 0x9C8); (0x9CB, 0x9CE);
   (0x9D7, 0x9D7); (0x9DC, 0x9DD); (0x9DF, 0x9E3); (0x9E6, 0x9FE); (0xA01, 0xA03); (0xA05, 0xA0A);
   (0xA0F, 0xA10); (0xA13, 0xA28); (0xA2A, 0xA30); (0xA32, 0xA33); (0xA35, 0xA36); (0xA38, 0xA39);
   (0xA3C, 0xA3C); (0xA3E, 0xA42); (0xA47, 0xA48); (0xA4B, 0xA4D); (0xA51, 0xA51); (0xA59, 0xA5C);
   (0xA5E, 0xA5E); (0xA66, 0xA76); (0xA81, 0xA83); (0xA85, 0xA8D); (0xA8F, 0xA91); (0xA93, 0xAA8);
   (0xAAA, 0xAB0); (0xAB2, 0xAB3); (0xAB5, 0xAB9); (0xABC, 0xAC5); (0xAC7, 0xAC9); (0xACB, 0xACD);
   (0xAD0, 0xAD0); (0xAE0, 0xAE3); (0xAE6, 0xAF1); (0xAF9, 0xAFF); (0xB01, 0xB03); (0xB05, 0xB0C);
   (0xB0F, 0xB10); (0xB13, 0xB28); (0xB2A, 0xB30); (0xB32, 0xB33); (0xB35, 0xB39); (0xB3C, 0xB44);
   (0xB47, 0xB48); (0xB4B, 0xB4D); (0xB55, 0xB57); (0xB5C, 0xB5D); (0xB5F, 0xB63); (0xB66, 0xB77);
   (0xB82, 0xB83); (0xB85, 0xB8A); (0xB8E, 0xB90); (0xB92, 0xB95); (0xB99, 0xB9A); (0xB9C, 0xB9C);
   (0xB9E, 0xB9F); (0xBA3, 0xBA4); (0xBA8, 0xBAA); (0xBAE, 0xBB9); (0xBBE, 0xBC2); (0xBC6, 0xBC8);
   (0xBCA, 0xBCD); (0xBD0, 0xBD0); (0xBD7, 0xBD7); (0xBE6, 0xBFA); (0xC00, 0xC0C); (0xC0E, 0xC10);
   (0xC12, 0xC28); (0xC2A, 0xC39); (0xC3C, 0xC44); (0xC46, 0xC48); (0xC4A, 0xC4D); (0xC55, 0xC56);
   (0xC58, 0xC5A); (0xC5D, 0xC5D); (0xC60, 0xC63); (0xC66, 0xC6F); (0xC77, 0xC8C); (0xC8E, 0xC90);
   (0xC92, 0xCA8); (0xCAA, 0xCB3); (0xCB5, 0xCB9); (0xCBC, 0xCC4); (0xCC6, 0xCC8); (0xCCA, 0xCCD);
   (0xCD5, 0xCD6); (0xCDD, 0xCDE); (0xCE0, 0xCE3); (0xCE6, 0xCEF); (0xCF1, 0xCF2); (0xD00, 0xD0C);
   (0xD0E, 0xD10); (0xD12, 0xD44); (0xD46, 0xD48); (0xD4A, 0xD4F); (0xD54, 0xD63); (0xD66, 0xD7F);
   (0xD81, 0xD83); (0xD85, 0xD96); (0xD9A, 0xDB1); (0xDB3, 0xDBB); (0xDBD, 0xDBD); (0xDC0, 0xDC6);
   (0xDCA, 0xDCA); (0xDCF, 0xDD4); (0xDD6, 0xDD6); (0xDD8, 0xDDF); (0xDE6, 0xDEF); (0xDF2, 0xDF4);
   (0xE01, 0xE3A); (0xE3F, 0xE5B); (0xE81, 0xE82); (0xE84, 0xE84); (0xE86, 0xE8A); (0xE8C, 0xEA3);
   (0xEA5, 0xEA5); (0xEA7, 0xEBD); (0xEC0, 0xEC4); (0xEC6, 0xEC6); (0xEC8, 0xECD); (0xED0, 0xED9);
   (0xEDC, 0xEDF); (0xF00, 0xF47); (0xF49, 0xF6C); (0xF71, 0xF97); (0xF99, 0xFBC); (0xFBE, 0xFCC);
   (0xFCE, 0xFDA); (0x1000, 0x10C5); (0x10C7, 0x10C7); (0x10CD, 0x10CD); (0x10D0, 0x1248); (0x124A, 0x124D);
   (0x1250, 0x1256); (0x1258, 0x1258); (0x125A, 0x125D); (0x1260, 0x1288); (0x128A, 0x128D); (0x1290, 0x12B0);
   (0x12B2, 0x12B5); (0x12B8, 0x12BE); (0x12C0, 0x12C0); (0x12C2, 0x12C5); (0x12C8, 0x12D6); (0x12D8, 0x1310);
   (0x1312, 0x1315); (0x1318, 0x135A); (0x135D, 0x137C); (0x1380, 0x1399); (0x13A0, 0x13F5); (0x13F8, 0x13FD);
   (0x1400, 0x167F); (0x1681, 0x169C); (0x16A0, 0x16F8); (0x1700, 0x1715); (0x171F, 0x1736); (0x1740, 0x1753);
   (0x1760, 0x176C); (0x176E, 0x1770); (0x1772, 0x1773); (0x1780, 0x17DD); (0x17E0, 0x17E9); (0x17F0, 0x17F9);
   (0x1800, 0x180D); (0x180F, 0x1819); (0x1820, 0x1878); (0x1880, 0x18AA); (0x18B0, 0x18F5); (0x1900, 0x191E);
   (0x1920, 0x192B); (0x1930, 0x193B); (0x1940, 0x1940); (0x1944, 0x196D); (0x1970, 0x1974); (0x1980, 0x19AB);
   (0x19B0, 0x19C9); (0x19D0, 0x19DA); (0x19DE, 0x1A1B); (0x1A1E, 0x1A5E); (0x1A60, 0x1A7C); (0x1A7F, 0x1A89);
   (0x1A90, 0x1A99); (0x1AA0, 0x1AAD); (0x1AB0, 0x1ACE); (0x1B00, 0x1B4C); (0x1B50, 0x1B7E); (0x1B80, 0x1BF3);
   (0x1BFC, 0x1C37); (0x1C3B, 0x1C49); (0x1C4D, 0x1C88); (0x1C90, 0x1CBA); (0x1CBD, 0x1CC7); (0x1CD0, 0x1CFA);
   (0x1D00, 0x1F15); (0x1F18, 0x1F1D); (0x1F20, 0x1F45); (0x1F48, 0x1F4D); (0x1F50, 0x1F57); (0x1F59, 0x1F59);
   (0x1F5B, 0x1F5B); (0x1F5D, 0x1F5D); (0x1F5F, 0x1F7D); (0x1F80, 0x1FB4); (0x1FB6, 0x1FC4); (0x1FC6, 0x1FD3);
   (0x1FD6, 0x1FDB); (0x1FDD, 0x1FEF); (0x1FF2, 0x1FF4); (0x1FF6, 0x1FFE); (0x2010, 0x2027); (0x2030, 0x205E);
   (0x2070, 0x2071); (0x2074, 0x208E); (0x2090, 0x209C); (0x20A0, 0x20C0); (0x20D0, 0x20F0); (0x2100, 0x218B);
   (0x2190, 0x2426); (0x2440, 0x244A); (0x2460, 0x2B73); (0x2B76, 0x2B95); (0x2B97, 0x2CF3); (0x2CF9, 0x2D25);
   (0x2D27, 0x2D27); (0x2D2D, 0x2D2D); (0x2D30, 0x2D67); (0x2D6F, 0x2D70); (0x2D7F, 0x2D96); (0x2DA0, 0x2DA6);
   (0x2DA8, 0x2DAE); (0x2DB0, 0x2DB6); (0x2DB8, 0x2DBE); (0x2DC0, 0x2DC6); (0x2DC8, 0x2DCE); (0x2DD0, 0x2DD6);
   (0x2DD8, 0x2DDE); (0x2DE0, 0x2E5D); (0x2E80, 0x2E99); (0x2E9B, 0x2EF3); (0x2F00, 0x2FD5); (0x2FF0, 0x2FFB);
   (0x3001, 0x303F); (0x3041, 0x3096); (0x3099, 0x30FF); (0x3105, 0x312F); (0x3131, 0x318E); (0x3190, 0x31E3);
   (0x31F0, 0x321E); (0x3220, 0xA48C); (0xA490, 0xA4C6); (0xA4D0, 0xA62B); (0xA640, 0xA6F7); (0xA700, 0xA7CA);
   (0xA7D0, 0xA7D1); (0xA7D3, 0xA7D3); (0xA7D5, 0xA7D9); (0xA7F2, 0xA82C); (0xA830, 0xA839); (0xA840, 0xA877);
   (0xA880, 0xA8C5); (0xA8CE, 0xA8D9); (0xA8E0, 0xA953); (0xA95F, 0xA97C); (0xA980, 0xA9CD); (0xA9CF, 0xA9D9);
   (0xA9DE, 0xA9FE); (0xAA00, 0xAA36); (0xAA40, 0xAA4D); (0xAA50, 0xAA59); (0xAA5C, 0xAAC2); (0xAADB, 0xAAF6);
   (0xAB01, 0xAB06); (0xAB09, 0xAB0E); (0xAB11, 0xAB16); (0xAB20, 0xAB26); (0xAB28, 0xAB2E); (0xAB30, 0xAB6B);
   (0xAB70, 0xABED); (0xABF0, 0xABF9); (0xAC00, 0xD7A3); (0xD7B0, 0xD7C6); (0xD7CB, 0xD7FB); (0xF900, 0xFA6D);
   (0xFA70, 0xFAD9); (0xFB00, 0xFB06); (0xFB13, 0xFB17); (0xFB1D, 0xFB36); (0xFB38, 0xFB3C); (0xFB3E, 0xFB3E);
   (0xFB40, 0xFB41); (0xFB43, 0xFB44); (0xFB46, 0xFBC2); (0xFBD3, 0xFD8F); (0xFD92, 0xFDC7); (0xFDCF, 0xFDCF);
   (0xFDF0, 0xFE19); (0xFE20, 0xFE52); (0xFE54, 0xFE66); (0xFE68, 0xFE6B); (0xFE70, 0xFE74); (0xFE76, 0xFEFC);
   (0xFF01, 0xFFBE); (0xFFC2, 0xFFC7); (0xFFCA, 0xFFCF); (0xFFD2, 0xFFD7); (0xFFDA, 0xFFDC); (0xFFE0, 0xFFE6);
   (0xFFE8, 0xFFEE); (0xFFFC, 0xFFFD); (0x10000, 0x1000B); (0x1000D, 0x10026); (0x10028, 0x1003A); (0x1003C, 0x1003D);
   (0x1003F, 0x1004D); (0x10050, 0x1005D); (0x10080, 0x100FA); (0x10100, 0x10102); (0x10107, 0x10133); (0x10137, 0x1018E);
   (0x10190, 0x1019C); (0x101A0, 0x101A0); (0x101D0, 0x101FD); (0x10280, 0x1029C); (0x102A0, 0x102D0); (0x102E0, 0x102FB);
   (0x10300, 0x10323); (0x1032D, 0x1034A); (0x10350, 0x1037A); (0x10380, 0x1039D); (0x1039F, 0x103C3); (0x103C8, 0x103D5);
   (0x10400, 0x1049D); (0x104A0, 0x104A9); (0x104B0, 0x104D3); (0x104D8, 0x104FB); (0x10500, 0x10527); (0x10530, 0x10563);
   (0x1056F, 0x1057A); (0x1057C, 0x1058A); (0x1058C, 0x10592); (0x10594, 0x10595); (0x10597, 0x105A1); (0x105A3, 0x105B1);
   (0x105B3, 0x105B9); (0x105BB, 0x105BC); (0x10600, 0x10736); (0x10740, 0x10755); (0x10760, 0x10767); (0x10780, 0x10785);
   (0x10787, 0x107B0); (0x107B2, 0x107BA); (0x10800, 0x10805); (0x10808, 0x10808); (0x1080A, 0x10835); (0x10837, 0x10838);
   (0x1083C, 0x1083C); (0x1083F, 0x10855); (0x10857, 0x1089E); (0x108A7, 0x108AF); (0x108E0, 0x108F2); (0x108F4, 0x108F5);
   (0x108FB, 0x1091B); (0x1091F, 0x10939); (0x1093F, 0x1093F); (0x10980, 0x109B7); (0x109BC, 0x109CF); (0x109D2, 0x10A03);
   (0x10A05, 0x10A06); (0x10A0C, 0x10A13); (0x10A15, 0x10A17); (0x10A19, 0x10A35); (0x10A38, 0x10A3A); (0x10A3F, 0x10A48);
   (0x10A50, 0x10A58); (0x10A60, 0x10A9F); (0x10AC0, 0x10AE6); (0x10AEB, 0x10AF6); (0x10B00, 0x10B35); (0x10B39, 0x10B55);
   (0x10B58, 0x10B72); (0x10B78, 0x10B91); (0x10B99, 0x10B9C); (0x10BA9, 0x10BAF); (0x10C00, 0x10C48); (0x10C80, 0x10CB2);
   (0x10CC0, 0x10CF2); (0x10CFA, 0x10D27); (0x10D30, 0x10D39); (0x10E60, 0x10E7E); (0x10E80, 0x10EA9); (0x10EAB, 0x10EAD);
   (0x10EB0, 0x10EB1); (0x10F00, 0x10F27); (0x10F30, 0x10F59); (0x10F70, 0x10F89); (0x10FB0, 0x10FCB); (0x10FE0, 0x10FF6);
   (0x11000, 0x1104D); (0x11052, 0x11075); (0x1107F, 0x110BC); (0x110BE, 0x110C2); (0x110D0, 0x110E8); (0x110F0, 0x110F9);
   (0x11100, 0x11134); (0x11136, 0x11147); (0x11150, 0x11176); (0x11180, 0x111DF); (0x111E1, 0x111F4); (0x11200, 0x11211);
   (0x11213, 0x1123E); (0x11280, 0x11286); (0x11288, 0x11288); (0x1128A, 0x1128D); (0x1128F, 0x1129D); (0x1129F, 0x112A9);
   (0x112B0, 0x112EA); (0x112F0, 0x112F9); (0x11300, 0x11303); (0x11305, 0x1130C); (0x1130F, 0x11310); (0x11313, 0x11328);
   (0x1132A, 0x11330); (0x11332, 0x11333); (0x11335, 0x11339); (0x1133B, 0x11344); (0x11347, 0x11348); (0x1134B, 0x1134D);
   (0x11350, 0x11350); (0x11357, 0x11357); (0x1135D, 0x11363); (0x11366, 0x1136C); (0x11370, 0x11374); (0x11400, 0x1145B);
   (0x1145D, 0x11461); (0x11480, 0x114C7); (0x114D0, 0x114D9); (0x11580, 0x115B5); (0x115B8, 0x115DD); (0x11600, 0x11644);
   (0x11650, 0x11659); (0x11660, 0x1166C); (0x11680, 0x116B9); (0x116C0, 0x116C9); (0x11700, 0x1171A); (0x1171D, 0x1172B);
   (0x11730, 0x11746); (0x11800, 0x1183B); (0x118A0, 0x118F2); (0x118FF, 0x11906); (0x11909, 0x11909); (0x1190C, 0x11913);
   (0x11915, 0x11916); (0x11918, 0x11935); (0x11937, 0x11938); (0x1193B, 0x11946); (0x11950, 0x11959); (0x119A0, 0x119A7);
   (0x119AA, 0x119D7); (0x119DA, 0x119E4); (0x11A00, 0x11A47); (0x11A50, 0x11AA2); (0x11AB0, 0x11AF8); (0x11C00, 0x11C08);
   (0x11C0A, 0x11C36); (0x11C38, 0x11C45); (0x11C50, 0x11C6C); (0x11C70, 0x11C8F); (0x11C92, 0x11CA7); (0x11CA9, 0x11CB6);
   (0x11D00, 0x11D06); (0x11D08, 0x11D09); (0x11D0B, 0x11D36); (0x11D3A, 0x11D3A); (0x11D3C, 0x11D3D); (0x11D3F, 0x11D47);
   (0x11D50, 0x11D59); (0x11D60, 0x11D65); (0x11D67, 0x11D68); (0x11D6A, 0x11D8E); (0x11D90, 0x11D91); (0x11D93, 0x11D98);
   (0x11DA0, 0x11DA9); (0x11EE0, 0x11EF8); (0x11FB0, 0x11FB0); (0x11FC0, 0x11FF1); (0x11FFF, 0x12399); (0x12400, 0x1246E);
   (0x12470, 0x12474); (0x12480, 0x12543); (0x12F90, 0x12FF2); (0x13000, 0x1342E); (0x14400, 0x14646); (0x16800, 0x16A38);
   (0x16A40, 0x16A5E); (0x16A60, 0x16A69); (0x16A6E, 0x16ABE); (0x16AC0, 0x16AC9); (0x16AD0, 0x16AED); (0x16AF0, 0x16AF5);
   (0x16B00, 0x16B45); (0x16B50, 0x16B59); (0x16B5B, 0x16B61); (0x16B63, 0x16B77); (0x16B7D, 0x16B8F); (0x16E40, 0x16E9A);
   (0x16F00, 0x16F4A); (0x16F4F, 0x16F87); (0x16F8F, 0x16F9F); (0x16FE0, 0x16FE4); (0x16FF0, 0x16FF1); (0x17000, 0x187F7);
   (0x18800, 0x18CD5); (0x18D00, 0x18D08); (0x1AFF0, 0x1AFF3); (0x1AFF5, 0x1AFFB); (0x1AFFD, 0x1AFFE); (0x1B000, 0x1B122);
   (0x1B150, 0x1B152); (0x1B164, 0x1B167); (0x1B170, 0x1B2FB); (0x1BC00, 0x1BC6A); (0x1BC70, 0x1BC7C); (0x1BC80, 0x1BC88);
   (0x1BC90, 0x1BC99); (0x1BC9C, 0x1BC9F); (0x1CF00, 0x1CF2D); (0x1CF30, 0x1CF46); (0x1CF50, 0x1CFC3); (0x1D000, 0x1D0F5);
   (0x1D100, 0x1D126); (0x1D129, 0x1D172); (0x1D17B, 0x1D1EA); (0x1D200, 0x1D245); (0x1D2E0, 0x1D2F3); (0x1D300, 0x1D356);
   (0x1D360, 0x1D378); (0x1D400, 0x1D454); (0x1D456, 0x1D49C); (0x1D49E, 0x1D49F); (0x1D4A2, 0x1D4A2); (0x1D4A5, 0x1D4A6);
   (0x1D4A9, 0x1D4AC); (0x1D4AE, 0x1D4B9); (0x1D4BB, 0x1D4BB); (0x1D4BD, 0x1D4C3); (0x1D4C5, 0x1D505); (0x1D507, 0x1D50A);
   (0x1D50D, 0x1D514); (0x1D516, 0x1D51C); (0x1D51E, 0x1D539); (0x1D53B, 0x1D53E); (0x1D540, 0x1D544); (0x1D546, 0x1D546);
   (0x1D54A, 0x1D550); (0x1D552, 0x1D6A5); (0x1D6A8, 0x1D7CB); (0x1D7CE, 0x1DA8B); (0x1DA9B, 0x1DA9F); (0x1DAA1, 0x1DAAF);
   (0x1DF00, 0x1DF1E); (0x1E000, 0x1E006); (0x1E008, 0x1E018); (0x1E01B, 0x1E021); (0x1E023, 0x1E024); (0x1E026, 0x1E02A);
   (0x1E100, 0x1E12C); (0x1E130, 0x1E13D); (0x1E140, 0x1E149); (0x1E14E, 0x1E14F); (0x1E290, 0x1E2AE); (0x1E2C0, 0x1E2F9);
   (0x1E2FF, 0x1E2FF); (0x1E7E0, 0x1E7E6); (0x1E7E8, 0x1E7EB); (0x1E7ED, 0x1E7EE); (0x1E7F0, 0x1E7FE); (0x1E800, 0x1E8C4);
   (0x1E8C7, 0x1E8D6); (0x1E900, 0x1E94B); (0x1E950, 0x1E959); (0x1E95E, 0x1E95F); (0x1EC71, 0x1ECB4); (0x1ED01, 0x1ED3D);
   (0x1EE00, 0x1EE03); (0x1EE05, 0x1EE1F); (0x1EE21, 0x1EE22); (0x1EE24, 0x1EE24); (0x1EE27, 0x1EE27); (0x1EE29, 0x1EE32);
   (0x1EE34, 0x1EE37); (0x1EE39, 0x1EE39); (0x1EE3B, 0x1EE3B); (0x1EE42, 0x1EE42); (0x1EE47, 0x1EE47); (0x1EE49, 0x1EE49);
   (0x1EE4B, 0x1EE4B); (0x1EE4D, 0x1EE4F); (0x1EE51, 0x1EE52); (0x1EE54, 0x1EE54); (0x1EE57, 0x1EE57); (0x1EE59, 0x1EE59);
   (0x1EE5B, 0x1EE5B); (0x1EE5D, 0x1EE5D); (0x1EE5F, 0x1EE5F); (0x1EE61, 0x1EE62); (0x1EE64, 0x1EE64); (0x1EE67, 0x1EE6A);
   (0x1EE6C, 0x1EE72); (0x1EE74, 0x1EE77); (0x1EE79, 0x1EE7C); (0x1EE7E, 0x1EE7E); (0x1EE80, 0x1EE89); (0x1EE8B, 0x1EE9B);
   (0x1EEA1, 0x1EEA3); (0x1EEA5, 0x1EEA9); (0x1EEAB, 0x1EEBB); (0x1EEF0, 0x1EEF1); (0x1F000, 0x1F02B); (0x1F030, 0x1F093);
   (0x1F0A0, 0x1F0AE); (0x1F0B1, 0x1F0BF); (0x1F0C1, 0x1F0CF); (0x1F0D1, 0x1F0F5); (0x1F100, 0x1F1AD); (0x1F1E6, 0x1F202);
   (0x1F210, 0x1F23B); (0x1F240, 0x1F248); (0x1F250, 0x1F251); (0x1F260, 0x1F265); (0x1F300, 0x1F6D7); (0x1F6DD, 0x1F6EC);
   (0x1F6F0, 0x1F6FC); (0x1F700, 0x1F773); (0x1F780, 0x1F7D8); (0x1F7E0, 0x1F7EB); (0x1F7F0, 0x1F7F0); (0x1F800, 0x1F80B);
   (0x1F810, 0x1F847); (0x1F850, 0x1F859); (0x1F860, 0x1F887); (0x1F890, 0x1F8AD); (0x1F8B0, 0x1F8B1); (0x1F900, 0x1FA53);
   (0x1FA60, 0x1FA6D); (0x1FA70, 0x1FA74); (0x1FA78, 0x1FA7C); (0x1FA80, 0x1FA86); (0x1FA90, 0x1FAAC); (0x1FAB0, 0x1FABA);
   (0x1FAC0, 0x1FAC5); (0x1FAD0, 0x1FAD9); (0x1FAE0, 0x1FAE7); (0x1FAF0, 0x1FAF6); (0x1FB00, 0x1FB92); (0x1FB94, 0x1FBCA);
   (0x1FBF0, 0x1FBF9); (0x20000, 0x2A6DF); (0x2A700, 0x2B738); (0x2B740, 0x2B81D); (0x2B820, 0x2CEA1); (0x2CEB0, 0x2EBE0);
   (0x2F800, 0x2FA1D); (0x30000, 0x3134A); (0xE0100, 0xE01EF)].

(** [Py_UNICODE_ISPRINTABLE], for the non-ASCII code points [repr] asks about. *)
Definition is_printable (c : N) : bool :=
  existsb (fun r => (fst r <=? c) && (c <=? snd r)) printable_ranges.

(** The quote [repr] uses: a single quote, unless the text has a
    single quote and no double quote. *)
Definition repr_quote (cps : list N) : N :=
  if existsb (N.eqb squote) cps && negb (existsb (N.eqb dquote) cps) then dquote else squote.

(** [Py_hexdigits]: a digit below 16 as a lower-case hex digit. *)
Definition hex_cp (d : N) : N := if d <? 10 then 48 + d else 87 + d.

(** The [k] last base-16 digits of [c], most significant first. *)
Fixpoint digits16 (k : nat) (c : N) : list N :=
  match k with
  | O => []
  | S k' => digits16 k' (c / 16) ++ [c mod 16]
  end.

(** The escape [\e] followed by [k] hex digits of [c]. *)
Definition hex_esc (e : N) (k : nat) (c : N) : list N :=
  backslash :: e :: map hex_cp (digits16 k c).

(** One character of the text as [unicode_repr] writes it, quoted by [q]. *)
Definition repr_char (q c : N) : list N :=
  if (c =? q) || (c =? backslash) then [backslash; c]
  else if c =? 9 then [backslash; 116]
  else if c =? 10 then [backslash; 110]
  else if c =? 13 then [backslash; 114]
  else if (c <? 32) || (c =? 127) then hex_esc 120 2 c
  else if c <? 127 then [c]
  else if is_printable c then [c]
  else if c <=? 0xFF then hex_esc 120 2 c
  else if c <=? 0xFFFF then hex_esc 117 4 c
  else hex_esc 85 8 c.

Definition repr_body (q : N) (cps : list N) : list N := concat (map (repr_char q) cps).

(** [repr(s)] of the code points of [s]. *)
Definition repr_cps (cps : list N) : list N :=
  let q := repr_quote cps in q :: repr_body q cps ++ [q].

End Repr.

(** [repr(s)] for a Python [str]. *)
Definition py_repr_str (s : string) : string := cps_str (Repr.repr_cps (str_cps s)).

Fixpoint join (sep : string) (l : list string) : string :=
  match l with
  | [] => ""
  | [x] => x
  | x :: l' => x ++ sep ++ join sep l'
  end.

(** [str(l)] of a list of strings: the [repr] of each element, between
    brackets, separated by [", "]. *)
Definition py_str_list (l : list string) : string :=
  "[" ++ join ", " (map py_repr_str l) ++ "]".

(** [str(v)], the text an f-string inserts for [{v}]. *)
Definition py_str (v : pyval) : string :=
  match v with
  | VStr s => s
  | VNone => "None"
  | VList l => py_str_list l
  end.

(** ** Reading a [repr] back

    The code points of [repr(s)] read back as a Python string literal,
    for the escapes [repr] writes: [\t], [\n], [\r], [\\], the two
    quotes, [\xhh], [\uhhhh] and [\Uhhhhhhhh]; a raw newline ends the
    literal with an error, as in Python.  [unrepr_prefix] reads one
    literal at the head of a text and returns the rest;
    [parse_list_prefix] reads a bracketed list of literals separated by
    [", "], as [str] of a list writes it. *)

Module Unrepr.
Import Repr.
Local Open Scope N_scope.

Definition is_quote (q : N) : bool := (q =? squote) || (q =? dquote).

(** The character of the escape [\e], for the one-letter escapes. *)
Definition esc_char (e : N) : option N :=
  if e =? 116 then Some 9
  else if e =? 110 then Some 10
  else if e =? 114 then Some 13
  else if e =? backslash then Some backslash
  else if e =? squote then Some squote
  else if e =? dquote then Some dquote
  else None.

(** The number of hex digits after [\x], [\u] and [\U]. *)
Definition hex_len (e : N) : option nat :=
  if e =? 120 then Some 2%nat
  else if e =? 117 then Some 4%nat
  else if e =? 85 then Some 8%nat
  else None.

Definition hex_val (c : N) : option N :=
  if (48 <=? c) && (c <=? 57) then Some (c - 48)
  else if (97 <=? c) && (c <=? 102) then Some (c - 87)
  else if (65 <=? c) && (c <=? 70) then Some (c - 55)
  else None.

(** [k] hex digits at the head of a text. *)
Fixpoint take_hex (k : nat) (s : list N) : option (list N * list N) :=
  match k with
  | O => Some ([], s)
  | S k' =>
      match s with
      | h :: s' =>
          match hex_val h with
          | Some d => option_map (fun r => (d :: fst r, snd r)) (take_hex k' s')
          | None => None
          end
      | [] => None
      end
  end.

Definition hex_value (ds : list N) : N := fold_left (fun a d => 16 * a + d) ds 0.

Definition cons_fst (c : N) (r : option (list N * list N)) : option (list N * list N) :=
  match r with
  | Some (b, rest) => Some (c :: b, rest)
  | None => None
  end.

(** The body of a literal quoted by [q], up to its closing quote: the
    code points it denotes and the rest after the quote; [fuel] bounds
    the number of characters read. *)
Fixpoint unescape (fuel : nat) (q : N) (s : list N) : option (list N * list N) :=
  match fuel with
  | O => None
  | S fuel' =>
      match s with
      | [] => None
      | c :: s1 =>
          if c =? q then Some ([], s1)
          else if c =? backslash then
            match s1 with
            | [] => None
            | e :: s2 =>
                match hex_len e with
                | Some k =>
                    match take_hex k s2 with
                    | Some (ds, s3) =>
                        if hex_value ds <=? 0x10FFFF
                        then cons_fst (hex_value ds) (unescape fuel' q s3) else None
                    | None => None
                    end
                | None =>
                    match esc_char e with
                    | Some c' => cons_fst c' (unescape fuel' q s2)
                    | None => None
                    end
                end
            end
          else if c =? 10 then None
          else cons_fst c (unescape fuel' q s1)
      end
  end.

(** One string literal at the head of a text. *)
Definition unrepr_prefix (s : list N) : option (list N * list N) :=
  match s with
  | q :: s1 => if is_quote q then unescape (length s1) q s1 else None
  | [] => None
  end.

(** A whole text that is one string literal. *)
Definition unrepr (s : string) : option string :=
  match unrepr_prefix (str_cps s) with
  | Some (b, []) => Some (cps_str b)
  | _ => None
  end.

(** The literals of a non-empty list after its opening bracket; [fuel]
    bounds the number of items. *)
Fixpoint parse_items (fuel : nat) (s : list N) : option (list (list N) * list N) :=
  match fuel with
  | O => None
  | S fuel' =>
      match unrepr_prefix s with
      | None => None
      | Some (x, rest) =>
          match rest with
          | c1 :: c2 :: rest' =>
              if (c1 =? 44) && (c2 =? 32) then
                match parse_items fuel' rest' with
                | Some (xs, rest'') => Some (x :: xs, rest'')
                | None => None
                end
              else Some ([x], rest)
          | _ => Some ([x], rest)
          end
      end
  end.

(** A bracketed list of string literals at the head of a text; the
    text's length is enough fuel, every item taking two characters. *)
Definition parse_list_prefix (s : list N) : option (list (list N) * list N) :=
  match s with
  | o :: s1 =>
      if o =? 91 then
        match s1 with
        | c :: rest => if c =? 93 then Some ([], rest) else
            match parse_items (length s1) s1 with
            | Some (l, c' :: rest') => if c' =? 93 then Some (l, rest') else None
            | _ => None
            end
        | [] => None
        end
      else None
  | [] => None
  end.

(** [join] on code points: the text [str] of a list writes between its items. *)
Fixpoint join_cps (sep : list N) (l : list (list N)) : list N :=
  match l with
  | [] => []
  | [x] => x
  | x :: l' => x ++ sep ++ join_cps sep l'
  end.

End Unrepr.

(** ** Lemmas *)

Ltac Ncase := Utf8.ncase.

(** *** Texts and their code points *)

Lemma str_cps_decode s :
  str_valid s = true -> Utf8.decode (String.list_ascii_of_string s) = Some (str_cps s).
Proof. unfold str_valid, str_cps, Utf8.utf8_valid. by destruct (Utf8.decode _). Qed.

Lemma cps_str_str_cps s : str_valid s = true -> cps_str (str_cps s) = s.
Proof.
  intros Hs%str_cps_decode. unfold cps_str. apply Utf8.encode_decode in Hs as [-> _].
  apply String.string_of_list_ascii_of_string.
Qed.

Lemma str_cps_valid s : str_valid s = true -> Forall (fun c => Utf8.valid_cp c = true) (str_cps s).
Proof. intros Hs%str_cps_decode. by apply Utf8.encode_decode in Hs as [_ ?]. Qed.

Lemma str_cps_cps_str cps :
  Forall (fun c => Utf8.valid_cp c = true) cps -> str_cps (cps_str cps) = cps.
Proof.
  intros Hv. unfold str_cps, cps_str.
  by rewrite String.list_ascii_of_string_of_list_ascii, Utf8.decode_encode.
Qed.

Lemma str_valid_cps_str cps :
  Forall (fun c => Utf8.valid_cp c = true) cps -> str_valid (cps_str cps) = true.
Proof.
  intros Hv. unfold str_valid, cps_str, Utf8.utf8_valid.
  by rewrite String.list_ascii_of_string_of_list_ascii, Utf8.decode_encode.
Qed.

Lemma str_valid_app a b : str_valid a = true -> str_valid b = true -> str_valid (a ++ b) = true.
Proof. unfold str_valid. rewrite list_ascii_of_string_app. apply Utf8.utf8_valid_app. Qed.

Lemma str_cps_app a b :
  str_valid a = true -> str_valid b = true -> str_cps (a ++ b) = str_cps a ++ str_cps b.
Proof.
  intros Ha%str_cps_decode Hb%str_cps_decode. unfold str_cps at 1.
  by rewrite list_ascii_of_string_app, (Utf8.decode_app _ _ _ _ Ha Hb).
Qed.

(** *** [repr] and its reading *)

Section ReprLemmas.
Import Repr Unrepr.
Local Open Scope N_scope.

Lemma repr_quote_cases cps : repr_quote cps = squote \/ repr_quote cps = dquote.
Proof. unfold repr_quote. destruct (_ && _); auto. Qed.

Lemma is_quote_repr_quote cps : is_quote (repr_quote cps) = true.
Proof. by destruct (repr_quote_cases cps) as [->| ->]. Qed.

Lemma hex_cp_val d : d < 16 -> hex_val (hex_cp d) = Some d.
Proof. intros Hd. unfold hex_cp, hex_val. Ncase; do 2 f_equal; lia. Qed.

Lemma hex_cp_lt d : d < 16 -> hex_cp d < 128.
Proof. intros Hd. unfold hex_cp. Ncase; lia. Qed.

Lemma length_digits16 k c : length (digits16 k c) = k.
Proof. revert c. induction k as [|k IH]; intros c; [done|]. simpl. rewrite length_app, IH. simpl. lia. Qed.

Lemma digits16_lt k c : Forall (fun d => d < 16) (digits16 k c).
Proof.
  revert c. induction k as [|k IH]; intros c; [constructor|]. simpl.
  apply Forall_app. split; [apply IH|]. constructor; [|constructor]. apply N.mod_lt. lia.
Qed.

Lemma hex_value_digits16 k c : c < 16 ^ N.of_nat k -> hex_value (digits16 k c) = c.
Proof.
  revert c. induction k as [|k IH]; intros c Hc.
  - cbn [N.of_nat] in Hc. rewrite N.pow_0_r in Hc. cbn. lia.
  - cbn [digits16]. unfold hex_value. rewrite fold_left_app. fold (hex_value (digits16 k (c / 16))).
    rewrite IH.
    + cbn [fold_left]. pose proof (N.div_mod c 16 ltac:(lia)). lia.
    + apply N.Div0.div_lt_upper_bound. rewrite Nat2N.inj_succ, N.pow_succ_r' in Hc. lia.
Qed.

Lemma take_hex_digits ds t :
  Forall (fun d => d < 16) ds -> take_hex (length ds) (map hex_cp ds ++ t) = Some (ds, t).
Proof.
  induction 1 as [|d ds Hd _ IH]; [done|]. cbn [length map app take_hex].
  rewrite hex_cp_val by done. by rewrite IH.
Qed.

(** Reading back an escape [\e] with [k] hex digits. *)
Lemma unescape_hex_esc q e k c f t :
  is_quote q = true -> hex_len e = Some k -> c < 16 ^ N.of_nat k -> c <= 0x10FFFF ->
  unescape (S f) q (hex_esc e k c ++ t) = cons_fst c (unescape f q t).
Proof.
  intros Hq He Hc Hmax. unfold hex_esc. cbn [app unescape].
  unfold is_quote in Hq. apply orb_true_iff in Hq as [Hq|Hq]; apply N.eqb_eq in Hq; subst q;
    cbn -[hex_len take_hex]; rewrite He;
    rewrite <-(length_digits16 k c) at 1; rewrite take_hex_digits by apply digits16_lt;
    rewrite hex_value_digits16 by done; Ncase; reflexivity.
Qed.

(** A character [repr] copies is read back as itself. *)
Lemma unescape_plain q c f t :
  c <> q -> c <> backslash -> c <> 10 -> unescape (S f) q (c :: t) = cons_fst c (unescape f q t).
Proof. intros Hq Hb Hn. cbn. Ncase. reflexivity. Qed.

Lemma unescape_repr_char q c f t :
  is_quote q = true -> Utf8.valid_cp c = true ->
  unescape (S f) q (repr_char q c ++ t) = cons_fst c (unescape f q t).
Proof.
  intros Hq Hc. unfold Utf8.valid_cp in Hc. rewrite orb_true_iff, andb_true_iff, N.ltb_lt, !N.leb_le in Hc.
  pose proof Hq as Hq'. unfold is_quote in Hq'. apply orb_true_iff in Hq' as [Hq'|Hq'];
    apply N.eqb_eq in Hq'; subst q; unfold repr_char; unfold squote, dquote, backslash.
  all: destruct (N.eqb_spec c 39); [subst c; reflexivity|].
  all: destruct (N.eqb_spec c 34); [subst c; reflexivity|].
  all: destruct (N.eqb_spec c 92); [subst c; reflexivity|].
  all: destruct (N.eqb_spec c 9); [subst c; reflexivity|].
  all: destruct (N.eqb_spec c 10); [subst c; reflexivity|].
  all: destruct (N.eqb_spec c 13); [subst c; reflexivity|].
  all: cbn [orb]; destruct (N.ltb_spec c 32), (N.eqb_spec c 127); cbn [orb];
    try (apply unescape_hex_esc; [reflexivity|reflexivity|simpl; lia|lia]).
  all: destruct (N.ltb_spec c 127); [by apply unescape_plain|].
  all: destruct (is_printable c); [by apply unescape_plain; unfold backslash; lia|].
  all: destruct (N.leb_spec c 0xFF); [apply unescape_hex_esc; [reflexivity|reflexivity|simpl; lia|lia]|].
  all: destruct (N.leb_spec c 0xFFFF); apply unescape_hex_esc; (reflexivity || (simpl; lia)).
Qed.

Lemma length_repr_char q c : (1 <= length (repr_char q c))%nat.
Proof. unfold repr_char. repeat case_match; simpl; lia. Qed.

Lemma length_repr_body q cps : (length cps <= length (repr_body q cps))%nat.
Proof.
  induction cps as [|c cps IH]; [simpl; lia|]. unfold repr_body in *. cbn [map concat].
  rewrite length_app. pose proof (length_repr_char q c). simpl. lia.
Qed.

Lemma unescape_repr_body q cps f t :
  is_quote q = true -> Forall (fun c => Utf8.valid_cp c = true) cps -> (length cps < f)%nat ->
  unescape f q (repr_body q cps ++ q :: t) = Some (cps, t).
Proof.
  intros Hq Hv. revert f. induction Hv as [|c cps Hc _ IH]; intros [|f] Hf; simpl in Hf; try lia.
  - cbn. by rewrite N.eqb_refl.
  - unfold repr_body. cbn [map concat]. rewrite <-app_assoc, unescape_repr_char by done.
    fold (repr_body q cps). rewrite IH by lia. reflexivity.
Qed.

(** Reading one [repr] at the head of a text. *)
Lemma unrepr_prefix_repr cps t :
  Forall (fun c => Utf8.valid_cp c = true) cps -> unrepr_prefix (repr_cps cps ++ t) = Some (cps, t).
Proof.
  intros Hv. unfold repr_cps. cbn [app unrepr_prefix]. rewrite is_quote_repr_quote, <-app_assoc.
  apply unescape_repr_body; [apply is_quote_repr_quote|done|].
  rewrite length_app. pose proof (length_repr_body (repr_quote cps) cps). simpl. lia.
Qed.

(** Every character [repr] writes is a valid code point. *)
Lemma repr_char_valid q c :
  (q < 128) -> Utf8.valid_cp c = true -> Forall (fun x => Utf8.valid_cp x = true) (repr_char q c).
Proof.
  intros Hq Hc. assert (Hhex : forall e k, e < 128 -> Forall (fun x => Utf8.valid_cp x = true) (hex_esc e k c)).
  { intros e k He. unfold hex_esc. repeat constructor; try (apply Utf8.valid_cp_ascii; done).
    apply Forall_map, (Forall_impl _ _ _ (digits16_lt k c)). intros d Hd.
    by apply Utf8.valid_cp_ascii, hex_cp_lt. }
  unfold repr_char. repeat case_match; try (apply Hhex; done);
    repeat constructor; (done || (apply Utf8.valid_cp_ascii; done)).
Qed.

Lemma repr_cps_valid cps :
  Forall (fun c => Utf8.valid_cp c = true) cps -> Forall (fun c => Utf8.valid_cp c = true) (repr_cps cps).
Proof.
  intros Hv. assert (Hq : repr_quote cps < 128) by (destruct (repr_quote_cases cps) as [->| ->]; done).
  unfold repr_cps. constructor; [by apply Utf8.valid_cp_ascii|]. apply Forall_app. split.
  - unfold repr_body. apply Forall_concat, Forall_map. eapply Forall_impl; [exact Hv|].
    intros c Hc. by apply repr_char_valid.
  - constructor; [by apply Utf8.valid_cp_ascii|constructor].
Qed.

End ReprLemmas.

(** *** [str] of a list, read back *)

Section ListLemmas.
Import Repr Unrepr.
Local Open Scope N_scope.

(** Code points read from any text are valid: a byte is below U+D800. *)
Lemma str_cps_valid_all s : Forall (fun c => Utf8.valid_cp c = true) (str_cps s).
Proof.
  destruct (str_valid s) eqn:Hs; [by apply str_cps_valid|].
  unfold str_cps. unfold str_valid, Utf8.utf8_valid in Hs. destruct (Utf8.decode _); [done|].
  apply Forall_map, Forall_forall. intros b _. unfold Utf8.valid_cp.
  pose proof (Utf8.byte_lt b) as Hb. unfold Utf8.byte in Hb. Utf8.ncase; reflexivity.
Qed.

Lemma str_cps_py_repr_str s : str_cps (py_repr_str s) = repr_cps (str_cps s).
Proof. apply str_cps_cps_str, repr_cps_valid, str_cps_valid_all. Qed.

Lemma str_valid_py_repr_str s : str_valid (py_repr_str s) = true.
Proof. apply str_valid_cps_str, repr_cps_valid, str_cps_valid_all. Qed.

Lemma str_valid_join sep l :
  str_valid sep = true -> Forall (fun s => str_valid s = true) l -> str_valid (join sep l) = true.
Proof.
  intros Hsep. induction 1 as [|x l Hx _ IH]; [reflexivity|].
  destruct l as [|y l]; [done|]. cbn [join]. by repeat apply str_valid_app.
Qed.

Lemma str_cps_join sep l :
  str_valid sep = true -> Forall (fun s => str_valid s = true) l ->
  str_cps (join sep l) = join_cps (str_cps sep) (map str_cps l).
Proof.
  intros Hsep. induction 1 as [|x l Hx Hl IH]; [reflexivity|].
  destruct l as [|y l]; [done|].
  change (join sep (x :: y :: l)) with (x ++ sep ++ join sep (y :: l))%string.
  change (map str_cps (x :: y :: l)) with (str_cps x :: map str_cps (y :: l)).
  change (join_cps ?s (?a :: ?b :: ?r)) with (a ++ s ++ join_cps s (b :: r)).
  rewrite !str_cps_app, IH; repeat first [done | apply str_valid_app | apply str_valid_join].
Qed.

Lemma py_str_list_cps l :
  str_cps (py_str_list l) = 91 :: join_cps [44; 32] (map (fun s => repr_cps (str_cps s)) l) ++ [93].
Proof.
  assert (Hall : Forall (fun s => str_valid s = true) (map py_repr_str l)).
  { apply Forall_map, Forall_forall. intros s _. apply str_valid_py_repr_str. }
  unfold py_str_list. rewrite !str_cps_app; repeat first [done | apply str_valid_app | apply str_valid_join].
  rewrite str_cps_join, map_map by done. cbn. do 3 f_equal. apply map_ext, str_cps_py_repr_str.
Qed.

Lemma join_repr_length x xs u :
  (length xs < length (join_cps [44; 32]%N (map repr_cps (x :: xs)) ++ u))%nat.
Proof.
  revert x. induction xs as [|y xs IH]; intros x; [simpl; lia|].
  cbn [map join_cps]. specialize (IH y). rewrite !length_app in *. simpl in *. lia.
Qed.

Lemma join_repr_head x xs u :
  exists rest, join_cps [44; 32] (map repr_cps (x :: xs)) ++ u = repr_quote x :: rest.
Proof. destruct xs; eexists; reflexivity. Qed.

Lemma parse_items_S fuel s :
  parse_items (S fuel) s =
  match unrepr_prefix s with
  | None => None
  | Some (x, rest) =>
      match rest with
      | c1 :: c2 :: rest' =>
          if (c1 =? 44) && (c2 =? 32) then
            match parse_items fuel rest' with
            | Some (xs, rest'') => Some (x :: xs, rest'')
            | None => None
            end
          else Some ([x], rest)
      | _ => Some ([x], rest)
      end
  end.
Proof. reflexivity. Qed.

Lemma str_valid_py_str_list l : str_valid (py_str_list l) = true.
Proof.
  assert (Hall : Forall (fun s => str_valid s = true) (map py_repr_str l)).
  { apply Forall_map, Forall_forall. intros s _. apply str_valid_py_repr_str. }
  unfold py_str_list. repeat first [done | apply str_valid_app | apply str_valid_join].
Qed.

(** Reading back the items of a non-empty list up to its closing bracket. *)
Lemma parse_items_join fuel x xs t :
  Forall (Forall (fun c => Utf8.valid_cp c = true)) (x :: xs) -> (length xs < fuel)%nat ->
  parse_items fuel (join_cps [44; 32] (map repr_cps (x :: xs)) ++ 93 :: t) = Some (x :: xs, 93 :: t).
Proof.
  revert fuel x. induction xs as [|y xs IH]; intros [|fuel] x Hv Hf; cbn [length] in Hf; try lia;
    apply Forall_cons in Hv as [Hx Hv].
  - cbn [map join_cps parse_items]. rewrite unrepr_prefix_repr by done. by destruct t.
  - change (join_cps [44; 32] (map repr_cps (x :: y :: xs)))
      with (repr_cps x ++ [44; 32] ++ join_cps [44; 32] (map repr_cps (y :: xs))).
    rewrite parse_items_S, <-app_assoc, unrepr_prefix_repr by done.
    cbn [app]. rewrite IH by (done || lia). reflexivity.
Qed.

Lemma parse_list_read ls t :
  Forall (Forall (fun c => Utf8.valid_cp c = true)) ls ->
  parse_list_prefix ((91 :: join_cps [44; 32] (map repr_cps ls) ++ [93]) ++ t) = Some (ls, t).
Proof.
  intros Hv. destruct ls as [|x xs]; [reflexivity|]. cbn [app parse_list_prefix].
  rewrite <-app_assoc. cbn [app].
  pose proof (parse_items_join _ x xs t Hv (join_repr_length x xs (93 :: t))) as Hp.
  destruct (join_repr_head x xs (93 :: t)) as [rest Hr]. rewrite Hr in Hp |- *.
  assert ((repr_quote x =? 93) = false) as -> by (by destruct (repr_quote_cases x) as [->| ->]).
  rewrite Hp. reflexivity.
Qed.

(** [str] of a list of strings, followed by any text, reads back as the
    code points of the strings and that text. *)
Lemma py_str_list_read l t :
  parse_list_prefix (str_cps (py_str_list l) ++ t) = Some (map str_cps l, t).
Proof.
  rewrite py_str_list_cps, <-map_map. apply parse_list_read.
  apply Forall_map, Forall_forall. intros s _. apply str_cps_valid_all.
Qed.

End ListLemmas.

(** ** Theorems *)

(** C31: [repr] of a [str] reads back as that [str]: the text CPython's
    [unicode_repr] writes is a Python literal denoting exactly [s],
    whatever quotes, backslashes, control characters and non-printable
    non-ASCII characters [s] holds, for every [str] (every UTF-8 text). *)
Theorem py_repr_str_roundtrip s : str_valid s = true -> Unrepr.unrepr (py_repr_str s) = Some s.
Proof.
  intros Hs. unfold Unrepr.unrepr. rewrite str_cps_py_repr_str, <-(app_nil_r (Repr.repr_cps _)).
  rewrite unrepr_prefix_repr by apply str_cps_valid_all. by rewrite cps_str_str_cps.
Qed.

(** ** Examples *)

(** A no-break space (U+00A0, bytes C2 A0) is not printable and is escaped. *)
Example py_repr_str_nbsp :
  py_repr_str (String.string_of_list_ascii ["a"; ascii_of_nat 194; ascii_of_nat 160]%char) = "'a\xa0'".
Proof. vm_compute. reflexivity. Qed.

(** An accented letter (U+00E9, bytes C3 A9) is printable and is copied. *)
Example py_repr_str_accent :
  py_repr_str (String.string_of_list_ascii [ascii_of_nat 195; ascii_of_nat 169]) =
  String.string_of_list_ascii ["'"; ascii_of_nat 195; ascii_of_nat 169; "'"]%char.
Proof. vm_compute. reflexivity. Qed.

Lemma py_repr_str_roundtrip_witness :
  let s := String.string_of_list_ascii
             ["i"; "t"; "'"; "s"; ascii_of_nat 9; ascii_of_nat 194; ascii_of_nat 160; "\";
              ascii_of_nat 226; ascii_of_nat 128; ascii_of_nat 168]%char in
  str_valid s = true /\ Unrepr.unrepr (py_repr_str s) = Some s.
Proof.
  intros s. assert (Hs : str_valid s = true) by (vm_compute; reflexivity).
  split; [exact Hs|exact (py_repr_str_roundtrip s Hs)].
Defined.
