(* ===== verification/Csv.v ===== *)
(** * The UTF-8 text file and the CSV tokenizer behind [csv.DictReader]

    [load_prompt_library] opens the library with
    [open(csv_path, encoding="utf-8")] (line 11) and wraps it in
    [csv.DictReader(f)] (line 12), which reads records with
    [csv.reader] and the default dialect [excel]: delimiter [,], quote
    character the double quote ([quote]), a quote inside a quoted field
    written twice, no escape character, [skipinitialspace=False],
    [strict=False].

    The text file ([TextIOWrapper]) reads the bytes by chunks of 8192
    ([chunk_size]) and decodes each with the strict incremental UTF-8
    decoder: an ill-formed byte raises [UnicodeDecodeError] when the
    chunk holding it is read, and a sequence cut by the end of the file
    raises at the final call ([decode_limit], from [Utf8.scan_text]).
    The file is opened without [newline=''], in universal newlines
    mode: [\r\n] and [\r] are read as [\n] ([translate_newlines]), and
    iterating the file yields its lines, each with its final [\n]
    except possibly the last ([split_lines], [file_lines]).
    [read_lines] gives the lines the file yields and the exception
    raised when the next one is asked for: for a file that decodes, all
    its lines and the end of the file; otherwise the lines whose
    newline lies in the chunks read before the error, and
    [UnicodeDecodeError].

    Characters are kept as the bytes of their UTF-8 encoding.  The
    tokenizer compares characters only with ASCII ones, which never
    occur inside the encoding of another character, so bytes and code
    points split a decoded text into the same fields; the field-size
    limit counts code points, i.e. the bytes that do not continue a
    multi-byte sequence ([utf8_len]).  [file_lines] and [csv_rows] take
    the text of a file that decodes.

    The tokenizer is CPython's [Modules/_csv.c]:
    [parse_process_char] is one step of a state machine on the parser
    state (its [state], the [fields] of the record so far, the [field]
    being read), fed one character at a time and the end-of-line
    marker [EOL] after each line; [Reader_iternext] feeds whole lines
    until the state is back at [START_RECORD] and handles the end of
    the input ([reader_loop]; its [pending] argument is the exception
    the file raises after the lines given, [None] for the end of the
    file).  The branches on the escape character, [skipinitialspace]
    and [QUOTE_NONNUMERIC] are never taken with the default dialect and
    are left out, with the states [ESCAPED_CHAR],
    [ESCAPE_IN_QUOTED_FIELD] and [AFTER_ESCAPED_CRNL] that only an
    escape character reaches.  [parse_add_char] raises [_csv.Error]
    when a field would exceed [csv.field_size_limit()], 131072
    characters by default; [parser_ok] is the invariant that every
    field is within it.  The model follows Python 3.11 and later, where
    a NUL character is an ordinary character.

    [reader_rows] is the loop that takes records from the reader until
    it is exhausted, with fuel: every record uses at least one line, so
    one more than the number of lines is enough ([reader_rows_fuel]).
    [Writer] is [csv.writer] with the same dialect and [QUOTE_MINIMAL],
    the reference for the round trip [csv_roundtrip]. *)

From S2P Require Import Prelude Utf8.
From Stdlib Require Import Ascii NArith.

Module Csv.

Definition comma : ascii := ",".
Definition quote : ascii := ascii_of_nat 34.
Definition nl : ascii := "010".
Definition cr : ascii := "013".

Definition is_crnl (c : ascii) : bool := bool_decide (c = nl) || bool_decide (c = cr).

(** ** The lines of a file opened in text mode *)

(** Universal newlines: [\r\n] and a lone [\r] become [\n]. *)
Fixpoint translate_newlines (s : list ascii) : list ascii :=
  match s with
  | [] => []
  | c :: s' =>
      if ascii_dec c cr then
        nl :: match s' with
              | d :: s'' => if ascii_dec d nl then translate_newlines s'' else translate_newlines s'
              | [] => []
              end
      else c :: translate_newlines s'
  end.

(** Iterating a text file: the lines with their [\n]; [cur] is the
    line read so far. *)
Fixpoint split_lines (cur : list ascii) (s : list ascii) : list (list ascii) :=
  match s with
  | [] => match cur with [] => [] | _ => [cur] end
  | c :: s' =>
      if ascii_dec c nl then (cur ++ [nl]) :: split_lines [] s'
      else split_lines (cur ++ [c]) s'
  end.

Definition file_lines (text : list ascii) : list (list ascii) :=
  split_lines [] (translate_newlines text).

(** [TextIOWrapper] reads the file by chunks of 8192 bytes
    ([_CHUNK_SIZE]) and decodes each with the incremental UTF-8
    decoder. *)
Definition chunk_size : nat := 8192.

(** The bytes read before the decoder raises [UnicodeDecodeError]
    ([None]: it never does): the chunks before the one holding the
    ill-formed byte, or the whole file when a sequence is cut by its
    end, which raises at the final call. *)
Definition decode_limit (raw : list ascii) : option nat :=
  match Utf8.scan_text raw with
  | Utf8.Valid => None
  | Utf8.BadAt j => Some (chunk_size * (j / chunk_size))
  | Utf8.ShortAt _ => Some (length raw)
  end.

(** The characters decoded from a prefix: a sequence cut by its end
    waits in the decoder. *)
Definition decoded_prefix (s : list ascii) : list ascii :=
  match Utf8.scan_text s with
  | Utf8.Valid => s
  | Utf8.BadAt j | Utf8.ShortAt j => take j s
  end.

(** Iterating [open(csv_path, encoding="utf-8")]: the lines the file
    yields, and the exception raised when the next line is asked for
    after them ([None]: the end of the file).  Before a decoding error
    only the lines whose newline was decoded are yielded; a final [\r]
    waits for the next chunk, which could hold its [\n]. *)
Definition read_lines (raw : list ascii) : list (list ascii) * option exn :=
  match decode_limit raw with
  | None => (file_lines raw, None)
  | Some n =>
      let text := decoded_prefix (take n raw) in
      let text := if bool_decide (last text = Some cr) then removelast text else text in
      (filter (fun l => last l = Some nl) (file_lines text), Some UnicodeDecodeError)
  end.

(** ** The tokenizer ([Modules/_csv.c]) *)

Inductive pstate :=
| START_RECORD
| START_FIELD
| IN_FIELD
| IN_QUOTED_FIELD
| QUOTE_IN_QUOTED_FIELD
| EAT_CRNL.

#[export] Instance pstate_eq_dec : EqDecision pstate.
Proof. solve_decision. Defined.

(** A character of a line, or the end of the line. *)
Inductive input := Ch (c : ascii) | EOL.

Record parser := mk_parser {
  p_state : pstate;
  p_fields : list string;
  p_field : list ascii
}.

(** [csv.field_size_limit()] by default: [128 * 1024]. *)
Definition field_limit : N := 131072.

(** A byte that starts a character of the UTF-8 text. *)
Definition utf8_lead (c : ascii) : bool :=
  negb ((128 <=? nat_of_ascii c) && (nat_of_ascii c <? 192)).

(** [field_len]: the characters of a field, counted as Python does. *)
Definition utf8_len (l : list ascii) : nat := length (filter (fun c => utf8_lead c = true) l).

Definition parse_reset : parser := mk_parser START_RECORD [] [].

Definition parse_save_field (p : parser) : parser :=
  mk_parser (p_state p) (p_fields p ++ [String.string_of_list_ascii (p_field p)]) [].

Definition parse_add_char (p : parser) (c : ascii) : res parser :=
  if utf8_lead c && (field_limit <=? N.of_nat (utf8_len (p_field p)))%N then Err CsvError
  else Ok (mk_parser (p_state p) (p_fields p) (p_field p ++ [c])).

Definition set_state (st : pstate) (p : parser) : parser :=
  mk_parser st (p_fields p) (p_field p).

Definition res_set_state (st : pstate) (r : res parser) : res parser :=
  let* p := r in Ok (set_state st p).

(** [case START_FIELD]. *)
Definition start_field (p : parser) (i : input) : res parser :=
  match i with
  | EOL => Ok (set_state START_RECORD (parse_save_field p))
  | Ch c =>
      if is_crnl c then Ok (set_state EAT_CRNL (parse_save_field p))
      else if ascii_dec c quote then Ok (set_state IN_QUOTED_FIELD p)
      else if ascii_dec c comma then Ok (parse_save_field p)
      else res_set_state IN_FIELD (parse_add_char p c)
  end.

(** [parse_process_char]. *)
Definition parse_process_char (p : parser) (i : input) : res parser :=
  match p_state p with
  | START_RECORD =>
      match i with
      | EOL => Ok p
      | Ch c => if is_crnl c then Ok (set_state EAT_CRNL p)
                else start_field (set_state START_FIELD p) i
      end
  | START_FIELD => start_field p i
  | IN_FIELD =>
      match i with
      | EOL => Ok (set_state START_RECORD (parse_save_field p))
      | Ch c =>
          if is_crnl c then Ok (set_state EAT_CRNL (parse_save_field p))
          else if ascii_dec c comma then Ok (set_state START_FIELD (parse_save_field p))
          else parse_add_char p c
      end
  | IN_QUOTED_FIELD =>
      match i with
      | EOL => Ok p
      | Ch c =>
          if ascii_dec c quote then Ok (set_state QUOTE_IN_QUOTED_FIELD p)
          else parse_add_char p c
      end
  | QUOTE_IN_QUOTED_FIELD =>
      match i with
      | EOL => Ok (set_state START_RECORD (parse_save_field p))
      | Ch c =>
          if ascii_dec c quote then res_set_state IN_QUOTED_FIELD (parse_add_char p c)
          else if ascii_dec c comma then Ok (set_state START_FIELD (parse_save_field p))
          else if is_crnl c then Ok (set_state EAT_CRNL (parse_save_field p))
          else res_set_state IN_FIELD (parse_add_char p c)
      end
  | EAT_CRNL =>
      match i with
      | EOL => Ok (set_state START_RECORD p)
      | Ch c => if is_crnl c then Ok p else Err CsvError
      end
  end.

(** The characters of one line, then [EOL]. *)
Fixpoint parse_line (p : parser) (line : list ascii) : res parser :=
  match line with
  | [] => parse_process_char p EOL
  | c :: line' => let* p' := parse_process_char p (Ch c) in parse_line p' line'
  end.

(** The [do ... while (state != START_RECORD)] loop of [Reader_iternext]
    over the lines left; at the end of the input a field being read
    (or an open quoted field) is saved and the record returned. *)
Fixpoint reader_loop (pending : option exn) (p : parser) (lines : list (list ascii))
    : res (option (list string * list (list ascii))) :=
  match lines with
  | [] =>
      match pending with
      | Some e => Err e
      | None =>
          if bool_decide (p_field p <> []) || bool_decide (p_state p = IN_QUOTED_FIELD)
          then Ok (Some (p_fields (parse_save_field p), []))
          else Ok None
      end
  | l :: ls =>
      let* p' := parse_line p l in
      if bool_decide (p_state p' = START_RECORD) then Ok (Some (p_fields p', ls))
      else reader_loop pending p' ls
  end.

(** [next(reader)] on a file whose next line, once [lines] are read,
    raises [pending] ([None]: the end of the file). *)
Definition reader_next_in (pending : option exn) (lines : list (list ascii))
    : res (option (list string * list (list ascii))) :=
  reader_loop pending parse_reset lines.

(** [next(reader)] on the lines of a text: a record and the lines left,
    or [None] for [StopIteration]. *)
Definition reader_next (lines : list (list ascii)) : res (option (list string * list (list ascii))) :=
  reader_next_in None lines.

(** Taking every record, [list(csv.reader(f))]; [None] when the fuel
    runs out. *)
Fixpoint reader_rows (fuel : nat) (lines : list (list ascii)) : option (res (list (list string))) :=
  match fuel with
  | 0 => None
  | S fuel' =>
      match reader_next lines with
      | Err e => Some (Err e)
      | Ok None => Some (Ok [])
      | Ok (Some (row, rest)) =>
          match reader_rows fuel' rest with
          | Some (Ok rows) => Some (Ok (row :: rows))
          | r => r
          end
      end
  end.

Definition csv_rows (text : list ascii) : option (res (list (list string))) :=
  let lines := file_lines text in
  reader_rows (S (length lines)) lines.

(** ** [csv.writer], the reference of the round trip *)

Module Writer.

(** [QUOTE_MINIMAL]: a field is quoted when it holds the delimiter, the
    quote character or a character of the line terminator. *)
Definition needs_quote (f : list ascii) : bool :=
  existsb (fun c => bool_decide (c = comma) || bool_decide (c = quote) || is_crnl c) f.

Fixpoint double_quotes (f : list ascii) : list ascii :=
  match f with
  | [] => []
  | c :: f' => if ascii_dec c quote then quote :: quote :: double_quotes f' else c :: double_quotes f'
  end.

Definition quoted (f : list ascii) : list ascii := quote :: double_quotes f ++ [quote].

Definition write_field (f : list ascii) : list ascii :=
  if needs_quote f then quoted f else f.

Fixpoint join_comma (fs : list (list ascii)) : list ascii :=
  match fs with
  | [] => []
  | [f] => f
  | f :: fs' => f ++ comma :: join_comma fs'
  end.

(** [writerow]: a record of one empty field is written as two quote
    characters, an empty quoted field; the line
    terminator is [\r\n]. *)
Definition write_row (row : list string) : list ascii :=
  let fs := map String.list_ascii_of_string row in
  match fs with
  | [[]] => quoted [] ++ [cr; nl]
  | _ => join_comma (map write_field fs) ++ [cr; nl]
  end.

Definition write_rows (rows : list (list string)) : list ascii := concat (map write_row rows).

End Writer.

(** ** The reader as a stream of characters

    [parse_chars] feeds characters without [EOL]; [scan] reads one
    record from a text, feeding [EOL] after every newline: on a text
    whose lines all end with a newline it is [reader_loop] on the lines
    of the text ([reader_loop_scan]). *)

Fixpoint parse_chars (p : parser) (cs : list ascii) : res parser :=
  match cs with
  | [] => Ok p
  | c :: cs' => let* p' := parse_process_char p (Ch c) in parse_chars p' cs'
  end.

Definition at_eof (p : parser) : option (list string * list ascii) :=
  if bool_decide (p_field p <> []) || bool_decide (p_state p = IN_QUOTED_FIELD)
  then Some (p_fields (parse_save_field p), []) else None.

Fixpoint scan (p : parser) (s : list ascii) : res (option (list string * list ascii)) :=
  match s with
  | [] => Ok (at_eof p)
  | c :: s' =>
      let* p1 := parse_process_char p (Ch c) in
      if ascii_dec c nl then
        let* p2 := parse_process_char p1 EOL in
        if bool_decide (p_state p2 = START_RECORD) then Ok (Some (p_fields p2, s'))
        else scan p2 s'
      else scan p1 s'
  end.

Definition lines_of_result (r : option (list string * list ascii))
    : option (list string * list (list ascii)) :=
  match r with
  | Some (row, rest) => Some (row, split_lines [] rest)
  | None => None
  end.

(** ** Lemmas *)

Lemma parse_chars_app p cs c :
  parse_chars p (cs ++ [c]) = let* p' := parse_chars p cs in parse_process_char p' (Ch c).
Proof.
  revert p. induction cs as [|c' cs IH]; intros p; simpl.
  - by destruct (parse_process_char p (Ch c)).
  - destruct (parse_process_char p (Ch c')); [apply IH|done].
Qed.

Lemma parse_line_chars p l :
  parse_line p l = let* p' := parse_chars p l in parse_process_char p' EOL.
Proof.
  revert p. induction l as [|c l IH]; intros p; [done|]. simpl.
  destruct (parse_process_char p (Ch c)); [apply IH|done].
Qed.

(** The lines of a text ending with a newline are read as the text. *)
Lemma reader_loop_scan s : forall cur p,
  (s <> [] -> last s = Some nl) -> (s = [] -> cur = []) ->
  reader_loop None p (split_lines cur s) =
  res_bind (parse_chars p cur) (fun p' => res_bind (scan p' s) (fun r => Ok (lines_of_result r))).
Proof.
  induction s as [|c s IH]; intros cur p Hlast Hnil.
  - rewrite (Hnil eq_refl). simpl. unfold at_eof. by destruct (_ || _).
  - simpl. destruct (ascii_dec c nl) as [->|Hc].
    + cbn [reader_loop]. rewrite parse_line_chars, parse_chars_app, !res_bind_assoc.
      destruct (parse_chars p cur) as [q|e]; [simpl|done].
      destruct (parse_process_char q (Ch nl)) as [q1|e]; [simpl|done].
      destruct (parse_process_char q1 EOL) as [q2|e]; [simpl|done].
      case_bool_decide; [done|].
      destruct s as [|c' s'].
      * simpl. unfold at_eof. by destruct (_ || _).
      * rewrite (IH [] q2); [simpl; by destruct (scan q2 (c' :: s'))| |done].
        intros _. exact (Hlast ltac:(done)).
    + rewrite IH.
      * rewrite parse_chars_app, !res_bind_assoc.
        destruct (parse_chars p cur) as [q|e]; [simpl|done].
        by destruct (parse_process_char q (Ch c)).
      * intros Hs. destruct s as [|c' s']; [done|]. exact (Hlast ltac:(done)).
      * intros ->. simpl in Hlast. specialize (Hlast ltac:(done)). congruence.
Qed.

(** *** One step of the tokenizer, per state and kind of character *)

(** A character that ends or quotes nothing: no delimiter, quote or
    line-end character. *)
Definition plain (c : ascii) : bool :=
  negb (bool_decide (c = comma) || bool_decide (c = quote) || is_crnl c).

Lemma plain_inv c : plain c = true -> c <> comma /\ c <> quote /\ is_crnl c = false.
Proof.
  unfold plain. rewrite negb_true_iff, !orb_false_iff, !bool_decide_eq_false. tauto.
Qed.

Lemma is_crnl_false c : is_crnl c = false -> c <> nl /\ c <> cr.
Proof. unfold is_crnl. rewrite orb_false_iff, !bool_decide_eq_false. tauto. Qed.

Lemma utf8_len_le l : utf8_len l <= length l.
Proof. apply length_filter. Qed.

Lemma utf8_len_app l1 l2 : utf8_len (l1 ++ l2) = utf8_len l1 + utf8_len l2.
Proof. unfold utf8_len. by rewrite filter_app, length_app. Qed.

Lemma parse_add_char_ok st acc buf c :
  (N.of_nat (utf8_len (buf ++ [c])) <= field_limit)%N ->
  parse_add_char (mk_parser st acc buf) c = Ok (mk_parser st acc (buf ++ [c])).
Proof.
  rewrite utf8_len_app. unfold parse_add_char. cbn [p_field p_state p_fields]. intros H.
  destruct (utf8_lead c) eqn:E; [|done]. simpl.
  unfold utf8_len at 2 in H. rewrite filter_cons_True in H by done. simpl in H.
  by rewrite (proj2 (N.leb_gt _ _)) by lia.
Qed.

Lemma step_record_char st acc buf c :
  st = START_RECORD -> is_crnl c = false ->
  parse_process_char (mk_parser st acc buf) (Ch c) =
  parse_process_char (mk_parser START_FIELD acc buf) (Ch c).
Proof. intros -> Hc. unfold parse_process_char. simpl. by rewrite Hc. Qed.

Lemma step_open_quote acc buf :
  parse_process_char (mk_parser START_FIELD acc buf) (Ch quote) = Ok (mk_parser IN_QUOTED_FIELD acc buf).
Proof. reflexivity. Qed.

Lemma step_field_char st acc buf c :
  st = START_FIELD \/ st = IN_FIELD -> plain c = true -> (N.of_nat (utf8_len (buf ++ [c])) <= field_limit)%N ->
  parse_process_char (mk_parser st acc buf) (Ch c) = Ok (mk_parser IN_FIELD acc (buf ++ [c])).
Proof.
  intros Hst (Hcomma & Hquote & Hcrnl)%plain_inv Hlen.
  destruct Hst as [->| ->]; unfold parse_process_char, start_field; cbn [p_state]; rewrite Hcrnl;
    repeat (destruct (ascii_dec _ _); [congruence|]); rewrite parse_add_char_ok by done; done.
Qed.

Lemma step_quoted_char acc buf c :
  c <> quote -> (N.of_nat (utf8_len (buf ++ [c])) <= field_limit)%N ->
  parse_process_char (mk_parser IN_QUOTED_FIELD acc buf) (Ch c) = Ok (mk_parser IN_QUOTED_FIELD acc (buf ++ [c])).
Proof.
  intros Hq Hlen. unfold parse_process_char. cbn [p_state].
  destruct (ascii_dec _ _); [congruence|]. by apply parse_add_char_ok.
Qed.

Lemma step_quoted_quote acc buf :
  parse_process_char (mk_parser IN_QUOTED_FIELD acc buf) (Ch quote) =
  Ok (mk_parser QUOTE_IN_QUOTED_FIELD acc buf).
Proof. reflexivity. Qed.

Lemma step_double_quote acc buf :
  (N.of_nat (utf8_len (buf ++ [quote])) <= field_limit)%N ->
  parse_process_char (mk_parser QUOTE_IN_QUOTED_FIELD acc buf) (Ch quote) =
  Ok (mk_parser IN_QUOTED_FIELD acc (buf ++ [quote])).
Proof.
  intros Hlen. unfold parse_process_char. cbn [p_state].
  destruct (ascii_dec _ _); [|congruence]. by rewrite parse_add_char_ok.
Qed.

(** The states in which a field has been read and a delimiter or a
    newline ends it. *)
Definition field_end (st : pstate) : Prop :=
  st = START_FIELD \/ st = IN_FIELD \/ st = QUOTE_IN_QUOTED_FIELD.

Lemma step_comma st acc buf :
  field_end st ->
  parse_process_char (mk_parser st acc buf) (Ch comma) =
  Ok (mk_parser START_FIELD (acc ++ [String.string_of_list_ascii buf]) []).
Proof. intros [->|[->| ->]]; reflexivity. Qed.

Lemma step_newline st acc buf :
  field_end st ->
  parse_process_char (mk_parser st acc buf) (Ch nl) =
  Ok (mk_parser EAT_CRNL (acc ++ [String.string_of_list_ascii buf]) []).
Proof. intros [->|[->| ->]]; reflexivity. Qed.

(** *** Reading the fields [csv.writer] writes *)

Ltac ascii_neq := let H := fresh in intros H; vm_compute in H; discriminate H.

Lemma quote_neq_nl : quote <> nl. Proof. ascii_neq. Qed.
Lemma comma_neq_nl : comma <> nl. Proof. ascii_neq. Qed.

Lemma plain_neq_nl c : plain c = true -> c <> nl.
Proof. intros (_ & _ & Hc)%plain_inv. by apply is_crnl_false in Hc as []. Qed.

Lemma utf8_bound_prefix l1 l2 :
  (N.of_nat (utf8_len (l1 ++ l2)) <= field_limit)%N -> (N.of_nat (utf8_len l1) <= field_limit)%N.
Proof. rewrite utf8_len_app. lia. Qed.

Lemma scan_unquoted f : forall acc buf rest,
  Forall (fun c => plain c = true) f -> (N.of_nat (utf8_len (buf ++ f)) <= field_limit)%N ->
  scan (mk_parser IN_FIELD acc buf) (f ++ rest) = scan (mk_parser IN_FIELD acc (buf ++ f)) rest.
Proof.
  induction f as [|c f IH]; intros acc buf rest Hf Hlen; [by rewrite app_nil_r|].
  apply Forall_cons in Hf as [Hc Hf]. cbn [app scan].
  rewrite step_field_char by (auto || (apply (utf8_bound_prefix _ f); by rewrite <-app_assoc)).
  simpl. destruct (ascii_dec c nl) as [->|_]; [by apply plain_neq_nl in Hc|].
  rewrite IH; [by rewrite <-app_assoc|done|by rewrite <-app_assoc].
Qed.

Lemma scan_quoted_body f : forall acc buf rest,
  Forall (fun c => c <> cr) f -> (N.of_nat (utf8_len (buf ++ f)) <= field_limit)%N ->
  scan (mk_parser IN_QUOTED_FIELD acc buf) (Writer.double_quotes f ++ quote :: rest) =
  scan (mk_parser QUOTE_IN_QUOTED_FIELD acc (buf ++ f)) rest.
Proof.
  induction f as [|c f IH]; intros acc buf rest Hf Hlen.
  - cbn [Writer.double_quotes app scan]. rewrite step_quoted_quote. simpl.
    destruct (ascii_dec quote nl) as [H|_]; [by apply quote_neq_nl in H|]. by rewrite app_nil_r.
  - apply Forall_cons in Hf as [Hc Hf].
    assert (N.of_nat (utf8_len (buf ++ [c])) <= field_limit)%N as Hlen1
      by (apply (utf8_bound_prefix _ f); by rewrite <-app_assoc).
    assert (scan (mk_parser IN_QUOTED_FIELD acc (buf ++ [c])) (Writer.double_quotes f ++ quote :: rest) =
            scan (mk_parser QUOTE_IN_QUOTED_FIELD acc (buf ++ c :: f)) rest) as IH'
      by (rewrite IH, <-app_assoc; [done|done|by rewrite <-app_assoc]).
    cbn [Writer.double_quotes]. destruct (ascii_dec c quote) as [->|Hq].
    + cbn [app scan]. rewrite step_quoted_quote. simpl.
      destruct (ascii_dec quote nl) as [H|_]; [by apply quote_neq_nl in H|].
      rewrite step_double_quote by done. simpl.
      destruct (ascii_dec quote nl) as [H|_]; [by apply quote_neq_nl in H|]. exact IH'.
    + cbn [app scan]. rewrite step_quoted_char by done. simpl.
      destruct (ascii_dec c nl) as [->|_]; [|exact IH'].
      exact IH'.
Qed.

Lemma scan_quoted f acc rest :
  Forall (fun c => c <> cr) f -> (N.of_nat (utf8_len f) <= field_limit)%N ->
  scan (mk_parser START_FIELD acc []) (Writer.quoted f ++ rest) =
  scan (mk_parser QUOTE_IN_QUOTED_FIELD acc f) rest.
Proof.
  intros Hf Hlen. unfold Writer.quoted. cbn [app scan]. rewrite step_open_quote. simpl.
  destruct (ascii_dec quote nl) as [H|_]; [by apply quote_neq_nl in H|].
  rewrite <-app_assoc. by apply scan_quoted_body.
Qed.

Lemma needs_quote_false f : Writer.needs_quote f = false -> Forall (fun c => plain c = true) f.
Proof.
  unfold Writer.needs_quote, plain. induction f as [|c f IH]; simpl; [done|].
  intros [Hc Hf]%orb_false_iff. constructor; [by rewrite Hc|auto].
Qed.

Lemma scan_write_field f acc rest :
  Forall (fun c => c <> cr) f -> (N.of_nat (utf8_len f) <= field_limit)%N ->
  exists st, field_end st /\
    scan (mk_parser START_FIELD acc []) (Writer.write_field f ++ rest) = scan (mk_parser st acc f) rest.
Proof.
  intros Hf Hlen. unfold Writer.write_field. destruct (Writer.needs_quote f) eqn:Hq.
  - exists QUOTE_IN_QUOTED_FIELD. split; [by right; right|]. by apply scan_quoted.
  - apply needs_quote_false in Hq. destruct f as [|c f].
    + exists START_FIELD. split; [by left|done].
    + exists IN_FIELD. split; [by right; left|]. apply Forall_cons in Hq as [Hc Hq].
      cbn [app scan]. rewrite step_field_char by (auto || (apply (utf8_bound_prefix _ f); done)).
      simpl. destruct (ascii_dec c nl) as [->|_]; [by apply plain_neq_nl in Hc|].
      by rewrite scan_unquoted.
Qed.

Lemma scan_comma st acc buf rest :
  field_end st ->
  scan (mk_parser st acc buf) (comma :: rest) =
  scan (mk_parser START_FIELD (acc ++ [String.string_of_list_ascii buf]) []) rest.
Proof.
  intros Hst. cbn [scan]. rewrite step_comma by done. simpl.
  destruct (ascii_dec comma nl) as [H|_]; [by apply comma_neq_nl in H|done].
Qed.

Lemma scan_newline st acc buf rest :
  field_end st ->
  scan (mk_parser st acc buf) (nl :: rest) = Ok (Some (acc ++ [String.string_of_list_ascii buf], rest)).
Proof.
  intros Hst. cbn [scan]. rewrite step_newline by done. simpl.
  destruct (ascii_dec nl nl); [|done]. reflexivity.
Qed.

(** *** Reading the records [csv.writer] writes *)

(** A field [csv.writer] writes and the reader reads back: no carriage
    return (text mode turns it into a newline) and within the field-size
    limit. *)
Definition field_ok (f : list ascii) : Prop :=
  Forall (fun c => c <> cr) f /\ (N.of_nat (utf8_len f) <= field_limit)%N.

(** The text of a record after the newline translation of text mode:
    [
] is read as [
]. *)
Definition row_body (row : list string) : list ascii :=
  let fs := map String.list_ascii_of_string row in
  if bool_decide (fs = [[]]) then Writer.quoted []
  else Writer.join_comma (map Writer.write_field fs).

Lemma scan_fields fs : forall acc rest,
  fs <> [] -> Forall field_ok fs ->
  scan (mk_parser START_FIELD acc []) (Writer.join_comma (map Writer.write_field fs) ++ nl :: rest) =
  Ok (Some (acc ++ map String.string_of_list_ascii fs, rest)).
Proof.
  induction fs as [|f fs IH]; intros acc rest Hne Hfs; [done|].
  apply Forall_cons in Hfs as [[Hf Hlen] Hfs].
  destruct fs as [|f' fs'].
  - cbn [map Writer.join_comma].
    destruct (scan_write_field f acc (nl :: rest) Hf Hlen) as (st & Hst & ->).
    by rewrite scan_newline.
  - set (J := Writer.join_comma (map Writer.write_field (f' :: fs'))).
    assert (Writer.join_comma (map Writer.write_field (f :: f' :: fs')) = Writer.write_field f ++ comma :: J)
      as -> by reflexivity.
    rewrite <-app_assoc. cbn [app].
    destruct (scan_write_field f acc (comma :: (J ++ nl :: rest)) Hf Hlen) as (st & Hst & ->).
    rewrite scan_comma by done. unfold J. rewrite IH by done. by rewrite <-app_assoc.
Qed.

Lemma scan_record_start acc buf s :
  (exists c s', s = c :: s' /\ is_crnl c = false) ->
  scan (mk_parser START_RECORD acc buf) s = scan (mk_parser START_FIELD acc buf) s.
Proof. intros (c & s' & -> & Hc). cbn [scan]. by rewrite (step_record_char START_RECORD). Qed.

Lemma write_field_head f c rest :
  f <> [] -> Writer.write_field f = c :: rest -> is_crnl c = false.
Proof.
  unfold Writer.write_field, Writer.quoted. destruct (Writer.needs_quote f) eqn:Hq.
  - intros _ [= <- _]. reflexivity.
  - apply needs_quote_false in Hq. destruct f as [|c' f]; [done|]. intros _ [= -> _].
    apply Forall_cons in Hq as [Hc _]. by apply plain_inv in Hc as (_ & _ & ?).
Qed.

Lemma join_comma_cons x xs :
  Writer.join_comma (x :: xs) = x ++ match xs with [] => [] | _ => comma :: Writer.join_comma xs end.
Proof. destruct xs; simpl; by rewrite ?app_nil_r. Qed.

(** A record other than the empty one and the one of a single empty
    field starts with neither a newline
    nor a carriage return. *)
Lemma row_text_head f fs rest :
  f :: fs <> [[]] ->
  exists c s', Writer.join_comma (map Writer.write_field (f :: fs)) ++ rest = c :: s' /\ is_crnl c = false.
Proof.
  intros Hne. destruct f as [|c f].
  - destruct fs as [|f' fs']; [done|]. eexists _, _. split; reflexivity.
  - destruct (Writer.write_field (c :: f)) as [|c' r] eqn:Hw.
    { unfold Writer.write_field, Writer.quoted in Hw. by destruct (Writer.needs_quote _). }
    cbn [map]. rewrite join_comma_cons, Hw. eexists _, _. split; [reflexivity|].
    exact (write_field_head (c :: f) c' r ltac:(done) Hw).
Qed.

Lemma scan_row row rest :
  Forall field_ok (map String.list_ascii_of_string row) ->
  scan parse_reset (row_body row ++ nl :: rest) = Ok (Some (row, rest)).
Proof.
  intros Hok. unfold row_body.
  assert (map String.string_of_list_ascii (map String.list_ascii_of_string row) = row) as Hrow
    by (clear Hok; induction row as [|x row IH]; [done|];
        simpl; by rewrite String.string_of_list_ascii_of_string, IH).
  destruct (map String.list_ascii_of_string row) as [|f fs] eqn:E.
  - destruct row; [reflexivity|done].
  - case_bool_decide as Hq.
    + injection Hq as -> ->. rewrite <-Hrow. reflexivity.
    + unfold parse_reset. rewrite scan_record_start by by apply row_text_head.
      rewrite scan_fields by done. by rewrite <-Hrow.
Qed.

(** *** The text [csv.writer] writes, read in text mode *)

Lemma translate_no_cr x y :
  Forall (fun c => c <> cr) x -> translate_newlines (x ++ y) = x ++ translate_newlines y.
Proof.
  induction 1 as [|c x Hc _ IH]; [done|]. simpl.
  destruct (ascii_dec c cr); [done|]. by rewrite IH.
Qed.

Lemma translate_crnl y : translate_newlines (cr :: nl :: y) = nl :: translate_newlines y.
Proof. reflexivity. Qed.

Lemma double_quotes_no_cr f : Forall (fun c => c <> cr) f -> Forall (fun c => c <> cr) (Writer.double_quotes f).
Proof.
  assert (quote <> cr) by ascii_neq.
  induction 1 as [|c f Hc _ IH]; simpl; [done|]. destruct (ascii_dec c quote); repeat constructor; auto.
Qed.

Lemma quoted_no_cr f : Forall (fun c => c <> cr) f -> Forall (fun c => c <> cr) (Writer.quoted f).
Proof.
  assert (quote <> cr) by ascii_neq.
  intros Hf. unfold Writer.quoted. constructor; [done|]. apply Forall_app. split; [by apply double_quotes_no_cr|by constructor].
Qed.

Lemma join_fields_no_cr fs :
  Forall field_ok fs -> Forall (fun c => c <> cr) (Writer.join_comma (map Writer.write_field fs)).
Proof.
  assert (comma <> cr) by ascii_neq.
  induction 1 as [|f fs [Hf _] _ IH]; [constructor|]. cbn [map]. rewrite join_comma_cons.
  apply Forall_app. split.
  - unfold Writer.write_field. destruct (Writer.needs_quote f); [by apply quoted_no_cr|done].
  - destruct fs; [constructor|]. by constructor.
Qed.

Lemma row_body_no_cr row :
  Forall field_ok (map String.list_ascii_of_string row) -> Forall (fun c => c <> cr) (row_body row).
Proof.
  intros Hok. unfold row_body. case_bool_decide; [by apply quoted_no_cr|]. by apply join_fields_no_cr.
Qed.

Lemma write_row_body row : Writer.write_row row = row_body row ++ [cr; nl].
Proof.
  unfold Writer.write_row, row_body. case_bool_decide as H; [by rewrite H|].
  destruct (map String.list_ascii_of_string row) as [|[|c f] [|f' fs]]; done.
Qed.

(** The text of the records after the newline translation. *)
Definition rows_text (rows : list (list string)) : list ascii :=
  concat (map (fun row => row_body row ++ [nl]) rows).

Definition rows_ok (rows : list (list string)) : Prop :=
  Forall (fun row => Forall field_ok (map String.list_ascii_of_string row)) rows.

Lemma translate_write_rows rows :
  rows_ok rows -> translate_newlines (Writer.write_rows rows) = rows_text rows.
Proof.
  induction 1 as [|row rows Hrow _ IH]; [done|]. unfold Writer.write_rows, rows_text in *. simpl.
  rewrite write_row_body, <-app_assoc, translate_no_cr by (by apply row_body_no_cr).
  cbn [app]. rewrite translate_crnl, IH. by rewrite <-app_assoc.
Qed.

Lemma rows_text_last rows : rows_text rows <> [] -> last (rows_text rows) = Some nl.
Proof.
  induction rows as [|row rows IH]; [done|]. intros _. unfold rows_text in *. simpl.
  rewrite last_app. destruct (concat _) as [|c s] eqn:E.
  - by rewrite last_snoc.
  - by rewrite IH.
Qed.

Lemma split_lines_length_nl x : forall cur y,
  S (length (split_lines [] y)) <= length (split_lines cur (x ++ nl :: y)).
Proof.
  induction x as [|c x IH]; intros cur y; simpl.
  - destruct (ascii_dec nl nl); [simpl; lia|done].
  - destruct (ascii_dec c nl); simpl; [specialize (IH [] y); lia|apply IH].
Qed.

Lemma rows_text_lines rows : length rows <= length (split_lines [] (rows_text rows)).
Proof.
  induction rows as [|row rows IH]; [simpl; lia|]. unfold rows_text in *. simpl.
  rewrite <-app_assoc. cbn [app].
  pose proof (split_lines_length_nl (row_body row) []
                (concat (map (fun row => row_body row ++ [nl]) rows))). lia.
Qed.

Lemma reader_next_row row rows :
  Forall field_ok (map String.list_ascii_of_string row) ->
  reader_next (split_lines [] (rows_text (row :: rows))) = Ok (Some (row, split_lines [] (rows_text rows))).
Proof.
  intros Hok. unfold reader_next, reader_next_in. rewrite (reader_loop_scan _ []); [|apply rows_text_last|done].
  simpl. unfold rows_text at 1. simpl. rewrite <-app_assoc. cbn [app]. by rewrite scan_row.
Qed.

Lemma reader_rows_text rows : forall fuel,
  rows_ok rows -> length rows < fuel ->
  reader_rows fuel (split_lines [] (rows_text rows)) = Some (Ok rows).
Proof.
  induction rows as [|row rows IH]; intros [|fuel] Hok Hlen; simpl in Hlen; try lia; [done|].
  apply Forall_cons in Hok as [Hrow Hok]. cbn [reader_rows].
  rewrite reader_next_row by done. rewrite IH by (done || lia). done.
Qed.

(** *** Termination of the loop over the reader *)

Lemma reader_loop_suffix pending p lines r rest :
  reader_loop pending p lines = Ok (Some (r, rest)) -> exists pre, lines = pre ++ rest.
Proof.
  revert p. induction lines as [|l ls IH]; intros p; simpl.
  - destruct pending; [discriminate|]. destruct (_ || _); intros [= _ <-]. by exists [].
  - intros (p' & _ & H)%res_bind_Ok_iff. case_bool_decide.
    + injection H as _ <-. by exists [l].
    + destruct (IH p' H) as [pre ->]. by exists (l :: pre).
Qed.

(** Every record [next(reader)] returns uses at least one line. *)
Lemma reader_next_in_shorter pending lines r rest :
  reader_next_in pending lines = Ok (Some (r, rest)) -> length rest < length lines.
Proof.
  destruct lines as [|l ls]; [destruct pending; [discriminate|]; vm_compute; discriminate|].
  unfold reader_next_in. simpl.
  intros (p' & _ & H)%res_bind_Ok_iff. case_bool_decide.
  - injection H as _ <-. simpl. lia.
  - destruct (reader_loop_suffix _ _ _ _ _ H) as [pre ->]. rewrite length_app. simpl. lia.
Qed.

Lemma reader_next_shorter lines r rest :
  reader_next lines = Ok (Some (r, rest)) -> length rest < length lines.
Proof. apply reader_next_in_shorter. Qed.

Lemma reader_rows_some fuel : forall lines,
  length lines < fuel -> exists r, reader_rows fuel lines = Some r.
Proof.
  induction fuel as [|fuel IH]; intros lines Hlen; [lia|]. cbn [reader_rows].
  destruct (reader_next lines) as [[[row rest]|]|e] eqn:Hn; [|by eexists|by eexists].
  apply reader_next_shorter in Hn. destruct (IH rest) as [r ->]; [lia|].
  destruct r as [rows|e]; by eexists.
Qed.

Lemma reader_rows_S fuel lines :
  reader_rows (S fuel) lines =
  match reader_next lines with
  | Err e => Some (Err e)
  | Ok None => Some (Ok [])
  | Ok (Some (row, rest)) =>
      match reader_rows fuel rest with
      | Some (Ok rows) => Some (Ok (row :: rows))
      | r => r
      end
  end.
Proof. reflexivity. Qed.

Lemma reader_rows_mono fuel : forall lines r,
  reader_rows fuel lines = Some r -> reader_rows (S fuel) lines = Some r.
Proof.
  induction fuel as [|fuel IH]; intros lines r; [discriminate|].
  rewrite !(reader_rows_S _ lines).
  destruct (reader_next lines) as [[[row rest]|]|e]; [|done|done].
  destruct (reader_rows fuel rest) as [r'|] eqn:E; [|discriminate].
  by rewrite (IH rest r' E).
Qed.

Lemma reader_rows_mono_le fuel fuel' lines r :
  fuel <= fuel' -> reader_rows fuel lines = Some r -> reader_rows fuel' lines = Some r.
Proof. induction 1; auto using reader_rows_mono. Qed.

(** *** Lines of a file read in text mode *)

(** A line as text mode yields it: no carriage return, and a newline
    only at its end. *)
Definition text_line (l : list ascii) : Prop :=
  exists x, (l = x ++ [nl] \/ l = x) /\ Forall (fun c => is_crnl c = false) x.

Lemma translate_newlines_length_no_cr n : forall s,
  length s <= n ->
  length (translate_newlines s) <= length s /\ Forall (fun c => c <> cr) (translate_newlines s).
Proof.
  assert (nl <> cr) by ascii_neq.
  induction n as [|n IH]; intros [|c s] Hlen; simpl in *; try (split; [lia|constructor]); try lia.
  destruct (ascii_dec c cr) as [->|Hc].
  - destruct s as [|d s']; [split; [simpl; lia|by repeat constructor]|].
    destruct (ascii_dec d nl).
    + destruct (IH s') as [H1 H2]; [simpl in Hlen; lia|]. split; [simpl; lia|by constructor].
    + destruct (IH (d :: s')) as [H1 H2]; [simpl in *; lia|]. split; [simpl in *; lia|by constructor].
  - destruct (IH s) as [H1 H2]; [lia|]. split; [simpl; lia|by constructor].
Qed.

Lemma split_lines_text cur s :
  Forall (fun c => is_crnl c = false) cur -> Forall (fun c => c <> cr) s ->
  Forall text_line (split_lines cur s).
Proof.
  revert cur. induction s as [|c s IH]; intros cur Hcur Hs; simpl.
  - destruct cur; [constructor|]. constructor; [|constructor]. exists (a :: cur). split; [by right|done].
  - apply Forall_cons in Hs as [Hc Hs]. destruct (ascii_dec c nl) as [->|Hn].
    + constructor; [|by apply IH]. exists cur. split; [by left|done].
    + apply IH; [|done]. apply Forall_app. split; [done|]. constructor; [|done].
      unfold is_crnl. by rewrite !bool_decide_false.
Qed.

Lemma concat_split_lines cur s : concat (split_lines cur s) = cur ++ s.
Proof.
  revert cur. induction s as [|c s IH]; intros cur; simpl.
  - destruct cur; simpl; by rewrite ?app_nil_r.
  - destruct (ascii_dec c nl) as [->|_]; simpl; rewrite IH; by rewrite <-app_assoc.
Qed.

Lemma file_lines_text text :
  Forall text_line (file_lines text) /\ length (concat (file_lines text)) <= length text.
Proof.
  destruct (translate_newlines_length_no_cr (length text) text) as [Hlen Hcr]; [done|].
  unfold file_lines. split; [by apply split_lines_text|]. by rewrite concat_split_lines.
Qed.

(** A file that is valid UTF-8 yields the lines of its text. *)
Lemma read_lines_valid raw : Utf8.utf8_valid raw = true -> read_lines raw = (file_lines raw, None).
Proof. intros Hv. unfold read_lines, decode_limit. by rewrite Utf8.scan_text_valid. Qed.

(** An ill-formed byte in the first chunk: the first line asked for
    raises. *)
Lemma read_lines_first_chunk raw j :
  Utf8.scan_text raw = Utf8.BadAt j -> j < chunk_size -> read_lines raw = ([], Some UnicodeDecodeError).
Proof.
  intros Hs Hj. unfold read_lines, decode_limit. rewrite Hs, Nat.div_small by done.
  rewrite Nat.mul_0_r. reflexivity.
Qed.

(** *** One line never raises *)

Definition bounded (p : parser) (n : nat) : Prop :=
  (N.of_nat (length (p_field p) + n) <= field_limit)%N.

Lemma parse_add_char_len st acc buf c :
  (N.of_nat (S (length buf)) <= field_limit)%N ->
  parse_add_char (mk_parser st acc buf) c = Ok (mk_parser st acc (buf ++ [c])).
Proof.
  intros H. apply parse_add_char_ok. pose proof (utf8_len_le (buf ++ [c])).
  rewrite length_app in *. simpl in *. lia.
Qed.

Lemma step_char_ok p c :
  p_state p <> EAT_CRNL -> is_crnl c = false -> bounded p 1 ->
  exists p', parse_process_char p (Ch c) = Ok p' /\ p_state p' <> EAT_CRNL /\
             length (p_field p') <= S (length (p_field p)).
Proof.
  destruct p as [st acc buf]. unfold bounded. cbn [p_state p_field]. intros Hst Hc Hb.
  rewrite Nat.add_1_r in Hb.
  destruct st; try done; unfold parse_process_char, start_field, res_set_state, set_state;
    cbn [p_state p_fields p_field]; rewrite ?Hc; repeat (destruct (ascii_dec _ _));
    cbn [p_state p_fields p_field];
    rewrite ?parse_add_char_len by done;
    simpl; (eexists; split; [reflexivity|]); simpl; (split; [discriminate|]);
    rewrite ?length_app; simpl; lia.
Qed.

Lemma step_nl_ok p :
  p_state p <> EAT_CRNL -> bounded p 1 ->
  exists p', parse_process_char p (Ch nl) = Ok p' /\ length (p_field p') <= S (length (p_field p)).
Proof.
  destruct p as [st acc buf]. unfold bounded. cbn [p_state p_field]. intros Hst Hb.
  rewrite Nat.add_1_r in Hb.
  destruct st; try done; unfold parse_process_char; cbn [p_state]; simpl;
    rewrite ?parse_add_char_len by done; (eexists; split; [reflexivity|]); simpl;
    rewrite ?length_app; simpl; lia.
Qed.

Lemma step_eol_ok p :
  exists p', parse_process_char p EOL = Ok p' /\
    (p_state p' = START_RECORD \/ p_state p' = IN_QUOTED_FIELD) /\
    length (p_field p') <= length (p_field p).
Proof.
  destruct p as [st acc buf].
  destruct st; (eexists; split; [reflexivity|]); simpl; (split; [tauto|lia]).
Qed.

Lemma parse_chars_ok x : forall p,
  Forall (fun c => is_crnl c = false) x -> p_state p <> EAT_CRNL -> bounded p (length x) ->
  exists p', parse_chars p x = Ok p' /\ p_state p' <> EAT_CRNL /\
             length (p_field p') <= length (p_field p) + length x.
Proof.
  induction x as [|c x IH]; intros p Hx Hst Hb; [exists p; simpl; split; [done|split; [done|lia]]|].
  apply Forall_cons in Hx as [Hc Hx]. unfold bounded in Hb. simpl in Hb.
  destruct (step_char_ok p c) as (p1 & H1 & Hst1 & Hlen1); [done|done|unfold bounded; lia|].
  destruct (IH p1) as (p2 & H2 & Hst2 & Hlen2); [done|done|unfold bounded; lia|].
  exists p2. simpl. rewrite H1. simpl. split; [done|]. split; [done|lia].
Qed.

(** One text line takes the parser from a state other than [EAT_CRNL] to
    [START_RECORD] or [IN_QUOTED_FIELD] without [_csv.Error]: in text mode
    no carriage return reaches the tokenizer, so [EAT_CRNL] only ever sees
    the end of the line. *)
Lemma parse_line_ok p l :
  p_state p <> EAT_CRNL -> text_line l -> bounded p (length l) ->
  exists p', parse_line p l = Ok p' /\
    (p_state p' = START_RECORD \/ p_state p' = IN_QUOTED_FIELD) /\
    length (p_field p') <= length (p_field p) + length l.
Proof.
  intros Hst (x & Hl & Hx) Hb. rewrite parse_line_chars.
  destruct Hl as [->| ->]; unfold bounded in Hb; rewrite ?length_app in Hb |- *; simpl in *.
  - rewrite parse_chars_app.
    destruct (parse_chars_ok x p) as (p1 & -> & Hs1 & Hl1); [done|done|unfold bounded; lia|].
    destruct (step_nl_ok p1) as (p2 & H2 & Hl2); [done|unfold bounded; lia|].
    cbn [res_bind]. rewrite H2. cbn [res_bind].
    destruct (step_eol_ok p2) as (p3 & -> & Hs3 & Hl3). exists p3. split; [done|split; [done|lia]].
  - destruct (parse_chars_ok x p) as (p1 & -> & Hs1 & Hl1); [done|done|unfold bounded; lia|].
    cbn [res_bind]. destruct (step_eol_ok p1) as (p2 & -> & Hs2 & Hl2). exists p2. split; [done|split; [done|lia]].
Qed.

Lemma reader_loop_ok lines : forall p,
  p_state p <> EAT_CRNL -> Forall text_line lines -> bounded p (length (concat lines)) ->
  exists r, reader_loop None p lines = Ok r.
Proof.
  induction lines as [|l ls IH]; intros p Hst Hls Hb; simpl.
  - destruct (_ || _); by eexists.
  - apply Forall_cons in Hls as [Hl Hls]. unfold bounded in Hb. cbn [concat] in Hb. rewrite length_app in Hb.
    destruct (parse_line_ok p l) as (p1 & -> & Hs1 & Hl1); [done|done|unfold bounded; lia|].
    cbn [res_bind]. case_bool_decide; [by eexists|].
    apply IH; [destruct Hs1; congruence|done|unfold bounded; lia].
Qed.

(** The whole of [list(csv.reader(lines))] raises nothing when no field
    can reach the limit. *)
Lemma reader_rows_ok fuel : forall lines,
  length lines < fuel -> Forall text_line lines ->
  (N.of_nat (length (concat lines)) <= field_limit)%N ->
  exists rows, reader_rows fuel lines = Some (Ok rows).
Proof.
  induction fuel as [|fuel IH]; intros lines Hlen Hls Hb; [lia|]. rewrite reader_rows_S.
  destruct (reader_loop_ok lines parse_reset) as ([[row rest]|] & Hn);
    [done|done|unfold bounded; simpl; lia| |unfold reader_next, reader_next_in; rewrite Hn; by eexists].
  unfold reader_next, reader_next_in. rewrite Hn.
  destruct (reader_loop_suffix _ _ _ _ _ Hn) as [pre ->].
  apply Forall_app in Hls as [_ Hrest]. rewrite concat_app, length_app in Hb.
  destruct (IH rest) as [rows ->]; [|done|lia|by eexists].
  pose proof (reader_next_shorter (pre ++ rest) row rest Hn). lia.
Qed.

(** *** A field over the limit *)

Lemma utf8_len_single c : utf8_len [c] = if utf8_lead c then 1 else 0.
Proof.
  unfold utf8_len. destruct (utf8_lead c) eqn:E;
    [rewrite filter_cons_True|rewrite filter_cons_False]; simpl; congruence.
Qed.

Lemma parse_add_char_err st acc buf c :
  (N.of_nat (utf8_len buf) <= field_limit)%N ->
  (field_limit < N.of_nat (utf8_len (buf ++ [c])))%N ->
  parse_add_char (mk_parser st acc buf) c = Err CsvError.
Proof.
  rewrite utf8_len_app, utf8_len_single. unfold parse_add_char. cbn [p_field].
  destruct (utf8_lead c); [|lia]. intros. simpl. by rewrite (proj2 (N.leb_le _ _)) by lia.
Qed.

Lemma step_field_limit st acc buf c :
  st = START_FIELD \/ st = IN_FIELD -> plain c = true ->
  (N.of_nat (utf8_len buf) <= field_limit)%N ->
  (field_limit < N.of_nat (utf8_len (buf ++ [c])))%N ->
  parse_process_char (mk_parser st acc buf) (Ch c) = Err CsvError.
Proof.
  intros Hst (Hcomma & Hquote & Hcrnl)%plain_inv Hb Hlen.
  destruct Hst as [->| ->]; unfold parse_process_char, start_field; cbn [p_state]; rewrite Hcrnl;
    repeat (destruct (ascii_dec _ _); [congruence|]); by rewrite parse_add_char_err.
Qed.

Lemma parse_chars_app_l p a b :
  parse_chars p (a ++ b) = let* p' := parse_chars p a in parse_chars p' b.
Proof.
  revert p. induction a as [|c a IH]; intros p; [done|]. simpl.
  destruct (parse_process_char p (Ch c)); [apply IH|done].
Qed.

(** An unquoted field of ordinary characters raises [_csv.Error] at the
    character that takes it past the limit. *)
Lemma parse_chars_limit f : forall st acc buf,
  st = START_FIELD \/ st = IN_FIELD -> Forall (fun c => plain c = true) f ->
  (N.of_nat (utf8_len buf) <= field_limit)%N ->
  (field_limit < N.of_nat (utf8_len (buf ++ f)))%N ->
  parse_chars (mk_parser st acc buf) f = Err CsvError.
Proof.
  induction f as [|c f IH]; intros st acc buf Hst Hf Hb Hlen; [rewrite app_nil_r in Hlen; lia|].
  apply Forall_cons in Hf as [Hc Hf]. cbn [parse_chars].
  destruct (decide (N.of_nat (utf8_len (buf ++ [c])) <= field_limit)%N).
  - rewrite step_field_char by done. apply IH; [by right|done|done|by rewrite <-app_assoc].
  - by rewrite step_field_limit by (done || lia).
Qed.

Lemma split_lines_prefix x : forall cur s,
  Forall (fun c => c <> nl) x -> split_lines cur (x ++ s) = split_lines (cur ++ x) s.
Proof.
  induction x as [|c x IH]; intros cur s Hx; [by rewrite app_nil_r|].
  apply Forall_cons in Hx as [Hc Hx]. simpl. destruct (ascii_dec c nl); [done|].
  rewrite IH by done. by rewrite <-app_assoc.
Qed.

Lemma split_lines_head cur s : cur <> [] -> exists l ls, split_lines cur s = (cur ++ l) :: ls.
Proof.
  revert cur. induction s as [|c s IH]; intros cur Hcur; simpl.
  - destruct cur; [done|]. exists [], []. by rewrite app_nil_r.
  - destruct (ascii_dec c nl); [by eexists _, _|].
    destruct (IH (cur ++ [c])) as (l & ls & ->); [by destruct cur|].
    exists (c :: l), ls. by rewrite <-app_assoc.
Qed.

(** A file whose first field is an unquoted run of ordinary characters
    longer than the limit: the first [next(reader)] raises. *)
Lemma reader_next_field_limit f rest :
  Forall (fun c => plain c = true) f -> (field_limit < N.of_nat (utf8_len f))%N ->
  reader_next (file_lines (f ++ rest)) = Err CsvError.
Proof.
  intros Hf Hlen. destruct f as [|c f]; [unfold utf8_len in Hlen; simpl in Hlen; lia|].
  assert (Hcr : Forall (fun c => is_crnl c = false) (c :: f)).
  { eapply Forall_impl; [exact Hf|]. intros x (_ & _ & ?)%plain_inv. done. }
  unfold file_lines. rewrite translate_no_cr
    by (eapply Forall_impl; [exact Hcr|]; intros x (_ & ?)%is_crnl_false; done).
  rewrite (split_lines_prefix (c :: f) []) by (eapply Forall_impl; [exact Hcr|];
    intros x (? & _)%is_crnl_false; done).
  destruct (split_lines_head ([] ++ c :: f) (translate_newlines rest)) as (l & ls & ->); [done|].
  unfold reader_next, reader_next_in. cbn [reader_loop]. rewrite parse_line_chars, parse_chars_app_l.
  apply Forall_cons in Hcr as [Hc _]. unfold parse_reset. cbn [app parse_chars].
  rewrite step_record_char by done.
  assert (E : parse_chars (mk_parser START_FIELD [] []) (c :: f) = Err CsvError)
    by (apply parse_chars_limit; [by left|done|unfold utf8_len; simpl; lia|done]).
  cbn [parse_chars] in E. by rewrite E.
Qed.

(** *** The field-size limit, an invariant of the parser *)

(** A field within [csv.field_size_limit()]. *)
Definition field_fits (l : list ascii) : Prop := (N.of_nat (utf8_len l) <= field_limit)%N.

(** Every field of the parser, saved or being read, fits. *)
Definition parser_ok (p : parser) : Prop :=
  field_fits (p_field p) /\ Forall (fun f => field_fits (String.list_ascii_of_string f)) (p_fields p).

Lemma parse_reset_ok : parser_ok parse_reset.
Proof. split; [unfold field_fits, utf8_len; simpl; lia|constructor]. Qed.

Lemma set_state_ok st p : parser_ok p -> parser_ok (set_state st p).
Proof. done. Qed.

Lemma parse_save_field_ok p : parser_ok p -> parser_ok (parse_save_field p).
Proof.
  intros [Hf Hfs]. split; [unfold field_fits, utf8_len; simpl; lia|]. simpl.
  apply Forall_app. split; [done|]. constructor; [|constructor].
  by rewrite String.list_ascii_of_string_of_list_ascii.
Qed.

Lemma parse_add_char_inv p c p' : parser_ok p -> parse_add_char p c = Ok p' -> parser_ok p'.
Proof.
  intros [Hf Hfs]. unfold parse_add_char.
  destruct (utf8_lead c && _)%N eqn:E; [discriminate|]. intros [= <-]. split; [|done].
  unfold field_fits in *. cbn [p_field]. rewrite utf8_len_app, utf8_len_single.
  destruct (utf8_lead c); simpl in E; [apply N.leb_gt in E|]; lia.
Qed.

Lemma res_set_state_inv st r p' :
  (forall p, r = Ok p -> parser_ok p) -> res_set_state st r = Ok p' -> parser_ok p'.
Proof. destruct r as [p|]; simpl; [|discriminate]. intros Hp [= <-]. by apply set_state_ok, Hp. Qed.

#[local] Hint Resolve set_state_ok parse_save_field_ok : core.

(** Every step of the tokenizer keeps the fields within the limit. *)
Lemma parse_process_char_inv p i p' : parser_ok p -> parse_process_char p i = Ok p' -> parser_ok p'.
Proof.
  intros Hp. unfold parse_process_char, start_field.
  repeat case_match; intros Hs; simplify_eq;
    solve [auto | eapply parse_add_char_inv; [|exact Hs]; auto
          | eapply res_set_state_inv; [|exact Hs]; intros ? ?; eapply parse_add_char_inv; [|eassumption]; auto].
Qed.

Lemma parse_line_inv l : forall p p', parser_ok p -> parse_line p l = Ok p' -> parser_ok p'.
Proof.
  induction l as [|c l IH]; intros p p' Hp; simpl; [by apply parse_process_char_inv|].
  intros (p1 & H1 & H2)%res_bind_Ok_iff. eapply IH; [|exact H2]. by eapply parse_process_char_inv.
Qed.

Lemma reader_loop_inv pending lines : forall p row rest,
  parser_ok p -> reader_loop pending p lines = Ok (Some (row, rest)) ->
  Forall (fun f => field_fits (String.list_ascii_of_string f)) row.
Proof.
  induction lines as [|l ls IH]; intros p row rest Hp; simpl.
  - destruct pending; [discriminate|]. destruct (_ || _); [|discriminate].
    intros [= <- _]. by apply parse_save_field_ok.
  - intros (p1 & H1 & H2)%res_bind_Ok_iff. apply (parse_line_inv _ _ _ Hp) in H1.
    case_bool_decide; [injection H2 as <- _; apply H1|]. by eapply IH.
Qed.

Lemma reader_rows_inv fuel : forall lines rows,
  reader_rows fuel lines = Some (Ok rows) ->
  Forall (Forall (fun f => field_fits (String.list_ascii_of_string f))) rows.
Proof.
  induction fuel as [|fuel IH]; intros lines rows; [discriminate|]. rewrite reader_rows_S.
  destruct (reader_next lines) as [[[row rest]|]|e] eqn:Hn; [|intros [= <-]; constructor|discriminate].
  destruct (reader_rows fuel rest) as [[rows'|e]|] eqn:Hr; intros H; try discriminate.
  injection H as <-. constructor; [|by eapply IH].
  eapply reader_loop_inv; [apply parse_reset_ok|exact Hn].
Qed.

(** *** A quote never closed *)

Lemma quoted_chars l : forall acc buf,
  Forall (fun c => c <> quote) l -> field_fits (buf ++ l) ->
  parse_chars (mk_parser IN_QUOTED_FIELD acc buf) l = Ok (mk_parser IN_QUOTED_FIELD acc (buf ++ l)).
Proof.
  induction l as [|c l IH]; intros acc buf Hl Hfit; [by rewrite app_nil_r|].
  apply Forall_cons in Hl as [Hc Hl]. cbn [parse_chars].
  rewrite step_quoted_char by (done || (apply (utf8_bound_prefix _ l); by rewrite <-app_assoc)).
  cbn [res_bind]. rewrite IH by (done || by rewrite <-app_assoc). by rewrite <-app_assoc.
Qed.

(** Inside a quoted field, lines without a quote are read into the field,
    their newlines included, up to the end of the input. *)
Lemma quoted_lines lines : forall acc buf,
  Forall (fun c => c <> quote) (concat lines) -> field_fits (buf ++ concat lines) ->
  reader_loop None (mk_parser IN_QUOTED_FIELD acc buf) lines =
  Ok (Some (acc ++ [String.string_of_list_ascii (buf ++ concat lines)], [])).
Proof.
  induction lines as [|l ls IH]; intros acc buf Hq Hfit.
  { cbn [reader_loop concat]. rewrite (bool_decide_true (_ = IN_QUOTED_FIELD)) by done.
    by rewrite orb_true_r, app_nil_r. }
  cbn [concat] in Hq, Hfit. apply Forall_app in Hq as [Hl Hls]. cbn [reader_loop].
  rewrite parse_line_chars, quoted_chars by (done || (apply (utf8_bound_prefix _ (concat ls)); by rewrite <-app_assoc)).
  cbn [res_bind parse_process_char p_state]. rewrite bool_decide_false by done.
  rewrite IH by (done || by rewrite <-app_assoc). by rewrite <-app_assoc.
Qed.

(** ** Properties *)

(** C24: What [csv.writer] writes, read back in text mode through
    [csv.reader], gives back the records written: quoting, doubled
    quotes, separators and newlines inside fields, the empty record and
    the lone empty field included, for every field without a carriage
    return and within the field-size limit. *)
Theorem csv_roundtrip rows :
  rows_ok rows -> csv_rows (Writer.write_rows rows) = Some (Ok rows).
Proof.
  intros Hok. unfold csv_rows, file_lines. rewrite translate_write_rows by done.
  apply reader_rows_text; [done|]. pose proof (rows_text_lines rows). lia.
Qed.

(** C28: The record loop over the lines of a file terminates: with more
    fuel than lines it returns a result, and more fuel never changes
    that result, so [csv_rows] computes the exact result of
    [list(csv.reader(f))]. *)
Theorem reader_rows_fuel fuel lines :
  length lines < fuel ->
  exists r, reader_rows fuel lines = Some r /\
            forall fuel', fuel <= fuel' -> reader_rows fuel' lines = Some r.
Proof.
  intros Hlen. destruct (reader_rows_some fuel lines Hlen) as [r Hr].
  exists r. split; [done|]. intros fuel' Hle. by eapply reader_rows_mono_le.
Qed.

(** C29: Reading a text file through [csv.reader] never raises
    [_csv.Error] when the text is shorter than the field-size limit:
    text mode turns every carriage return into a newline, so the
    tokenizer never sees a line break inside an unquoted field, and
    stray or unterminated quotes are accepted by the [excel] dialect. *)
Theorem csv_rows_no_error text :
  (N.of_nat (length text) <= field_limit)%N -> exists rows, csv_rows text = Some (Ok rows).
Proof.
  intros Hb. destruct (file_lines_text text) as [Hls Hc].
  apply reader_rows_ok; [lia|done|lia].
Qed.

(** C17: Every field of every record [csv.reader] returns holds at
    most [csv.field_size_limit()] characters (131072): the tokenizer
    checks the limit before it adds each character, and raises
    [_csv.Error] instead of going past it. *)
Theorem csv_rows_field_bound text rows :
  csv_rows text = Some (Ok rows) ->
  Forall (Forall (fun f => (N.of_nat (utf8_len (String.list_ascii_of_string f)) <= field_limit)%N)) rows.
Proof. apply reader_rows_inv. Qed.

(** C21: A text that opens a quote and never closes it is read without
    an error as one record of one field: the rest of the text, its
    newlines included ([strict=False] accepts the end of the input
    inside a quoted field). *)
Theorem csv_rows_open_quote body :
  Forall (fun c => c <> quote /\ c <> cr) body -> field_fits body ->
  csv_rows (quote :: body) = Some (Ok [[String.string_of_list_ascii body]]).
Proof.
  intros Hb Hfit. assert (quote <> cr) by ascii_neq. assert (quote <> nl) by ascii_neq.
  unfold csv_rows, file_lines.
  rewrite <-(app_nil_r (quote :: body)), translate_no_cr, app_nil_r
    by (constructor; [done|]; eapply Forall_impl; [exact Hb|]; naive_solver).
  cbn [split_lines]. destruct (ascii_dec quote nl); [done|]. cbn [app].
  destruct (split_lines_head [quote] body) as (l & ls & Hs); [done|]. rewrite Hs.
  pose proof (concat_split_lines [quote] body) as Hc. rewrite Hs in Hc. injection Hc as Hc.
  cbn [reader_rows]. unfold reader_next, reader_next_in.
  change (reader_loop None parse_reset (([quote] ++ l) :: ls))
    with (reader_loop None (mk_parser IN_QUOTED_FIELD [] []) (l :: ls)).
  rewrite quoted_lines; cbn [concat app]; rewrite ?Hc.
  - by destruct ls.
  - apply (Forall_impl _ _ _ Hb). naive_solver.
  - done.
Qed.

(** ** Witnesses *)

Lemma csv_roundtrip_witness :
  let rows := [["Define, briefly"; String.String quote "quoted"; String.append "one" (String.String nl "two")];
               [String.EmptyString]; []; ["4"]] in
  rows_ok rows /\ csv_rows (Writer.write_rows rows) = Some (Ok rows).
Proof.
  intros rows. assert (Hok : rows_ok rows).
  { unfold rows_ok, field_ok. apply (bool_decide_unpack _). vm_compute. reflexivity. }
  split; [exact Hok|exact (csv_roundtrip rows Hok)].
Defined.

Lemma reader_rows_fuel_witness :
  let lines := file_lines (String.list_ascii_of_string (String.append "a,b" (String.String cr (String.String quote "c")))) in
  length lines < 3 /\ exists r, reader_rows 3 lines = Some r /\
    forall fuel', 3 <= fuel' -> reader_rows fuel' lines = Some r.
Proof.
  intros lines. assert (H : length lines < 3) by (vm_compute; lia).
  split; [exact H|exact (reader_rows_fuel 3 lines H)].
Defined.

Lemma csv_rows_no_error_witness :
  let text := String.list_ascii_of_string (String.append "q" (String.String quote (String.append "x" (String.String cr String.EmptyString)))) in
  (N.of_nat (length text) <= field_limit)%N /\ exists rows, csv_rows text = Some (Ok rows).
Proof.
  intros text. assert (H : (N.of_nat (length text) <= field_limit)%N) by (vm_compute; discriminate).
  split; [exact H|exact (csv_rows_no_error text H)].
Defined.

Lemma csv_rows_field_bound_witness :
  let text := Writer.write_rows [["a"; "b,c"]; ["é"]] in
  csv_rows text = Some (Ok [["a"; "b,c"]; ["é"]]) /\
  Forall (Forall (fun f => (N.of_nat (utf8_len (String.list_ascii_of_string f)) <= field_limit)%N))
    [["a"; "b,c"]; ["é"]].
Proof.
  intros text. assert (H : csv_rows text = Some (Ok [["a"; "b,c"]; ["é"]])) by (vm_compute; reflexivity).
  split; [exact H|exact (csv_rows_field_bound text _ H)].
Defined.

(** A text that opens a quote on its first line: the record is the rest
    of the text, its newline included. *)
Lemma csv_rows_open_quote_witness :
  let body := String.list_ascii_of_string (String.append "x,y" (String.String nl "z")) in
  Forall (fun c => c <> quote /\ c <> cr) body /\ field_fits body /\
  csv_rows (quote :: body) = Some (Ok [[String.string_of_list_ascii body]]).
Proof.
  intros body. assert (Hb : Forall (fun c => c <> quote /\ c <> cr) body) by decide_goal.
  assert (Hf : field_fits body) by (unfold field_fits; vm_compute; discriminate).
  split; [exact Hb|split; [exact Hf|exact (csv_rows_open_quote body Hb Hf)]].
Defined.

End Csv.
