(* ===== verification/DictReader.v ===== *)
(** * [csv.DictReader], as [load_prompt_library] iterates it

    Line 12 of [src/app.py] wraps the file in [csv.DictReader(f)] and
    line 13 iterates it.  [DictReader] reads the first row as the field
    names (without skipping a blank one), skips blank data rows, and
    turns each data row into the dict [dict(zip(fieldnames, row))],
    extended by [restkey] (default [None]) holding the extra fields of a
    long row, or by [restval] (default [None]) for every field name a
    short row lacks.  Python dicts keep the last value written for a
    key, so a duplicated column name takes the value of its last column.

    The rows are the lists of fields that the CSV tokenizer of [Csv]
    returns ([Csv.reader_rows]); a
    dict is a [gmap] whose keys are [Some name] for a column name and
    [None] for Python's [None] key ([restkey]).

    Beyond the lookups of a record, the file shows that with distinct
    column names a full row gives the same record whatever the order
    of the columns ([dict_row_reorder_eq], through stdpp's
    [list_to_map_proper]), and that under a column name a record holds
    a text or [None] only ([dict_row_scalar]). *)

From S2P Require Import Prelude PyVal.
From stdpp Require Import gmap.

Abbreviation pydict := (gmap (option string) pyval).

Section DictReader.

(** The dict literal loop [for k, v in pairs: d[k] = v]. *)
Definition dict_insert_all (d : pydict) (kvs : list (option string * pyval)) : pydict :=
  foldl (fun d kv => <[kv.1 := kv.2]> d) d kvs.

(** [zip(fieldnames, row)], as the pairs the dict is built from. *)
Definition zip_pairs (fieldnames row : list string) : list (option string * pyval) :=
  zip_with (fun k v => (Some k, VStr v)) fieldnames row.

(** [dict(zip(fieldnames, row))]. *)
Definition dict_zip (fieldnames row : list string) : pydict :=
  dict_insert_all ∅ (zip_pairs fieldnames row).

(** The body of [DictReader.__next__] after a non-blank [row] was read. *)
Definition dict_row (fieldnames row : list string) : pydict :=
  let d := dict_zip fieldnames row in
  let lf := length fieldnames in
  let lr := length row in
  if lf <? lr then <[None := VList (drop lf row)]> d
  else if lr <? lf then
    dict_insert_all d (map (fun key => (Some key, VNone)) (drop lr fieldnames))
  else d.

(** Iteration over the data rows: [while row == []: row = next(reader)]
    skips the blank rows. *)
Fixpoint dict_rows (fieldnames : list string) (rows : list (list string)) : list pydict :=
  match rows with
  | [] => []
  | [] :: rows' => dict_rows fieldnames rows'
  | row :: rows' => dict_row fieldnames row :: dict_rows fieldnames rows'
  end.

(** The records of [csv.DictReader] over the rows of a file: the first
    row, blank or not, is the list of field names; an empty file has
    no records. *)
Definition dict_reader (rows : list (list string)) : list pydict :=
  match rows with
  | [] => []
  | header :: data => dict_rows header data
  end.

End DictReader.

(** ** Lemmas *)

(** The value a non-blank row gives a field: its text, or [None] when
    the row is too short to reach the field's column. *)
Definition field_value (row : list string) (j : nat) : pyval :=
  match row !! j with
  | Some s => VStr s
  | None => VNone
  end.

Lemma dict_insert_all_app (d : pydict) kvs1 kvs2 :
  dict_insert_all d (kvs1 ++ kvs2) = dict_insert_all (dict_insert_all d kvs1) kvs2.
Proof. apply foldl_app. Qed.

Lemma dict_insert_all_notin (d : pydict) kvs k :
  k ∉ kvs.*1 -> dict_insert_all d kvs !! k = d !! k.
Proof.
  revert d. induction kvs as [|[k' v] kvs IH]; intros d Hk; [done|].
  simpl in Hk. apply not_elem_of_cons in Hk as [Hne Hk].
  unfold dict_insert_all; simpl. fold (dict_insert_all (<[k':=v]> d) kvs).
  rewrite IH by done. by apply lookup_insert_ne.
Qed.

(** The last write of a key is the one the dict keeps. *)
Lemma dict_insert_all_last (d : pydict) pre k v post :
  k ∉ post.*1 -> dict_insert_all d (pre ++ (k, v) :: post) !! k = Some v.
Proof.
  intros Hk. rewrite dict_insert_all_app.
  unfold dict_insert_all at 1; simpl. fold (dict_insert_all (<[k:=v]> (dict_insert_all d pre)) post).
  rewrite dict_insert_all_notin by done. apply lookup_insert_eq.
Qed.

Lemma zip_pairs_keys ks vs k : Some k ∈ (zip_pairs ks vs).*1 -> k ∈ ks.
Proof.
  revert vs. induction ks as [|k' ks IH]; intros [|v vs]; simpl; set_solver.
Qed.

Lemma restval_keys (ks : list string) k :
  Some k ∈ (map (fun key => (Some key, VNone)) ks).*1 -> k ∈ ks.
Proof. induction ks as [|k' ks IH]; simpl; set_solver. Qed.

Lemma zip_pairs_middle h r j k s :
  h !! j = Some k -> r !! j = Some s ->
  zip_pairs h r = zip_pairs (take j h) (take j r) ++ (Some k, VStr s)
                  :: zip_pairs (drop (S j) h) (drop (S j) r).
Proof.
  intros Hh Hr.
  rewrite <-(take_drop_middle h j k Hh) at 1. rewrite <-(take_drop_middle r j s Hr) at 1.
  unfold zip_pairs. rewrite zip_with_app; [done|].
  apply lookup_lt_Some in Hh, Hr. rewrite !length_take. lia.
Qed.

Lemma drop_suffix_notin (h : list string) k j n :
  j < n -> k ∉ drop (S j) h -> k ∉ drop n h.
Proof.
  intros Hj Hk Hin. apply Hk.
  replace (drop n h) with (drop (n - S j) (drop (S j) h)) in Hin
    by (rewrite drop_drop; f_equal; lia).
  by apply (subseteq_drop (n - S j)).
Qed.

Lemma dict_zip_lookup h r j k s :
  h !! j = Some k -> k ∉ drop (S j) h -> r !! j = Some s ->
  dict_zip h r !! Some k = Some (VStr s).
Proof.
  intros Hh Hk Hr. unfold dict_zip. rewrite (zip_pairs_middle h r j k s Hh Hr).
  apply dict_insert_all_last. intros Hin%zip_pairs_keys. done.
Qed.

Lemma dict_zip_absent h r k : k ∉ h -> dict_zip h r !! Some k = None.
Proof.
  intros Hk. unfold dict_zip. rewrite dict_insert_all_notin; [apply lookup_empty|].
  by intros ?%zip_pairs_keys.
Qed.

Lemma zip_pairs_no_none ks vs : None ∉ (zip_pairs ks vs).*1.
Proof. revert vs. induction ks; intros [|v vs]; simpl; set_solver. Qed.

Lemma restval_no_none (ks : list string) : None ∉ (map (fun key => (Some key, VNone)) ks).*1.
Proof. induction ks; simpl; set_solver. Qed.

Lemma drop_middle_lookup (h : list string) (n j : nat) k :
  n <= j -> h !! j = Some k -> drop n h !! (j - n) = Some k.
Proof. intros ? ?. rewrite lookup_drop. by replace (n + (j - n)) with j by lia. Qed.

(** A field takes the value of its last column: the row's text there,
    or [None] when the row does not reach that column. *)
Lemma dict_row_lookup h r j k :
  h !! j = Some k -> k ∉ drop (S j) h -> dict_row h r !! Some k = Some (field_value r j).
Proof.
  intros Hh Hk. unfold dict_row, field_value.
  pose proof (lookup_lt_Some _ _ _ Hh) as Hj.
  destruct (Nat.ltb_spec (length h) (length r)).
  - rewrite lookup_insert_ne by done.
    destruct (lookup_lt_is_Some_2 r j) as [s Hs]; [lia|]. rewrite Hs.
    eapply dict_zip_lookup; eauto.
  - destruct (Nat.ltb_spec (length r) (length h));
      [|destruct (lookup_lt_is_Some_2 r j) as [s Hs]; [lia|];
        rewrite Hs; eapply dict_zip_lookup; eauto].
    destruct (r !! j) as [s|] eqn:Hr.
    + rewrite dict_insert_all_notin; [eapply dict_zip_lookup; eauto|].
      intros ?%restval_keys. apply lookup_lt_Some in Hr.
      by eapply (drop_suffix_notin h k j (length r)).
    + apply lookup_ge_None in Hr.
      pose proof (drop_middle_lookup h (length r) j k Hr Hh) as Hd.
      rewrite <-(take_drop_middle _ _ _ Hd), map_app. simpl.
      apply dict_insert_all_last. intros ?%restval_keys. apply Hk.
      rewrite drop_drop in *. by replace (S j) with (length r + S (j - length r)) by lia.
Qed.

Lemma dict_row_absent h r k : k ∉ h -> dict_row h r !! Some k = None.
Proof.
  intros Hk. unfold dict_row.
  destruct (length h <? length r); [rewrite lookup_insert_ne by done; by apply dict_zip_absent|].
  destruct (length r <? length h); [|by apply dict_zip_absent].
  rewrite dict_insert_all_notin; [by apply dict_zip_absent|].
  intros ?%restval_keys. apply Hk. by eapply subseteq_drop.
Qed.

Lemma NoDup_not_in_drop (h : list string) j k :
  NoDup h -> h !! j = Some k -> k ∉ drop (S j) h.
Proof.
  intros Hnd Hh Hin. apply list_elem_of_lookup in Hin as [i Hi].
  rewrite lookup_drop in Hi. pose proof (NoDup_lookup _ _ _ _ Hnd Hh Hi). lia.
Qed.

Lemma dict_rows_length h rows :
  length (dict_rows h rows) = length (filter (fun r : list string => r <> []) rows).
Proof.
  induction rows as [|r rows IH]; [done|]. destruct r as [|c r].
  - rewrite filter_cons_False by naive_solver. exact IH.
  - rewrite filter_cons_True by done. cbn [dict_rows length]. by rewrite IH.
Qed.

(** ** Column order

    The same table with its columns in another order: the new column
    [i] is the old column [p !! i], for a permutation [p] of the column
    indices; a blank row stays blank. *)

Definition reorder (p : list nat) (row : list string) : list string :=
  omap (fun i => row !! i) p.

Lemma reorder_nil p : reorder p [] = [].
Proof. by induction p. Qed.

Lemma dict_insert_all_rev (d : pydict) kvs :
  dict_insert_all d kvs = foldr (fun kv m => <[kv.1 := kv.2]> m) d (rev kvs).
Proof.
  revert d. induction kvs as [|kv kvs IH]; intros d; [done|].
  unfold dict_insert_all in *; simpl. by rewrite IH, fold_right_app.
Qed.

(** With distinct keys, the dict does not depend on the order of the
    writes. *)
Lemma dict_insert_all_list_to_map kvs :
  NoDup kvs.*1 -> dict_insert_all ∅ kvs = list_to_map kvs.
Proof.
  intros Hnd. rewrite dict_insert_all_rev. apply (list_to_map_proper (rev kvs) kvs).
  - by rewrite <-Permutation_rev.
  - symmetry. apply Permutation_rev.
Qed.

Lemma zip_pairs_keys_eq h r :
  length r = length h -> (zip_pairs h r).*1 = Some <$> h.
Proof.
  revert r. induction h as [|k h IH]; intros [|v r] Hl; simpl in *; try done.
  f_equal. apply IH. lia.
Qed.

Lemma dict_row_full h r : length r = length h -> dict_row h r = dict_zip h r.
Proof.
  intros Hl. unfold dict_row. rewrite Hl, Nat.ltb_irrefl. done.
Qed.

Lemma reorder_lookup_seq {A} (l : list A) : forall x k n,
  omap (fun i => (x :: l) !! i) (seq (S k) n) = omap (fun i => l !! i) (seq k n).
Proof. intros x k n. revert k. induction n as [|n IH]; intros k; [done|]. simpl. by rewrite IH. Qed.

Lemma reorder_id {A} (l : list A) : omap (fun i => l !! i) (seq 0 (length l)) = l.
Proof.
  induction l as [|x l IH]; [done|]. simpl. f_equal. by rewrite reorder_lookup_seq.
Qed.

Lemma perm_seq_bound (p : list nat) n : p ≡ₚ seq 0 n -> Forall (fun i => i < n) p.
Proof.
  intros Hp. apply Forall_forall. intros i Hi.
  rewrite Hp, elem_of_seq in Hi. lia.
Qed.

Lemma length_reorder p (l : list string) :
  Forall (fun i => i < length l) p -> length (reorder p l) = length p.
Proof.
  induction 1 as [|i p Hi _ IH]; [done|]. unfold reorder in *. simpl.
  destruct (lookup_lt_is_Some_2 l i Hi) as [x ->]. simpl. f_equal. exact IH.
Qed.

Lemma zip_pairs_reorder p h r :
  length r = length h -> Forall (fun i => i < length h) p ->
  zip_pairs (reorder p h) (reorder p r) = omap (fun i => zip_pairs h r !! i) p.
Proof.
  intros Hl. induction 1 as [|i p Hi _ IH]; [done|]. unfold reorder, zip_pairs in *. simpl.
  destruct (lookup_lt_is_Some_2 h i Hi) as [k Hk].
  destruct (lookup_lt_is_Some_2 r i) as [v Hv]; [lia|].
  rewrite Hk, Hv, lookup_zip_with, Hk, Hv. simpl. f_equal. exact IH.
Qed.

(** Permuting the columns of a full row permutes the pairs of its dict. *)
Lemma zip_pairs_reorder_perm p h r :
  length r = length h -> p ≡ₚ seq 0 (length h) ->
  zip_pairs (reorder p h) (reorder p r) ≡ₚ zip_pairs h r.
Proof.
  intros Hl Hp. rewrite zip_pairs_reorder by auto using perm_seq_bound.
  assert (length (zip_pairs h r) = length h) as Hz
    by (unfold zip_pairs; rewrite length_zip_with; lia).
  rewrite Hp, <-Hz. by rewrite reorder_id.
Qed.

Lemma NoDup_zip_pairs_keys h r : NoDup h -> length r = length h -> NoDup (zip_pairs h r).*1.
Proof. intros Hnd Hl. rewrite zip_pairs_keys_eq by done. apply NoDup_fmap_2_strong; [congruence|done]. Qed.

Lemma dict_row_reorder_eq p h r :
  NoDup h -> p ≡ₚ seq 0 (length h) -> length r = length h ->
  dict_row (reorder p h) (reorder p r) = dict_row h r.
Proof.
  intros Hnd Hp Hl. pose proof (perm_seq_bound p _ Hp) as Hb.
  assert (length (reorder p r) = length (reorder p h)) as Hl'
    by (rewrite !length_reorder; [done|done|by rewrite Hl]).
  rewrite !dict_row_full by done. unfold dict_zip.
  pose proof (zip_pairs_reorder_perm p h r Hl Hp) as Hperm.
  pose proof (NoDup_zip_pairs_keys h r Hnd Hl) as Hkeys.
  assert (NoDup (zip_pairs (reorder p h) (reorder p r)).*1) as Hkeys'
    by (rewrite Hperm; exact Hkeys).
  rewrite !dict_insert_all_list_to_map by done.
  symmetry. by apply list_to_map_proper.
Qed.

Lemma dict_rows_reorder p h data :
  NoDup h -> p ≡ₚ seq 0 (length h) ->
  Forall (fun r : list string => r = [] \/ length r = length h) data ->
  dict_rows (reorder p h) (map (reorder p) data) = dict_rows h data.
Proof.
  intros Hnd Hp. induction 1 as [|r data Hr _ IH]; [done|].
  destruct Hr as [->|Hl]; [cbn [map]; by rewrite reorder_nil|].
  destruct r as [|c r']; [cbn [map]; by rewrite reorder_nil|].
  pose proof (length_reorder p (c :: r')) as Hlen.
  rewrite Hl in Hlen. specialize (Hlen (perm_seq_bound p _ Hp)).
  cbn [map]. destruct (reorder p (c :: r')) as [|c' r''] eqn:E.
  - apply Permutation_length in Hp. rewrite length_seq in Hp. simpl in *. lia.
  - cbn [dict_rows]. rewrite <-E, dict_row_reorder_eq by done. f_equal. exact IH.
Qed.

(** ** The values of a record

    Under a column name a record holds a text or [None]; only the
    [None] key ([restkey]) holds a list. *)

Definition scalar (v : pyval) : bool :=
  match v with VList _ => false | _ => true end.

Lemma dict_insert_all_lookup_inv (d : pydict) kvs k v :
  dict_insert_all d kvs !! k = Some v -> d !! k = Some v \/ (k, v) ∈ kvs.
Proof.
  revert d. induction kvs as [|[k' v'] kvs IH]; intros d; [by left|].
  unfold dict_insert_all; simpl. fold (dict_insert_all (<[k':=v']> d) kvs).
  intros [Hd|Hin]%IH; [|right; by right].
  destruct (decide (k = k')) as [->|Hne].
  - rewrite lookup_insert_eq in Hd. injection Hd as ->. right. by left.
  - rewrite lookup_insert_ne in Hd by done. by left.
Qed.

Lemma dict_row_scalar h r k v : dict_row h r !! Some k = Some v -> scalar v = true.
Proof.
  assert (forall kvs, Forall (fun kv => scalar kv.2 = true) kvs ->
            forall d, (forall v, d !! Some k = Some v -> scalar v = true) ->
            forall v, dict_insert_all d kvs !! Some k = Some v -> scalar v = true) as Hgen.
  { intros kvs Hkvs d Hd v' [Hv|Hin]%dict_insert_all_lookup_inv; [by apply Hd|].
    by eapply Forall_forall in Hkvs; [|exact Hin]. }
  assert (Forall (fun kv => scalar kv.2 = true) (zip_pairs h r)) as Hz.
  { unfold zip_pairs. revert r. induction h; intros [|x r]; simpl; constructor; auto. }
  assert (forall v, dict_zip h r !! Some k = Some v -> scalar v = true) as Hdz.
  { apply Hgen; [done|]. intros ? Hv. by rewrite lookup_empty in Hv. }
  revert v. unfold dict_row. destruct (_ <? _); [intros v; rewrite lookup_insert_ne by done; apply Hdz|].
  destruct (_ <? _); [|apply Hdz]. apply Hgen; [|exact Hdz].
  apply Forall_forall. intros kv (x & -> & _)%list_elem_of_fmap. done.
Qed.

Lemma dict_rows_inv h data d : d ∈ dict_rows h data -> exists r, d = dict_row h r.
Proof.
  induction data as [|[|c r] data IH]; simpl; [set_solver|exact IH|].
  intros [->|Hin]%elem_of_cons; [by eexists|auto].
Qed.
