(* ===== verification/Loader.v ===== *)
(** * The library loader [load_prompt_library] (src/app.py, lines 9-20)

    The function opens the CSV file, iterates [csv.DictReader] over it
    and appends, for every record, a dict with the four fields
    [question], [method], [explanation], [code], read by name with
    [row[...]].  [load_prompt_library] takes the records of the file
    (the output of the CSV tokenizer of [Csv]); [load_prompt_library_file]
    takes the bytes of the file and runs the text file
    ([Csv.read_lines]: UTF-8 decoding by chunks, universal newlines),
    the tokenizer, the reader and the loop in step, as Python does, so
    a [KeyError], a [_csv.Error] or a [UnicodeDecodeError] is raised
    where Python meets it.  Opening the file is I/O.

    A prompt entry is the record [prompt_entry].  Its fields are Python
    values: [csv.DictReader] fills the fields a short row lacks with
    [None], and [load_prompt_library] copies them unchecked.  The
    theorems give the entries of a well-formed file, the error of a file
    lacking a column, the empty library of a file without data rows,
    the independence from the column order, the type of the fields
    (text or [None]), the [UnicodeDecodeError] of an ill-formed byte in
    the first chunk, and the [_csv.Error] of a first column name over
    the field-size limit.  [load_file_rows] relates the two loaders:
    on a file that decodes and whose records [csv.reader] reads without
    error, the loader on the bytes returns what [load_prompt_library]
    returns on the records. *)

From S2P Require Import Prelude Utf8 PyVal Csv DictReader.
From stdpp Require Import gmap.
From Stdlib Require Import Ascii.

Record prompt_entry := mk_entry {
  question : pyval;
  method : pyval;
  explanation : pyval;
  code : pyval
}.

#[export] Instance prompt_entry_eq_dec : EqDecision prompt_entry.
Proof. solve_decision. Defined.

(** [row[key]] on a record: [KeyError key] when the column is absent. *)
Definition getitem (row : pydict) (key : string) : res pyval :=
  of_option (KeyError key) (row !! Some key).

(** The dict literal of lines 14-19; Python evaluates its values left
    to right, so the first absent column in this order is reported. *)
Definition entry_of_row (row : pydict) : res prompt_entry :=
  let* q := getitem row "question" in
  let* m := getitem row "method" in
  let* e := getitem row "explanation" in
  let* c := getitem row "code" in
  Ok (mk_entry q m e c).

(** [data = []; for row in reader: data.append({...}); return data]. *)
Definition load_prompt_library (csv_rows : list (list string)) : res (list prompt_entry) :=
  append_loop entry_of_row [] (dict_reader csv_rows).

(** ** The loader over the text of the file

    Python runs the tokenizer, [csv.DictReader] and the loop of lines
    13-19 in step: [DictReader.__next__] asks [csv.reader] for the next
    record only when the loop asks for the next row, so the loader stops
    at the first [KeyError] without reading the rest of the file, and a
    [_csv.Error] is raised when the tokenizer reaches its record.  The
    first record read is the header ([DictReader.fieldnames]); a file
    without one has no rows.  [load_loop] is the [for] loop after the
    header, with fuel: each turn takes at least one line, so more fuel
    than lines is enough. *)
Fixpoint load_loop (fuel : nat) (fieldnames : list string) (lines : list (list ascii))
    (pending : option exn) (data : list prompt_entry) : option (res (list prompt_entry)) :=
  match fuel with
  | 0 => None
  | S fuel' =>
      match Csv.reader_next_in pending lines with
      | Err e => Some (Err e)
      | Ok None => Some (Ok data)
      | Ok (Some (row, rest)) =>
          if bool_decide (row = []) then load_loop fuel' fieldnames rest pending data
          else match entry_of_row (dict_row fieldnames row) with
               | Err e => Some (Err e)
               | Ok entry => load_loop fuel' fieldnames rest pending (data ++ [entry])
               end
      end
  end.

(** [load_prompt_library(csv_path)] on the bytes of the file: the lines
    the UTF-8 text file yields, and the [UnicodeDecodeError] raised
    after them if the file is not well-formed ([Csv.read_lines]). *)
Definition load_prompt_library_file (raw : list ascii) : option (res (list prompt_entry)) :=
  let (lines, pending) := Csv.read_lines raw in
  match Csv.reader_next_in pending lines with
  | Err e => Some (Err e)
  | Ok None => Some (Ok [])
  | Ok (Some (header, rest)) => load_loop (length lines) header rest pending []
  end.

(** The column names the loader reads, in the order it reads them. *)
Definition required_fields : list string := ["question"; "method"; "explanation"; "code"].

(** The entry a data row gives when the header has the four columns at
    [jq], [jm], [je], [jc]. *)
Definition entry_at (jq jm je jc : nat) (r : list string) : prompt_entry :=
  mk_entry (field_value r jq) (field_value r jm) (field_value r je) (field_value r jc).

(** Column [j] is the last column named [k] in the header [h]: the
    column whose value a record keeps for [k]. *)
Definition last_col (h : list string) (k : string) (j : nat) : Prop :=
  h !! j = Some k /\ k ∉ drop (S j) h.

(** ** Lemmas *)

Lemma last_occurrence (h : list string) k :
  k ∈ h -> exists j, h !! j = Some k /\ k ∉ drop (S j) h.
Proof.
  induction h as [|a h IH]; [set_solver|]. intros Hin.
  destruct (decide (k ∈ h)) as [Hk|Hk].
  - destruct (IH Hk) as (j & Hj & Hd). by exists (S j).
  - apply elem_of_cons in Hin as [->|]; [|done]. by exists 0.
Qed.

Lemma getitem_present h r k : k ∈ h -> is_ok (getitem (dict_row h r) k) = true.
Proof.
  intros (j & Hj & Hd)%last_occurrence. unfold getitem.
  by rewrite (dict_row_lookup h r j k Hj Hd).
Qed.

Lemma getitem_absent h r k : k ∉ h -> getitem (dict_row h r) k = Err (KeyError k).
Proof. intros Hk. unfold getitem. by rewrite dict_row_absent. Qed.

Lemma getitem_at h r j k :
  last_col h k j -> getitem (dict_row h r) k = Ok (field_value r j).
Proof. intros [Hj Hd]. unfold getitem. by rewrite (dict_row_lookup h r j k Hj Hd). Qed.

Lemma NoDup_last_col h j k : NoDup h -> h !! j = Some k -> last_col h k j.
Proof. intros. split; [done|]. by apply NoDup_not_in_drop. Qed.

Lemma ok_bind {A B} (m : res A) (k : A -> res B) e :
  is_ok m = true -> (forall a, m = Ok a -> k a = Err e) -> res_bind m k = Err e.
Proof. destruct m; naive_solver. Qed.

(** One column of [entry_of_row]: an absent column raises, a present
    one lets the literal go on. *)
Ltac field_step Hk :=
  rewrite filter_cons in Hk; case_decide; simpl in Hk;
  [injection Hk as <-; by rewrite getitem_absent
  |apply ok_bind; [by apply getitem_present|intros ? _]].

(** The record of every row fails with the first required column the
    header lacks. *)
Lemma entry_of_row_missing h r k :
  head (filter (fun f => f ∉ h) required_fields) = Some k ->
  entry_of_row (dict_row h r) = Err (KeyError k).
Proof.
  unfold required_fields, entry_of_row. intros Hk.
  do 4 field_step Hk. discriminate.
Qed.

Lemma entry_of_row_at h r jq jm je jc :
  last_col h "question" jq -> last_col h "method" jm ->
  last_col h "explanation" je -> last_col h "code" jc ->
  entry_of_row (dict_row h r) = Ok (entry_at jq jm je jc r).
Proof.
  intros Hq Hm He Hc. unfold entry_of_row.
  by rewrite (getitem_at h r jq), (getitem_at h r jm), (getitem_at h r je), (getitem_at h r jc).
Qed.

Lemma map_res_entry_of_rows h data jq jm je jc :
  last_col h "question" jq -> last_col h "method" jm ->
  last_col h "explanation" je -> last_col h "code" jc ->
  map_res entry_of_row (dict_rows h data) =
  Ok (map (entry_at jq jm je jc) (filter (fun r : list string => r <> []) data)).
Proof.
  intros Hq Hm He Hc. induction data as [|r data IH]; [done|]. destruct r as [|c r].
  - rewrite filter_cons_False by naive_solver. exact IH.
  - rewrite filter_cons_True by done. cbn [dict_rows map_res].
    by rewrite (entry_of_row_at h (c :: r) jq jm je jc), IH.
Qed.

(** The fields of an entry are texts or [None], never lists. *)
Definition entry_scalar (e : prompt_entry) : bool :=
  scalar (question e) && scalar (method e) && scalar (explanation e) && scalar (code e).

Lemma getitem_scalar h r k v : getitem (dict_row h r) k = Ok v -> scalar v = true.
Proof. unfold getitem. rewrite of_option_Ok. apply dict_row_scalar. Qed.

Lemma entry_of_row_scalar h r e : entry_of_row (dict_row h r) = Ok e -> entry_scalar e = true.
Proof.
  unfold entry_of_row. intros Hb. res_inv. subst e. unfold entry_scalar. simpl.
  repeat (apply andb_true_intro; split); eauto using getitem_scalar.
Qed.

Lemma dict_reader_inv rows d : d ∈ dict_reader rows -> exists h r, d = dict_row h r.
Proof.
  destruct rows as [|h data]; simpl; [set_solver|]. intros (r & ->)%dict_rows_inv. by eexists _, _.
Qed.

(** Whenever the tokenizer reads the lines left without an error, the
    interleaved loop gives what the append loop gives on those records. *)
Lemma load_loop_rows fuel : forall h lines data rows,
  Csv.reader_rows fuel lines = Some (Ok rows) ->
  load_loop fuel h lines None data = Some (append_loop entry_of_row data (dict_rows h rows)).
Proof.
  induction fuel as [|fuel IH]; intros h lines data rows Hr; [discriminate|].
  rewrite Csv.reader_rows_S in Hr. cbn [load_loop]. fold (Csv.reader_next lines).
  destruct (Csv.reader_next lines) as [[[row rest]|]|e]; [|by injection Hr as <-|discriminate].
  destruct (Csv.reader_rows fuel rest) as [[rows'|e]|] eqn:Hr'; try discriminate.
  injection Hr as <-. destruct row as [|c row].
  - rewrite bool_decide_true by done. cbn [dict_rows]. by apply IH.
  - rewrite bool_decide_false by done. cbn [dict_rows append_loop].
    destruct (entry_of_row (dict_row h (c :: row))); [by apply IH|done].
Qed.

(** The file-level loader is the loader of the records [csv.reader]
    reads, whenever it reads them without an error. *)
Lemma load_file_rows text rows :
  Utf8.utf8_valid text = true ->
  Csv.csv_rows text = Some (Ok rows) -> load_prompt_library_file text = Some (load_prompt_library rows).
Proof.
  unfold Csv.csv_rows, load_prompt_library_file, load_prompt_library. intros Hv Hr.
  rewrite Csv.read_lines_valid by done. fold (Csv.reader_next (Csv.file_lines text)).
  rewrite Csv.reader_rows_S in Hr.
  destruct (Csv.reader_next _) as [[[header rest]|]|e]; [|by injection Hr as <-|discriminate].
  destruct (Csv.reader_rows _ rest) as [[rows'|e]|] eqn:Hr'; try discriminate.
  injection Hr as <-. by apply load_loop_rows.
Qed.

(** The fuel of the loop is enough: the loader always returns. *)
Lemma load_loop_some fuel : forall h lines pending data,
  length lines < fuel -> exists r, load_loop fuel h lines pending data = Some r.
Proof.
  induction fuel as [|fuel IH]; intros h lines pending data Hlen; [lia|]. cbn [load_loop].
  destruct (Csv.reader_next_in pending lines) as [[[row rest]|]|e] eqn:Hn; [|by eexists|by eexists].
  apply Csv.reader_next_in_shorter in Hn.
  case_bool_decide; [apply IH; lia|]. destruct (entry_of_row _); [apply IH; lia|by eexists].
Qed.

Lemma load_prompt_library_file_some raw : exists r, load_prompt_library_file raw = Some r.
Proof.
  unfold load_prompt_library_file. destruct (Csv.read_lines raw) as [lines pending].
  destruct (Csv.reader_next_in pending lines) as [[[header rest]|]|e] eqn:Hn; [|by eexists|by eexists].
  apply load_loop_some. by apply Csv.reader_next_in_shorter in Hn.
Qed.

(** ** Theorems *)

Lemma load_as_map_res rows :
  load_prompt_library rows = map_res entry_of_row (dict_reader rows).
Proof.
  unfold load_prompt_library. rewrite append_loop_mapM.
  by destruct (map_res entry_of_row (dict_reader rows)).
Qed.

(** C11: When the header has the four columns, each at its last position
    [jq], [jm], [je], [jc] (with distinct names, their only position),
    the loader returns one entry per non-blank data row, in file order,
    each field taken from that column, or [None] when the row is too
    short to reach it; a duplicated column name keeps its last column. *)
Theorem load_prompt_library_ok h data jq jm je jc :
  last_col h "question" jq -> last_col h "method" jm ->
  last_col h "explanation" je -> last_col h "code" jc ->
  load_prompt_library (h :: data) =
  Ok (map (entry_at jq jm je jc) (filter (fun r : list string => r <> []) data)).
Proof. intros. rewrite load_as_map_res. by apply map_res_entry_of_rows. Qed.

(** C12: When the header lacks a required column and the file has a
    non-blank data row, the loader raises [KeyError] naming the first
    missing column in the order question, method, explanation, code. *)
Theorem load_prompt_library_missing h data k :
  Exists (fun r : list string => r <> []) data ->
  head (filter (fun f => f ∉ h) required_fields) = Some k ->
  load_prompt_library (h :: data) = Err (KeyError k).
Proof.
  intros Hex Hk. rewrite load_as_map_res. simpl.
  induction Hex as [[|c r] data Hr|[|c r] data _ IH]; try done;
    cbn [dict_rows map_res]; by rewrite (entry_of_row_missing h (c :: r) k Hk).
Qed.

(** C13: A file with no non-blank data row (empty, header only, or blank
    lines after the header) loads as the empty library without an
    error, whatever its header holds. *)
Theorem load_prompt_library_no_records rows :
  Forall (fun r : list string => r = []) (tail rows) -> load_prompt_library rows = Ok [].
Proof.
  rewrite load_as_map_res. destruct rows as [|h data]; [done|]. simpl.
  induction 1 as [|r data -> _ IH]; [done|]. exact IH.
Qed.

(** C34: The loader reads the columns by name: with distinct column
    names and rows as long as the header (or blank), the same file with
    its columns in any other order loads as the same library. *)
Theorem load_prompt_library_reorder p h data :
  NoDup h -> p ≡ₚ seq 0 (length h) ->
  Forall (fun r : list string => r = [] \/ length r = length h) data ->
  load_prompt_library (map (reorder p) (h :: data)) = load_prompt_library (h :: data).
Proof. intros. rewrite !load_as_map_res. simpl. by rewrite dict_rows_reorder. Qed.

(** C35: Every field of every entry the loader returns is a text or
    [None]: the list [csv.DictReader] keeps for the extra fields of a
    long row never reaches an entry. *)
Theorem load_prompt_library_scalar rows lib :
  load_prompt_library rows = Ok lib -> Forall (fun e => entry_scalar e = true) lib.
Proof.
  rewrite load_as_map_res. intros Hl%map_res_Ok_Forall2.
  eapply Forall2_Forall_r; [exact Hl|]. apply Forall_forall.
  intros d (h & r & ->)%dict_reader_inv e. apply entry_of_row_scalar.
Qed.

(** C33: A library file with an ill-formed UTF-8 byte in its first
    8192 bytes (the first chunk the text file decodes) raises
    [UnicodeDecodeError] when [csv.DictReader] asks for the header,
    before any row is read, whatever the rest of the file holds. *)
Theorem load_prompt_library_file_decode_error raw j :
  Utf8.scan_text raw = Utf8.BadAt j -> j < Csv.chunk_size ->
  load_prompt_library_file raw = Some (Err UnicodeDecodeError).
Proof. intros Hs Hj. unfold load_prompt_library_file. by rewrite (Csv.read_lines_first_chunk raw j). Qed.

(** C20: A library file in UTF-8 whose first column name is an unquoted
    run of ordinary characters longer than [csv.field_size_limit()]
    (131072 characters) makes the loader raise [_csv.Error] while
    reading the header, before any entry is built. *)
Theorem load_prompt_library_file_field_limit f rest :
  Utf8.utf8_valid (f ++ rest) = true ->
  Forall (fun c => Csv.plain c = true) f -> (Csv.field_limit < N.of_nat (Csv.utf8_len f))%N ->
  load_prompt_library_file (f ++ rest) = Some (Err CsvError).
Proof.
  intros Hv Hf Hlen. unfold load_prompt_library_file. rewrite Csv.read_lines_valid by done.
  fold (Csv.reader_next (Csv.file_lines (f ++ rest))). by rewrite Csv.reader_next_field_limit.
Qed.

(** ** Witnesses *)

Lemma load_prompt_library_ok_witness :
  load_prompt_library
    [["question"; "method"; "explanation"; "code"; "method"];
     ["How do I compare two means?"; "z-test"; "Compare means"; "ttest_ind(a, b)"; "t-test"];
     [];
     ["How do I test independence?"; "chi-square"]] =
  Ok [mk_entry (VStr "How do I compare two means?") (VStr "t-test")
               (VStr "Compare means") (VStr "ttest_ind(a, b)");
      mk_entry (VStr "How do I test independence?") VNone VNone VNone].
Proof.
  rewrite (load_prompt_library_ok _ _ 0 4 2 3); [reflexivity|..];
    (split; [reflexivity|decide_goal]).
Defined.

Lemma load_prompt_library_missing_witness :
  load_prompt_library [["question"; "answer"; "explanation"]; []; ["q"; "a"; "e"]] =
  Err (KeyError "method").
Proof. apply load_prompt_library_missing; [decide_goal|reflexivity]. Defined.

Lemma load_prompt_library_no_records_witness :
  load_prompt_library [["name"; "score"]; []; []] = Ok [].
Proof. apply load_prompt_library_no_records. decide_goal. Defined.

Lemma load_prompt_library_reorder_witness :
  load_prompt_library
    (map (reorder [3; 0; 1; 2])
       [["question"; "method"; "explanation"; "code"];
        ["How do I test independence?"; "chi-square"; "Contingency table"; "chi2_contingency(t)"];
        []]) =
  load_prompt_library
    [["question"; "method"; "explanation"; "code"];
     ["How do I test independence?"; "chi-square"; "Contingency table"; "chi2_contingency(t)"];
     []].
Proof. apply load_prompt_library_reorder; decide_goal. Defined.

Lemma load_prompt_library_scalar_witness :
  Forall (fun e => entry_scalar e = true)
    [mk_entry (VStr "q") (VStr "m") (VStr "e") (VStr "c")].
Proof.
  apply (load_prompt_library_scalar
           [["question"; "method"; "explanation"; "code"]; ["q"; "m"; "e"; "c"; "extra"]]).
  reflexivity.
Defined.

(** A header whose [method] holds the byte [0xE9] of Latin-1 ([é]):
    in UTF-8 it starts a three-byte sequence, and the [t] after it is
    not a continuation byte. *)
Lemma load_prompt_library_file_decode_error_witness :
  let raw := String.list_ascii_of_string "question,m" ++ [ascii_of_nat 233] ++
             String.list_ascii_of_string "thod,explanation,code" in
  Utf8.scan_text raw = Utf8.BadAt 11 /\ 11 < Csv.chunk_size /\
  load_prompt_library_file raw = Some (Err UnicodeDecodeError).
Proof.
  intros raw. assert (Hs : Utf8.scan_text raw = Utf8.BadAt 11) by (vm_compute; reflexivity).
  assert (Hj : 11 < Csv.chunk_size) by (vm_compute; lia).
  split; [exact Hs|split; [exact Hj|exact (load_prompt_library_file_decode_error raw 11 Hs Hj)]].
Defined.

Lemma load_prompt_library_file_field_limit_witness :
  let f := replicate (N.to_nat 131073) "a"%char in
  Utf8.utf8_valid (f ++ []) = true /\
  Forall (fun c => Csv.plain c = true) f /\ (Csv.field_limit < N.of_nat (Csv.utf8_len f))%N /\
  load_prompt_library_file (f ++ []) = Some (Err CsvError).
Proof.
  intros f. assert (Hv : Utf8.utf8_valid (f ++ []) = true) by (vm_compute; reflexivity).
  assert (Hf : Forall (fun c => Csv.plain c = true) f) by decide_goal.
  assert (Hlen : (Csv.field_limit < N.of_nat (Csv.utf8_len f))%N) by (vm_compute; reflexivity).
  split; [exact Hv|split; [exact Hf|split; [exact Hlen|]]].
  exact (load_prompt_library_file_field_limit f [] Hv Hf Hlen).
Defined.

(** A file saved with a UTF-8 byte order mark: [encoding="utf-8"] keeps
    the mark, so the first column is not named [question] and the first
    data row raises [KeyError]. *)
Example load_prompt_library_file_bom :
  load_prompt_library_file
    ([ascii_of_nat 239; ascii_of_nat 187; ascii_of_nat 191] ++
     String.list_ascii_of_string
       (String.append "question,method,explanation,code"
         (String.String Csv.nl "q,m,e,c"))) =
  Some (Err (KeyError "question")).
Proof. vm_compute. reflexivity. Qed.
