(* ===== verification/Argmax.v ===== *)
(** * [torch.argmax] on a one-dimensional tensor (src/app.py, line 87)

    [scores.argmax().item()] returns the index of a maximal score; for
    several maximal scores [torch] documents that the index of the first
    one is returned, and an empty tensor raises a [RuntimeError].  The
    model is the left fold that keeps the best index so far and replaces
    it only on a strictly larger value, over any type with a boolean
    strict order [ltb].  The refinement theorem [argmax_first_max] shows
    that the fold returns exactly the unique first maximal index. *)

From S2P Require Import Prelude.
From Stdlib Require Import ZArith.

Section Argmax.
Context {A : Type} (ltb : A -> A -> bool).

(** The reduction loop: [best_i]/[best] is the best index and value so
    far, [i] the index of the head of [xs]. *)
Fixpoint argmax_from (best_i : nat) (best : A) (i : nat) (xs : list A) : nat :=
  match xs with
  | [] => best_i
  | x :: xs' =>
      if ltb best x then argmax_from i x (S i) xs'
      else argmax_from best_i best (S i) xs'
  end.

Definition argmax (xs : list A) : res nat :=
  match xs with
  | [] => Err RuntimeError
  | x :: xs' => Ok (argmax_from 0 x 1 xs')
  end.

(** The specification: [i] holds a value no element exceeds, and every
    element before it is strictly smaller. *)
Definition first_max (xs : list A) (i : nat) : Prop :=
  exists x, xs !! i = Some x /\
    (forall j y, xs !! j = Some y -> ltb x y = false) /\
    (forall j y, j < i -> xs !! j = Some y -> ltb y x = true).

(** The loop invariant after the first [i] elements of [l]. *)
Definition argmax_inv (l : list A) (i best_i : nat) (best : A) : Prop :=
  l !! best_i = Some best /\ best_i < i /\
  (forall j y, j < i -> l !! j = Some y -> ltb best y = false) /\
  (forall j y, j < best_i -> l !! j = Some y -> ltb y best = true).

Hypothesis ltb_irrefl : forall x, ltb x x = false.
Hypothesis ltb_trans : forall x y z, ltb x y = true -> ltb y z = true -> ltb x z = true.
Hypothesis ltb_total : forall x y, ltb x y = false -> ltb y x = false -> x = y.

(** [y <= b < x] gives [y < x]. *)
Lemma le_lt_trans_b y b x : ltb b y = false -> ltb b x = true -> ltb y x = true.
Proof.
  intros Hby Hbx. destruct (ltb y b) eqn:Hyb; [by eapply ltb_trans|].
  by rewrite (ltb_total _ _ Hby Hyb) in Hbx.
Qed.

(** [b < x] and [y <= b] give [not (x < y)]. *)
Lemma lt_le_not_lt b x y : ltb b x = true -> ltb b y = false -> ltb x y = false.
Proof.
  intros Hbx Hby. destruct (ltb x y) eqn:Hxy; [|done].
  by rewrite (ltb_trans _ _ _ Hbx Hxy) in Hby.
Qed.

Lemma argmax_inv_step l i bi b x :
  argmax_inv l i bi b -> l !! i = Some x ->
  if ltb b x then argmax_inv l (S i) i x else argmax_inv l (S i) bi b.
Proof.
  intros (Hb & Hbi & Hle & Hlt) Hx. destruct (ltb b x) eqn:Hbx.
  - split; [done|]. split; [lia|]. split.
    + intros j y Hj Hy. destruct (decide (j = i)) as [->|Hne]; [simplify_eq; apply ltb_irrefl|].
      apply (lt_le_not_lt b); [done|]. apply (Hle j); [lia|done].
    + intros j y Hj Hy. apply (le_lt_trans_b y b x); [|done]. by apply (Hle j).
  - split; [done|]. split; [lia|]. split; [|done].
    intros j y Hj Hy. destruct (decide (j = i)) as [->|Hne]; [by simplify_eq|].
    apply (Hle j); [lia|done].
Qed.

Lemma argmax_from_first_max l : forall rest i bi b,
  drop i l = rest -> argmax_inv l i bi b -> first_max l (argmax_from bi b i rest).
Proof.
  induction rest as [|x rest IH]; intros i bi b Hd Hinv; simpl.
  - destruct Hinv as (Hb & Hbi & Hle & Hlt). exists b. split; [done|]. split; [|done].
    intros j y Hy. apply (Hle j); [|done].
    apply lookup_lt_Some in Hy. apply (f_equal length) in Hd. rewrite length_drop in Hd. simpl in Hd. lia.
  - assert (l !! i = Some x) as Hx by (rewrite <-(Nat.add_0_r i), <-lookup_drop, Hd; done).
    assert (drop (S i) l = rest) as Hd'
      by (rewrite <-Nat.add_1_r, <-drop_drop, Hd; done).
    pose proof (argmax_inv_step l i bi b x Hinv Hx) as Hstep.
    destruct (ltb b x); by apply IH.
Qed.

(** There is at most one first maximal index. *)
Lemma first_max_unique l i i' : first_max l i -> first_max l i' -> i = i'.
Proof.
  intros (x & Hx & Hle & Hlt) (x' & Hx' & Hle' & Hlt').
  destruct (Nat.lt_total i i') as [H|[H|H]]; [|done|].
  - specialize (Hlt' i x H Hx). specialize (Hle i' x' Hx'). congruence.
  - specialize (Hlt i' x' H Hx'). specialize (Hle' i x Hx). congruence.
Qed.

(** The fold computes the specified index. *)
Lemma argmax_refines (l : list A) (i : nat) :
  argmax l = Ok i <-> first_max l i.
Proof.
  assert (forall x l', l = x :: l' -> first_max l (argmax_from 0 x 1 l')) as Hrun.
  { intros x l' ->. apply argmax_from_first_max; [done|].
    split; [done|]. split; [lia|]. split; [|lia].
    intros [|j] y Hj Hy; [simplify_eq/=; apply ltb_irrefl|lia]. }
  destruct l as [|x l'] eqn:El; simpl.
  - split; [discriminate|]. intros (x & Hx & _). done.
  - split; [intros [= <-]; by apply Hrun|].
    intros Hi. f_equal. eapply first_max_unique; [|exact Hi]. by apply Hrun.
Qed.

(** A non-empty tensor has a first maximal index. *)
Lemma first_max_exists l : l <> [] -> exists i, first_max l i.
Proof.
  destruct l as [|x l']; [done|]. intros _.
  exists (argmax_from 0 x 1 l'). by apply argmax_refines.
Qed.

(** ** Theorems *)

(** C3: [argmax] refines its specification: it returns an index
    exactly when that index is the first index of a maximal value (so
    ties go to the lowest index, and an empty tensor, which has no such
    index, raises). *)
Theorem argmax_first_max (l : list A) (i : nat) :
  argmax l = Ok i <-> first_max l i.
Proof. apply argmax_refines. Qed.

End Argmax.

Lemma argmax_Err {A} (ltb : A -> A -> bool) (l : list A) e :
  argmax ltb l = Err e <-> l = [] /\ e = RuntimeError.
Proof. destruct l; simpl; naive_solver. Qed.

(** ** Witness *)

(** On integer scores with a tie for the maximum, the first of the two
    maximal positions is the specified one. *)
Lemma argmax_first_max_witness : first_max Z.ltb [3; 7; 7; 1]%Z 1.
Proof.
  apply (argmax_first_max Z.ltb); [apply Z.ltb_irrefl| |..|reflexivity].
  - intros x y z. rewrite !Z.ltb_lt. lia.
  - intros x y. rewrite !Z.ltb_ge. lia.
Defined.
