(* ===== verification/Cosine.v ===== *)
(** * [sentence_transformers.util.cos_sim] over real vectors

    [util.cos_sim(a, b)] normalizes both arguments row by row with
    [torch.nn.functional.normalize(x, p=2, dim=1)], which divides a row
    by [max(||row||, eps)] with [eps = 1e-12], and multiplies them
    ([torch.mm(a_norm, b_norm.T)]).  One entry of the result is the dot
    product of two normalized rows: [cos_sim] below.  Vectors are lists
    of exact reals; [dot] pairs the elements of two vectors up to the
    shorter one (the tensor layer of [Embedding] checks the shapes).

    The results: Cauchy-Schwarz for [dot], the range [-1, 1] of
    [cos_sim] for every pair of vectors, self-similarity ([1] above the
    [eps] clamp, [(||a|| / eps)^2] below it), symmetry, and invariance
    under positive scaling. *)

From S2P Require Import Prelude.
From Stdlib Require Import Reals Lra Psatz.

Local Open Scope R_scope.

Fixpoint dot (a b : list R) : R :=
  match a, b with
  | x :: a', y :: b' => x * y + dot a' b'
  | _, _ => 0
  end.

(** [x.norm(p=2)]. *)
Definition norm (a : list R) : R := sqrt (dot a a).

(** The default [eps] of [torch.nn.functional.normalize]. *)
Definition eps : R := 1e-12.

(** [torch.nn.functional.normalize(a, p=2)]: [a / max(||a||, eps)]. *)
Definition normalize (a : list R) : list R :=
  map (fun x => x / Rmax (norm a) eps) a.

(** One entry of [util.cos_sim(a, b)]. *)
Definition cos_sim (a b : list R) : R := dot (normalize a) (normalize b).

(** The comparison of two scores, as [torch.argmax] makes it. *)
Definition Rltb (x y : R) : bool := if Rlt_dec x y then true else false.

(** ** The order on scores *)

Lemma Rltb_true x y : Rltb x y = true <-> x < y.
Proof. unfold Rltb. destruct (Rlt_dec x y); split; intros; done. Qed.

Lemma Rltb_false x y : Rltb x y = false <-> y <= x.
Proof. unfold Rltb. destruct (Rlt_dec x y); split; intros; try done; lra. Qed.

Lemma Rltb_irrefl x : Rltb x x = false.
Proof. apply Rltb_false. lra. Qed.

Lemma Rltb_trans x y z : Rltb x y = true -> Rltb y z = true -> Rltb x z = true.
Proof. rewrite !Rltb_true. lra. Qed.

Lemma Rltb_total x y : Rltb x y = false -> Rltb y x = false -> x = y.
Proof. rewrite !Rltb_false. lra. Qed.

(** ** The dot product *)

Lemma dot_comm a b : dot a b = dot b a.
Proof.
  revert b. induction a as [|x a IH]; intros [|y b]; simpl; try done.
  rewrite IH. ring.
Qed.

Lemma dot_self_nonneg a : 0 <= dot a a.
Proof. induction a as [|x a IH]; simpl; nra. Qed.

Lemma dot_map_mul s t a b :
  dot (map (fun x => x * s) a) (map (fun y => y * t) b) = s * t * dot a b.
Proof.
  revert b. induction a as [|x a IH]; intros [|y b]; simpl; try ring.
  rewrite IH. ring.
Qed.

Lemma dot_map_mul_l s a b : dot (map (fun x => x * s) a) b = s * dot a b.
Proof.
  revert b. induction a as [|x a IH]; intros [|y b]; simpl; try ring.
  rewrite IH. ring.
Qed.

(** The step of Cauchy-Schwarz: the cross term is bounded by the two
    square terms. *)
Lemma cs_step x y s p q :
  0 <= p -> 0 <= q -> s * s <= p * q -> 2 * (x * y * s) <= x * x * q + y * y * p.
Proof.
  intros Hp Hq Hs. destruct (Req_dec p 0) as [->|Hp0].
  - assert (s = 0) by nra. subst. nra.
  - assert (0 <= p * (x * x * q + y * y * p - 2 * (x * y * s))).
    { pose proof (Rle_0_sqr (x * s - y * p)) as Hsq. unfold Rsqr in Hsq.
      assert (0 <= x * x * (p * q - s * s)) by (apply Rmult_le_pos; nra).
      nra. }
    nra.
Qed.

(** Cauchy-Schwarz, for vectors of any lengths. *)
Lemma cauchy_schwarz a b : dot a b * dot a b <= dot a a * dot b b.
Proof.
  revert b. induction a as [|x a IH]; intros [|y b]; simpl.
  - lra.
  - pose proof (dot_self_nonneg b). nra.
  - pose proof (dot_self_nonneg a). nra.
  - specialize (IH b). pose proof (dot_self_nonneg a). pose proof (dot_self_nonneg b).
    pose proof (cs_step x y (dot a b) (dot a a) (dot b b)). nra.
Qed.

(** ** The norm and the normalization *)

Lemma eps_pos : 0 < eps.
Proof. unfold eps. lra. Qed.

Lemma norm_nonneg a : 0 <= norm a.
Proof. apply sqrt_pos. Qed.

Lemma norm_sq a : norm a * norm a = dot a a.
Proof. apply sqrt_sqrt, dot_self_nonneg. Qed.

Lemma denom_pos a : 0 < Rmax (norm a) eps.
Proof. pose proof (Rmax_r (norm a) eps). pose proof eps_pos. lra. Qed.

Lemma denom_above_eps a : eps <= norm a -> Rmax (norm a) eps = norm a.
Proof. apply Rmax_left. Qed.

Lemma dot_normalize a b :
  dot (normalize a) (normalize b) = dot a b / (Rmax (norm a) eps * Rmax (norm b) eps).
Proof.
  unfold normalize, Rdiv. rewrite dot_map_mul.
  pose proof (denom_pos a). pose proof (denom_pos b). field. lra.
Qed.

Lemma normalize_self_le_1 a : dot (normalize a) (normalize a) <= 1.
Proof.
  rewrite dot_normalize, <-norm_sq.
  pose proof (norm_nonneg a). pose proof (Rmax_l (norm a) eps). pose proof (denom_pos a).
  set (n := norm a) in *. set (m := Rmax n eps) in *.
  apply (Rmult_le_reg_r (m * m)); [nra|].
  unfold Rdiv. rewrite Rmult_assoc, Rinv_l by nra. nra.
Qed.

Lemma norm_scale c a : 0 <= c -> norm (map (fun x => c * x) a) = c * norm a.
Proof.
  intros Hc. unfold norm.
  replace (map (fun x => c * x) a) with (map (fun x => x * c) a)
    by (apply map_ext; intros; ring).
  rewrite dot_map_mul, sqrt_mult_alt, sqrt_square by (nra || done). done.
Qed.

(** ** Theorems *)

Lemma cos_sim_range a b : -1 <= cos_sim a b <= 1.
Proof.
  unfold cos_sim.
  pose proof (cauchy_schwarz (normalize a) (normalize b)).
  pose proof (normalize_self_le_1 a). pose proof (normalize_self_le_1 b).
  pose proof (dot_self_nonneg (normalize a)). pose proof (dot_self_nonneg (normalize b)).
  assert (dot (normalize a) (normalize a) * dot (normalize b) (normalize b) <= 1) by nra.
  nra.
Qed.

Lemma cos_sim_self_sq a : cos_sim a a = Rsqr (norm a / Rmax (norm a) eps).
Proof.
  unfold cos_sim. rewrite dot_normalize, <-norm_sq. unfold Rsqr.
  pose proof (denom_pos a). field. lra.
Qed.

Corollary cos_sim_self_one a : eps <= norm a -> cos_sim a a = 1.
Proof.
  intros H. rewrite cos_sim_self_sq, denom_above_eps by done.
  pose proof eps_pos. unfold Rdiv. rewrite Rinv_r by lra. apply Rsqr_1.
Qed.

(** C5: Every similarity [util.cos_sim] computes lies in [-1, 1], for
    any two vectors, zero vectors included. *)
Theorem cos_sim_bounds a b : -1 <= cos_sim a b <= 1.
Proof. apply cos_sim_range. Qed.

(** C18: The similarity of a vector with itself is the square of its norm
    over the clamped norm: [1] when the norm reaches [eps], less than
    [1] below it. *)
Theorem cos_sim_self a : cos_sim a a = Rsqr (norm a / Rmax (norm a) eps).
Proof. apply cos_sim_self_sq. Qed.

Lemma cos_sim_comm a b : cos_sim a b = cos_sim b a.
Proof. unfold cos_sim. apply dot_comm. Qed.

(** C19: Above the [eps] clamp, the similarity does not depend on the
    magnitude of a vector: scaling it by a positive factor keeps every
    similarity. *)
Theorem cos_sim_scale c a b :
  0 < c -> eps <= norm a -> eps <= c * norm a ->
  cos_sim (map (fun x => c * x) a) b = cos_sim a b.
Proof.
  intros Hc Ha Hca. unfold cos_sim. rewrite !dot_normalize, norm_scale by lra.
  rewrite (Rmax_left (c * norm a) eps), (denom_above_eps a) by lra.
  replace (map (fun x => c * x) a) with (map (fun x => x * c) a)
    by (apply map_ext; intros; ring).
  rewrite dot_map_mul_l. pose proof (denom_pos b). pose proof eps_pos. field. nra.
Qed.

(** ** Witnesses *)

Lemma norm_3_4 : norm [3; 4] = 5.
Proof.
  unfold norm. simpl. replace (3 * 3 + (4 * 4 + 0)) with (5 * 5) by ring.
  apply sqrt_square. lra.
Qed.

Lemma cos_sim_scale_witness :
  cos_sim (map (fun x => 2 * x) [3; 4]) [1; 0] = cos_sim [3; 4] [1; 0].
Proof. apply cos_sim_scale; rewrite ?norm_3_4; unfold eps; lra. Defined.
