(* ===== verification/Embedding.v ===== *)
(** * The embedding index (src/app.py, lines 42-45) and [util.cos_sim]

    Line 42 loads a [SentenceTransformer]; the network is the black box
    of the spec: the field [encode_text] of the typeclass [Encoder]
    gives a vector or a failure for one text (its tokenizer, the strip
    of [Transformer.tokenize] and the forward pass included), and
    [EncoderLaws] states its fixed output dimension.

    Lines 44-45 call [model.encode(questions, convert_to_tensor=True)]
    on the question of every entry ([build_index]).
    [SentenceTransformer.encode] ([encode_batch]) sorts the texts by
    decreasing [_text_length] ([text_length]: [None] counts 1, a [str]
    its characters) with [np.argsort] (the field [argsort] of
    [Encoder], with its contract [is_argsort]: numpy's order among equal
    lengths depends on its sort kind and the platform), cuts the sorted
    texts into batches of 32 ([batches]), and hands each batch to
    [Transformer.tokenize] ([encode_texts]).  When the first text of a
    batch is a [str], every text [s] of the batch is encoded as
    [str(s).strip()], so [None] becomes the text ["None"]
    ([encode_sentence]); otherwise [tokenize] reads the batch as pairs
    and [None[0]] raises [TypeError].  The vectors are put back in the
    order of the input ([np.argsort(length_sorted_idx)], the inverse
    permutation [inverse_perm]) and stacked ([torch.stack], which
    requires equal lengths), or the empty 1-D tensor [torch.Tensor()]
    is returned for no text.  A batch headed by a list (a pair of texts)
    is not modelled: it is a [TypeError] here, and the loader never
    produces a list (C35).

    [util.cos_sim(a, b)] turns a 1-D argument into one row, normalizes
    the rows and multiplies [a_norm] by [b_norm.T]; [torch.mm] raises a
    [RuntimeError] unless both have the same number of columns.

    The theorems: a successful [encode] returns the vectors of the texts
    in input order ([encode_batch_Ok_inv]); one batch whose longest
    question is a text is encoded text by text, [None] as ["None"]
    (C36); questions all empty or missing raise [TypeError] (C37).
    [StandIn] gives a stable argsort that meets [is_argsort] and a toy
    network, for the concrete runs. *)

From S2P Require Import Prelude PyVal DictReader Loader Cosine.
From Stdlib Require Import Reals ZArith.
From stdpp Require Import sorting.

(** What [np.argsort] returns for [keys]: a permutation of the indices
    that lists the keys in ascending order.  numpy leaves the order of
    equal keys to its sort kind and platform (introsort, or the AVX-512
    sort), so the model keeps only this contract. *)
Definition is_argsort (keys : list Z) (p : list nat) : Prop :=
  p ≡ₚ seq 0 (length keys) /\
  forall i j a b, i < j -> p !! i = Some a -> p !! j = Some b -> (keys !!! a <= keys !!! b)%Z.

(** The loaded model: [encode_text] is the network on one text (the
    strip of [Transformer.tokenize] and the tokenizer included), and
    [argsort] the [np.argsort] that [SentenceTransformer.encode] calls. *)
Class Encoder := {
  encode_text : string -> res (list R);
  argsort : forall keys : list Z, { p : list nat | is_argsort keys p }
}.

(** The contract of the embedding function: a constant dimension. *)
Class EncoderLaws `{Encoder} := {
  enc_dim : nat;
  encode_dim : forall s v, encode_text s = Ok v -> length v = enc_dim
}.

Inductive tensor :=
| T1 (v : list R)
| T2 (rows : list (list R)).

(** [SentenceTransformer._text_length]: [None] has no [__len__] and
    counts 1; a [str] counts its characters; a list of texts sums their
    lengths. *)
Definition text_length (text : pyval) : nat :=
  match text with
  | VNone => 1
  | VStr s => length (str_cps s)
  | VList l => sum_list ((fun t => length (str_cps t)) <$> l)
  end.

(** [range(0, len(sentences), batch_size)] and the slices
    [sentences_sorted[start_index:start_index+batch_size]], with fuel. *)
Fixpoint batches {A} (fuel : nat) (l : list A) : list (list A) :=
  match fuel, l with
  | O, _ | _, [] => []
  | S fuel', _ => take 32 l :: batches fuel' (drop 32 l)
  end.

(** [np.argsort(length_sorted_idx)]: the argsort of a permutation is its
    inverse, the position of each index in it. *)
Definition inverse_perm (p : list nat) : list nat :=
  (fun i => default 0 (fst <$> list_find (fun j => j = i) p)) <$> seq 0 (length p).

(** The keys [[-self._text_length(sen) for sen in sentences]]. *)
Definition sort_keys (lengths : list nat) : list Z := (fun n => (- Z.of_nat n)%Z) <$> lengths.

Section Embedding.
Context `{Encoder}.

(** One text of a batch whose first text is a [str]:
    [Transformer.tokenize] encodes [str(s).strip()], so [None] is the
    text ["None"]. *)
Definition encode_sentence (q : pyval) : res (list R) :=
  encode_text (py_str q).

(** [self.tokenize(sentences_batch)] and the forward pass: a batch whose
    first text is a [str] is encoded text by text; a first text [None]
    goes to the pair branch, whose [text_tuple[0]] raises [TypeError].
    A first text that is a list (a pair of texts) is outside the model:
    the loader never produces one (C35), and it is a [TypeError] here. *)
Definition encode_texts (batch : list pyval) : res (list (list R)) :=
  match batch with
  | [] => Ok []
  | VStr _ :: _ => map_res encode_sentence batch
  | _ :: _ => Err TypeError
  end.

(** [torch.stack(rows)]. *)
Definition stack (rows : list (list R)) : res tensor :=
  match rows with
  | [] => Err RuntimeError
  | r :: rs =>
      if forallb (fun r' => Nat.eqb (length r') (length r)) rs
      then Ok (T2 rows) else Err RuntimeError
  end.

(** [model.encode(sentences, convert_to_tensor=True)]: sort the texts by
    decreasing length, encode them by batches of 32, put the vectors
    back in the order of the input, and stack them ([torch.Tensor()]
    when there are none). *)
Definition encode_batch (sentences : list pyval) : res tensor :=
  let length_sorted_idx := proj1_sig (argsort (sort_keys (text_length <$> sentences))) in
  let sentences_sorted := (fun idx => nth idx sentences VNone) <$> length_sorted_idx in
  let* all_embeddings := map_res encode_texts (batches (length sentences) sentences_sorted) in
  let all_embeddings := concat all_embeddings in
  let all_embeddings := (fun idx => nth idx all_embeddings []) <$> inverse_perm length_sorted_idx in
  match all_embeddings with
  | [] => Ok (T1 [])
  | _ => stack all_embeddings
  end.

(** Lines 44-45: [questions = [q["question"] for q in prompt_library]]
    and [question_embeddings = model.encode(questions, ...)]. *)
Definition build_index (prompt_library : list prompt_entry) : res tensor :=
  encode_batch (question <$> prompt_library).

End Embedding.

(** [_convert_to_batch_tensor]: a 1-D tensor becomes one row. *)
Definition as_batch (t : tensor) : list (list R) :=
  match t with
  | T1 v => [v]
  | T2 rows => rows
  end.

(** The number of columns of a batch (its rows have equal length). *)
Definition ncols (rows : list (list R)) : nat :=
  match rows with
  | [] => 0
  | r :: _ => length r
  end.

(** [util.cos_sim(a, b)]: the matrix of the similarities of the rows of
    [a] with the rows of [b]. *)
Definition cos_sim_t (a b : tensor) : res (list (list R)) :=
  let ra := as_batch a in
  let rb := as_batch b in
  if Nat.eqb (ncols ra) (ncols rb)
  then Ok (map (fun x => map (fun y => cos_sim x y) rb) ra)
  else Err RuntimeError.

(** ** Lemmas *)

Section PermLemmas.

Lemma batches_concat {A} n (l : list A) : length l <= n -> concat (batches n l) = l.
Proof.
  revert l. induction n as [|n IH]; intros l Hl; [by destruct l; simpl in *; [|lia]|].
  destruct l as [|x l']; [done|]. cbn [batches concat].
  rewrite IH by (rewrite length_drop; simpl in *; lia). apply take_drop.
Qed.

Lemma batches_single {A} n (l : list A) : 0 < n -> l <> [] -> length l <= 32 -> batches n l = [l].
Proof.
  intros Hn Hne Hl. destruct n as [|n]; [lia|]. destruct l as [|x l']; [done|]. cbn [batches].
  rewrite take_ge, drop_ge by (simpl in *; lia). by destruct n.
Qed.

Lemma batches_head {A} n (l : list A) : 0 < n -> l <> [] -> exists rest, batches n l = take 32 l :: rest.
Proof. intros Hn Hne. destruct n as [|n]; [lia|]. destruct l; [done|]. eexists. reflexivity. Qed.

Lemma inverse_perm_lookup p n i :
  p ≡ₚ seq 0 n -> i < n -> exists k, inverse_perm p !! i = Some k /\ p !! k = Some i.
Proof.
  intros Hp Hi. assert (length p = n) as Hlen by (by rewrite Hp, length_seq).
  assert (i ∈ p) as Hin by (rewrite Hp, elem_of_seq; lia).
  destruct (list_find_elem_of (fun j => j = i) p i Hin eq_refl) as [[k j] Hf].
  pose proof Hf as (Hk & -> & _)%list_find_Some.
  exists k. split; [|done]. unfold inverse_perm.
  rewrite list_lookup_fmap, lookup_seq_lt by lia. simpl. by rewrite Hf.
Qed.


Lemma inverse_perm_length p : length (inverse_perm p) = length p.
Proof. unfold inverse_perm. by rewrite length_fmap, length_seq. Qed.

Lemma inverse_perm_bound p n : p ≡ₚ seq 0 n -> Forall (fun k => k < length p) (inverse_perm p).
Proof.
  intros Hp. assert (length p = n) as Hlen by (by rewrite Hp, length_seq).
  apply Forall_lookup. intros i k Hi.
  assert (i < n) as Hin by (apply lookup_lt_Some in Hi; rewrite inverse_perm_length in Hi; lia).
  destruct (inverse_perm_lookup p n i Hp Hin) as (k' & Hk' & Hpk). simplify_eq.
  by eapply lookup_lt_Some.
Qed.

(** Putting back in place: the [k]-th of the sorted list, for [k] the
    position of [i] in [p], is the [i]-th of the input. *)
Lemma reorder_inverse {A} (l : list A) d p :
  p ≡ₚ seq 0 (length l) ->
  (fun k => nth k ((fun i => nth i l d) <$> p) d) <$> inverse_perm p = l.
Proof.
  intros Hp. assert (length p = length l) as Hlen by (by rewrite Hp, length_seq).
  apply list_eq. intros i. rewrite list_lookup_fmap.
  destruct (decide (i < length l)) as [Hi|Hi].
  - destruct (inverse_perm_lookup p _ i Hp Hi) as (k & -> & Hk). simpl.
    rewrite (nth_lookup_Some _ _ _ (nth i l d)); [|by rewrite list_lookup_fmap, Hk].
    destruct (nth_lookup_or_length l i d) as [->|]; [done|lia].
  - rewrite (lookup_ge_None_2 (inverse_perm p)) by (rewrite inverse_perm_length; lia).
    symmetry. apply lookup_ge_None_2. lia.
Qed.

Lemma Forall2_nth_fmap {A B} (P : A -> B -> Prop) xs ys dx dy (ix : list nat) :
  Forall2 P xs ys -> Forall (fun k => k < length xs) ix ->
  Forall2 P ((fun k => nth k xs dx) <$> ix) ((fun k => nth k ys dy) <$> ix).
Proof.
  intros Hxy Hix. induction Hix as [|k ix Hk _ IH]; [constructor|]. constructor; [|done].
  pose proof (Forall2_length _ _ _ Hxy) as Hlen.
  destruct (lookup_lt_is_Some_2 xs k Hk) as [x Hx].
  destruct (lookup_lt_is_Some_2 ys k ltac:(lia)) as [y Hy].
  rewrite (nth_lookup_Some _ _ _ _ Hx), (nth_lookup_Some _ _ _ _ Hy).
  eapply Forall2_lookup_lr; [exact Hxy|exact Hx|exact Hy].
Qed.

(** The first index of an argsort has the least key. *)
Lemma argsort_head_min keys p a b :
  is_argsort keys p -> p !! 0 = Some a -> b < length keys -> (keys !!! a <= keys !!! b)%Z.
Proof.
  intros [Hp Hsorted] Ha Hb.
  assert (b ∈ p) as [j Hj]%list_elem_of_lookup by (rewrite Hp, elem_of_seq; lia).
  destruct j as [|j]; [simplify_eq; lia|]. apply (Hsorted 0 (S j)); [lia|done..].
Qed.

Lemma sort_keys_lookup lengths i n :
  lengths !! i = Some n -> sort_keys lengths !!! i = (- Z.of_nat n)%Z.
Proof. intros Hi. unfold sort_keys. by rewrite list_lookup_total_alt, list_lookup_fmap, Hi. Qed.

(** The text an argsort of the keys puts first is a longest one. *)
Lemma argsort_head_longest qs p a b q :
  is_argsort (sort_keys (text_length <$> qs)) p -> p !! 0 = Some a -> qs !! b = Some q ->
  exists qa, qs !! a = Some qa /\ text_length q <= text_length qa.
Proof.
  intros Harg Ha Hb.
  assert (a < length qs) as Hlt.
  { destruct Harg as [Hp _]. apply list_elem_of_lookup_2 in Ha.
    rewrite Hp, elem_of_seq in Ha. unfold sort_keys in Ha. rewrite !length_fmap in Ha. lia. }
  destruct (lookup_lt_is_Some_2 qs a Hlt) as [qa Hqa]. exists qa. split; [done|].
  assert (b < length (sort_keys (text_length <$> qs))) as Hbl
    by (unfold sort_keys; rewrite !length_fmap; by eapply lookup_lt_Some).
  pose proof (argsort_head_min _ _ a b Harg Ha Hbl) as Hmin.
  rewrite (sort_keys_lookup _ a (text_length qa)), (sort_keys_lookup _ b (text_length q)) in Hmin
    by (rewrite list_lookup_fmap; first [by rewrite Hqa|by rewrite Hb]).
  lia.
Qed.

End PermLemmas.

Section EncodeLemmas.
Context `{Encoder}.

Lemma encode_texts_str_head b s :
  head b = Some (VStr s) -> encode_texts b = map_res encode_sentence b.
Proof. destruct b; simpl; [done|]. by intros [= ->]. Qed.

Lemma stack_Ok rows t : stack rows = Ok t -> t = T2 rows.
Proof. destruct rows; simpl; [done|]. by case_match; intros [= <-]. Qed.

Lemma encode_texts_Ok b es :
  encode_texts b = Ok es -> Forall2 (fun q v => encode_sentence q = Ok v) b es.
Proof.
  destruct b as [|[s| |l] b']; try discriminate.
  - intros [= <-]. constructor.
  - apply map_res_Ok_Forall2.
Qed.

Lemma map_res_encode_texts bs es :
  map_res encode_texts bs = Ok es ->
  Forall2 (fun q v => encode_sentence q = Ok v) (concat bs) (concat es).
Proof.
  rewrite map_res_Ok_Forall2. induction 1 as [|b e bs' es' Hb _ IH]; [constructor|].
  simpl. apply Forall2_app; [by apply encode_texts_Ok|done].
Qed.

(** The permutation [encode] sorts by, and its contract. *)
Lemma argsort_spec qs :
  is_argsort (sort_keys (text_length <$> qs)) (proj1_sig (argsort (sort_keys (text_length <$> qs)))) /\
  proj1_sig (argsort (sort_keys (text_length <$> qs))) ≡ₚ seq 0 (length qs).
Proof.
  destruct (argsort _) as [p Hp]. simpl. split; [done|].
  destruct Hp as [Hp _]. by rewrite Hp; unfold sort_keys; rewrite !length_fmap.
Qed.

(** An empty list of texts gives the empty tensor [torch.Tensor()]. *)
Lemma encode_batch_nil : encode_batch [] = Ok (T1 []).
Proof.
  unfold encode_batch. destruct (argsort_spec []) as [_ Hp].
  set (p := proj1_sig _) in *. clearbody p. simpl in Hp. apply Permutation_nil_r in Hp. by subst p.
Qed.

(** What a successful [encode] returns: the empty 1-D tensor for no
    text, otherwise the 2-D tensor of the vectors of the texts, in the
    order of the input. *)
Lemma encode_batch_Ok_inv qs t :
  encode_batch qs = Ok t ->
  (qs = [] /\ t = T1 []) \/
  (exists vs, qs <> [] /\ t = T2 vs /\ Forall2 (fun q v => encode_sentence q = Ok v) qs vs).
Proof.
  unfold encode_batch. destruct (argsort_spec qs) as [_ Hp].
  set (p := proj1_sig _) in *. clearbody p. intros Hb. res_inv.
  match goal with H : map_res encode_texts _ = Ok ?es |- _ => rename es into es; rename H into Hes end.
  apply map_res_encode_texts in Hes.
  rewrite batches_concat in Hes by (rewrite length_fmap, (Permutation_length Hp), length_seq; lia).
  assert (Forall (fun k => k < length ((fun idx => nth idx qs VNone) <$> p)) (inverse_perm p)) as Hb'
    by (rewrite length_fmap; eapply inverse_perm_bound, Hp).
  pose proof (Forall2_nth_fmap _ _ _ VNone [] (inverse_perm p) Hes Hb') as Hall.
  rewrite reorder_inverse in Hall by done.
  destruct qs as [|q qs'].
  - left. split; [done|]. apply Permutation_nil_r in Hp. subst p. simpl in Hb. by injection Hb.
  - right. set (vs := _ <$> inverse_perm p) in *.
    destruct vs as [|v vs'] eqn:Evs; [inversion Hall|].
    eexists. split; [done|]. split; [by apply stack_Ok|done].
Qed.

End EncodeLemmas.

Section EmbeddingLemmas.
Context `{EncoderLaws}.

Lemma encode_sentence_dim q v : encode_sentence q = Ok v -> length v = enc_dim.
Proof. apply encode_dim. Qed.

Lemma encode_sentences_dim qs vs :
  Forall2 (fun q v => encode_sentence q = Ok v) qs vs -> Forall (fun v => length v = enc_dim) vs.
Proof. induction 1; constructor; [by eapply encode_sentence_dim|done]. Qed.

Lemma stack_uniform r rs :
  Forall (fun v => length v = length r) rs -> stack (r :: rs) = Ok (T2 (r :: rs)).
Proof.
  intros Hall. simpl. replace (forallb _ rs) with true; [done|].
  symmetry. apply forallb_forall. intros v Hv%list_elem_of_In.
  apply Nat.eqb_eq. by eapply Forall_forall in Hall.
Qed.

Lemma cos_sim_t_row q rows :
  rows <> [] -> Forall (fun v => length v = length q) rows ->
  cos_sim_t (T1 q) (T2 rows) = Ok [map (cos_sim q) rows].
Proof.
  intros Hne Hall. unfold cos_sim_t. simpl.
  destruct rows as [|r rows']; [done|]. apply Forall_cons_1 in Hall as [Hr _].
  simpl. by rewrite Hr, Nat.eqb_refl.
Qed.
End EmbeddingLemmas.

(** ** What [encode] does with the questions of a library *)

Section IndexTheorems.

(** C36: A library of at most 32 entries (one batch) whose questions
    are texts or [None], one of them of two characters or more, is
    indexed: every question is encoded as [str(question)], so a
    question missing from a short row ([None]) is embedded as the text
    ["None"] and no exception is raised. *)
Theorem build_index_str_questions `{EncoderLaws} lib vs :
  length lib <= 32 ->
  Forall (fun e => scalar (question e) = true) lib ->
  (exists e s, e ∈ lib /\ question e = VStr s /\ 2 <= length (str_cps s)) ->
  Forall2 (fun e v => encode_text (py_str (question e)) = Ok v) lib vs ->
  build_index lib = Ok (T2 vs).
Proof.
  intros Hlen Hsc (e & s & Hin & Hq & Hs) Hall. unfold build_index, encode_batch.
  remember (question <$> lib) as qs eqn:Eqs.
  assert (Hqs : Forall2 (fun q v => encode_sentence q = Ok v) qs vs) by (subst qs; by apply Forall2_fmap_l).
  assert (Hlq : length qs = length lib) by (subst qs; apply length_fmap).
  destruct (argsort_spec qs) as [Harg Hp]. set (p := proj1_sig _) in *. clearbody p.
  destruct (list_elem_of_lookup_1 _ _ Hin) as [b Hb].
  assert (Hqb : qs !! b = Some (VStr s)) by (subst qs; rewrite list_lookup_fmap, Hb; simpl; by rewrite Hq).
  assert (Hne : qs <> []) by (intros ->; discriminate).
  destruct p as [|a p'];
    [apply Permutation_length in Hp; rewrite length_seq in Hp; destruct qs; simpl in *; [done|lia]|].
  destruct (argsort_head_longest qs _ a b _ Harg eq_refl Hqb) as (qa & Hqa & Hge).
  assert (exists sa, qa = VStr sa) as [sa ->].
  { pose proof Hqa as Hqa'. rewrite Eqs in Hqa'. apply list_lookup_fmap_Some in Hqa' as (ea & -> & Hea).
    pose proof (Forall_lookup_1 _ _ _ _ Hsc Hea) as Hsca. simpl in Hsca.
    destruct (question ea) as [sa| |l]; simpl in *; [by exists sa|lia|discriminate]. }
  set (sorted := (fun idx => nth idx qs VNone) <$> a :: p').
  assert (Hsorted : Forall2 (fun q v => encode_sentence q = Ok v) sorted ((fun k => nth k vs []) <$> a :: p')).
  { apply Forall2_nth_fmap; [done|]. eapply perm_seq_bound. exact Hp. }
  assert (Hlp : S (length p') = length qs) by (apply Permutation_length in Hp; by rewrite length_seq in Hp).
  rewrite batches_single by (subst sorted; rewrite ?length_fmap; simpl; first [lia|discriminate]).
  cbn [map_res]. rewrite (encode_texts_str_head _ sa) by (simpl; by rewrite (nth_lookup_Some _ _ _ _ Hqa)).
  rewrite (proj2 (map_res_Ok_Forall2 _ _ _) Hsorted). cbn [res_bind concat]. rewrite app_nil_r, reorder_inverse.
  2: { rewrite <-(Forall2_length _ _ _ Hqs). exact Hp. }
  destruct vs as [|v vs']; [inversion Hqs; congruence|]. apply stack_uniform.
  apply encode_sentences_dim, Forall_cons in Hqs as [Hv Hvs].
  eapply Forall_impl; [exact Hvs|]. simpl. lia.
Qed.

(** C37: A library whose question cells are all empty or missing, one
    of them missing (a row too short to reach the question column),
    makes [encode] raise [TypeError]: [None] is a longest text, so it
    heads the first batch and [Transformer.tokenize] takes the pair
    branch, where [None[0]] fails. *)
Theorem build_index_missing_TypeError `{Encoder} lib :
  Forall (fun e => question e = VNone \/ question e = VStr "") lib ->
  (exists e, e ∈ lib /\ question e = VNone) ->
  build_index lib = Err TypeError.
Proof.
  intros Hall (e & Hin & Hq). unfold build_index, encode_batch.
  remember (question <$> lib) as qs eqn:Eqs.
  destruct (argsort_spec qs) as [Harg Hp]. set (p := proj1_sig _) in *. clearbody p.
  destruct (list_elem_of_lookup_1 _ _ Hin) as [b Hb].
  assert (Hqb : qs !! b = Some VNone) by (subst qs; rewrite list_lookup_fmap, Hb; simpl; by rewrite Hq).
  destruct p as [|a p'];
    [apply Permutation_length in Hp; rewrite length_seq in Hp; destruct qs; simpl in *; [done|lia]|].
  destruct (argsort_head_longest qs _ a b _ Harg eq_refl Hqb) as (qa & Hqa & Hge).
  assert (qa = VNone) as ->.
  { pose proof Hqa as Hqa'. rewrite Eqs in Hqa'. apply list_lookup_fmap_Some in Hqa' as (ea & -> & Hea).
    destruct (Forall_lookup_1 _ _ _ _ Hall Hea) as [Hn|He]; [done|rewrite He in Hge; vm_compute in Hge; lia]. }
  destruct (batches_head (length qs) ((fun idx => nth idx qs VNone) <$> a :: p')) as [rest ->];
    [apply lookup_lt_Some in Hqb; lia|discriminate|].
  cbn [fmap list_fmap take]. rewrite (nth_lookup_Some _ _ _ _ Hqa). reflexivity.
Qed.

End IndexTheorems.

(** ** A stand-in model for concrete runs

    A stable argsort (merge sort on the pairs of a key and its index)
    meets the contract [is_argsort]; with it and a toy embedding
    ([length] and [1]), [encode] runs on concrete libraries. *)

Module StandIn.

Definition key_le (x y : Z * nat) : Prop := (x.1 <= y.1)%Z.

#[export] Instance key_le_dec : RelDecision key_le.
Proof. intros x y. unfold key_le. apply _. Defined.

#[export] Instance key_le_total : Total key_le.
Proof. intros x y. unfold key_le. lia. Qed.

#[export] Instance key_le_trans : Transitive key_le.
Proof. intros x y z. unfold key_le. lia. Qed.

Definition stable_argsort_list (keys : list Z) : list nat :=
  (merge_sort key_le (zip keys (seq 0 (length keys)))).*2.

Lemma StronglySorted_lookup_lt {A} (R : relation A) l i j x y :
  StronglySorted R l -> i < j -> l !! i = Some x -> l !! j = Some y -> R x y.
Proof.
  intros Hs. revert i j. induction Hs as [|z l' _ IH Hz]; intros i j Hij Hi Hj; [done|].
  destruct i as [|i], j as [|j]; simplify_eq/=; [lia| |lia|].
  - eapply Forall_lookup_1; [exact Hz|exact Hj].
  - eapply IH; [|exact Hi|exact Hj]. lia.
Qed.

Lemma zip_seq_elem (keys : list Z) (k : Z) (a : nat) :
  (k, a) ∈ zip keys (seq 0 (length keys)) -> keys !! a = Some k.
Proof.
  intros [m Hm]%list_elem_of_lookup. apply lookup_zip_with_Some in Hm as (x & y & [= <- <-] & Hx & Hy).
  apply lookup_seq in Hy as [-> _]. exact Hx.
Qed.

Lemma stable_argsort_spec keys : is_argsort keys (stable_argsort_list keys).
Proof.
  unfold stable_argsort_list. split.
  - rewrite merge_sort_Permutation. apply reflexive_eq, snd_zip. by rewrite length_seq.
  - intros i j a b Hij (x & -> & Hx)%list_lookup_fmap_Some (y & -> & Hy)%list_lookup_fmap_Some.
    assert (Hxy : key_le x y).
    { refine (StronglySorted_lookup_lt key_le _ i j x y _ Hij Hx Hy).
      apply (StronglySorted_merge_sort key_le). }
    apply list_elem_of_lookup_2 in Hx, Hy. rewrite merge_sort_Permutation in Hx, Hy.
    destruct x as [kx ix], y as [ky iy]. apply zip_seq_elem in Hx, Hy. unfold key_le in Hxy. simpl in *.
    by rewrite !list_lookup_total_alt, Hx, Hy.
Qed.

Definition stable_argsort (keys : list Z) : { p : list nat | is_argsort keys p } :=
  exist _ (stable_argsort_list keys) (stable_argsort_spec keys).

(** A text's vector: its length and 1. *)
Definition length_encoder : Encoder := {|
  encode_text s := Ok [INR (String.length s); 1%R];
  argsort := stable_argsort
|}.

Definition length_encoder_laws : @EncoderLaws length_encoder.
Proof. refine {| enc_dim := 2 |}. intros s v [= <-]. reflexivity. Defined.

End StandIn.

Module EncodeExamples.
#[local] Existing Instance StandIn.length_encoder.
#[local] Existing Instance StandIn.length_encoder_laws.

Definition entry_ttest : prompt_entry :=
  mk_entry (VStr "How do I compare two means?") (VStr "t-test") (VStr "Compare the means of two groups.")
           (VStr "stats.ttest_ind(a, b)").

(** A row [a,b] under the header [method,explanation,question,code]:
    its question is missing. *)
Definition entry_short : prompt_entry := mk_entry VNone (VStr "a") (VStr "b") VNone.

(** The missing question is embedded as the four characters of
    ["None"]. *)
Lemma build_index_str_questions_witness :
  build_index [entry_ttest; entry_short] = Ok (T2 [[INR 27; 1%R]; [INR 4; 1%R]]).
Proof.
  apply build_index_str_questions.
  - simpl. lia.
  - repeat constructor.
  - exists entry_ttest, "How do I compare two means?". split; [constructor|split; [reflexivity|vm_compute; lia]].
  - repeat constructor.
Defined.

Definition entry_blank : prompt_entry := mk_entry (VStr "") (VStr "a") (VStr "b") (VStr "c").

Lemma build_index_missing_TypeError_witness :
  build_index [entry_blank; entry_short] = Err TypeError.
Proof.
  apply build_index_missing_TypeError.
  - constructor; [right; reflexivity|constructor; [left; reflexivity|constructor]].
  - exists entry_short. split; [right; constructor|reflexivity].
Defined.

End EncodeExamples.
