(* ===== verification/Ui.v ===== *)
(** * The Streamlit calls of the script, as a trace

    A run of a page is the list of Streamlit calls it makes, in order,
    with their arguments, and the way it ends: normally, or with an
    exception (which Streamlit shows below what was already rendered).
    The computation type [ui] threads the trace and stops at the first
    exception.  A widget call ([st.text_input], [st.button], ...) both
    renders the widget and returns its current value, which comes from
    the session: the model takes that value as an argument.

    Two properties of pages are proved by their structure: [ui_frame]
    (a page appends to whatever trace it starts from, [solve_frame])
    and [ui_avoids] (a page never makes a call outside a given kind,
    [solve_avoids]). *)

From S2P Require Import Prelude.

Inductive st_call :=
| StPageConfig (page_title layout : string)
| StTitle (s : string)
| StHeader (s : string)
| StSubheader (s : string)
| StMarkdown (s : string)
| StSuccess (s : string)
| StCode (body language : string)
| StTextInput (label : string)
| StRadio (label : string) (options : list string)
| StSelectbox (label : string) (options : list string) (index : nat)
| StButton (label : string)
| StFileUploader (label : string)
| StDownloadButton (label file_name : string)
| StDataframe (nrows : nat) (columns : list string)
| StBarChart (columns : list string).

#[export] Instance st_call_eq_dec : EqDecision st_call.
Proof. solve_decision. Defined.

(** A page run from a trace: the extended trace and the outcome. *)
Definition ui (A : Type) : Type := list st_call -> list st_call * res A.

Definition ui_ret {A} (a : A) : ui A := fun tr => (tr, Ok a).

Definition ui_bind {A B} (m : ui A) (k : A -> ui B) : ui B :=
  fun tr =>
    match m tr with
    | (tr', Ok a) => k a tr'
    | (tr', Err e) => (tr', Err e)
    end.

Notation "'let!' x ':=' m 'in' k" := (ui_bind m (fun x => k))
  (at level 10, x name, m at level 100, k at level 200) : py_scope.

(** A Streamlit call that only renders. *)
Definition emit (c : st_call) : ui unit := fun tr => (tr ++ [c], Ok tt).

(** A widget: it renders and returns the session's value for it. *)
Definition widget {A} (c : st_call) (value : A) : ui A := fun tr => (tr ++ [c], Ok value).

(** A Python computation inside a page: its exception ends the run. *)
Definition lift {A} (r : res A) : ui A := fun tr => (tr, r).

(** A page run from the empty trace. *)
Definition run {A} (m : ui A) : list st_call * res A := m [].

(** ** Lemmas *)

Lemma ui_bind_lift_Ok {A B} (a : A) (k : A -> ui B) tr :
  ui_bind (lift (Ok a)) k tr = k a tr.
Proof. reflexivity. Qed.

Lemma ui_bind_lift_Err {A B} e (k : A -> ui B) tr :
  ui_bind (lift (Err e)) k tr = (tr, Err e).
Proof. reflexivity. Qed.

Lemma ui_bind_emit {B} c (k : unit -> ui B) tr :
  ui_bind (emit c) k tr = k tt (tr ++ [c]).
Proof. reflexivity. Qed.

Lemma ui_bind_widget {A B} c (v : A) (k : A -> ui B) tr :
  ui_bind (widget c v) k tr = k v (tr ++ [c]).
Proof. reflexivity. Qed.

Create Rewrite HintDb ui_rw.
#[export] Hint Rewrite @ui_bind_lift_Ok @ui_bind_lift_Err @ui_bind_emit @ui_bind_widget : ui_rw.

(** ** Frame property: a page appends to whatever trace it starts from *)

Definition ui_frame {A} (m : ui A) : Prop :=
  forall tr, m tr = (tr ++ (m []).1, (m []).2).

Lemma ui_frame_ret {A} (a : A) : ui_frame (ui_ret a).
Proof. intros tr. unfold ui_ret. simpl. by rewrite app_nil_r. Qed.

Lemma ui_frame_emit c : ui_frame (emit c).
Proof. intros tr. reflexivity. Qed.

Lemma ui_frame_widget {A} c (v : A) : ui_frame (widget c v).
Proof. intros tr. reflexivity. Qed.

Lemma ui_frame_lift {A} (r : res A) : ui_frame (lift r).
Proof. intros tr. unfold lift. simpl. by rewrite app_nil_r. Qed.

Lemma ui_frame_bind {A B} (m : ui A) (k : A -> ui B) :
  ui_frame m -> (forall a, ui_frame (k a)) -> ui_frame (ui_bind m k).
Proof.
  intros Hm Hk tr. unfold ui_bind. rewrite (Hm tr).
  destruct (m []) as [t [a|e]]; simpl; [|done].
  rewrite (Hk a (tr ++ t)), (Hk a t). simpl. by rewrite app_assoc.
Qed.

(** Prove [ui_frame] of a page by its structure. *)
Ltac solve_frame :=
  repeat match goal with
  | |- ui_frame (ui_bind _ _) => apply ui_frame_bind; [|intros ?]
  | |- ui_frame (ui_ret _) => apply ui_frame_ret
  | |- ui_frame (emit _) => apply ui_frame_emit
  | |- ui_frame (widget _ _) => apply ui_frame_widget
  | |- ui_frame (lift _) => apply ui_frame_lift
  | |- ui_frame (if ?b then _ else _) => destruct b
  | |- ui_frame (match ?x with _ => _ end) => destruct x
  end.

(** ** Safety: calls a page never makes

    [ui_avoids P m]: run from a trace whose calls all satisfy [P], the
    page only adds calls that satisfy [P]. *)

Definition ui_avoids {A} (P : st_call -> Prop) (m : ui A) : Prop :=
  forall tr, Forall P tr -> Forall P (m tr).1.

Section Avoids.
Context (P : st_call -> Prop).

Lemma ui_avoids_ret {A} (a : A) : ui_avoids P (ui_ret a).
Proof. by intros tr Htr. Qed.

Lemma ui_avoids_emit c : P c -> ui_avoids P (emit c).
Proof. intros Hc tr Htr. simpl. apply Forall_app. by split; [|constructor]. Qed.

Lemma ui_avoids_widget {A} c (v : A) : P c -> ui_avoids P (widget c v).
Proof. intros Hc tr Htr. simpl. apply Forall_app. by split; [|constructor]. Qed.

Lemma ui_avoids_lift {A} (r : res A) : ui_avoids P (lift r).
Proof. by intros tr Htr. Qed.

Lemma ui_avoids_bind {A B} (m : ui A) (k : A -> ui B) :
  ui_avoids P m -> (forall a, ui_avoids P (k a)) -> ui_avoids P (ui_bind m k).
Proof.
  intros Hm Hk tr Htr. unfold ui_bind. specialize (Hm tr Htr).
  destruct (m tr) as [tr' [a|e]]; simpl in *; [by apply Hk|done].
Qed.

(** A widget returns the session's value: only that continuation runs. *)
Lemma ui_avoids_bind_widget {A B} c (v : A) (k : A -> ui B) :
  P c -> ui_avoids P (k v) -> ui_avoids P (ui_bind (widget c v) k).
Proof. intros Hc Hk tr Htr. rewrite ui_bind_widget. apply Hk, Forall_app. by split; [|constructor]. Qed.
End Avoids.

(** Prove [ui_avoids] of a page by its structure; the calls' side
    conditions are left to [simpl] and [done]. *)
Ltac solve_avoids :=
  repeat match goal with
  | |- ui_avoids _ (ui_bind (widget _ _) _) => apply ui_avoids_bind_widget; [simpl; done|cbv beta iota]
  | |- ui_avoids _ (ui_bind _ _) => apply ui_avoids_bind; [|intros ?]
  | |- ui_avoids _ (ui_ret _) => apply ui_avoids_ret
  | |- ui_avoids _ (emit _) => apply ui_avoids_emit; simpl; done
  | |- ui_avoids _ (widget _ _) => apply ui_avoids_widget; simpl; done
  | |- ui_avoids _ (lift _) => apply ui_avoids_lift
  | |- ui_avoids _ (if ?b then _ else _) => destruct b
  | |- ui_avoids _ (match ?x with _ => _ end) => destruct x
  end.

(** The calls that are not a download button. *)
Definition no_download (c : st_call) : Prop :=
  match c with StDownloadButton _ _ => False | _ => True end.
