(* ===== verification/Matcher.v ===== *)
(** * The matcher: the student page (src/app.py, lines 81-91)

    When the text input holds a non-empty string ([if user_input:]),
    the page encodes it (line 85), computes [util.cos_sim] of the query
    with the index and takes its only row (line 86), takes [argmax] of
    the scores (line 87), looks the entry up in the library (line 88),
    and renders its method, explanation and code (lines 89-91).  The
    three steps are [query_scores], [top_index] and [match_query], and
    [student_page] is the page with its Streamlit calls.

    The theorems are stated against the interface [EncoderLaws] of the
    embedding model, for any library whose index [build_index] built. *)

From S2P Require Import Prelude PyVal DictReader Loader Argmax Cosine Embedding Ui.
From Stdlib Require Import Reals Lra.

Section Matcher.
Context `{Encoder}.

(** Lines 85-86: [query_vec = model.encode(user_input, ...)] and
    [scores = util.cos_sim(query_vec, question_embeddings)[0]]. *)
Definition query_scores (question_embeddings : tensor) (user_input : string) : res (list R) :=
  let* query_vec := encode_text user_input in
  let* sims := cos_sim_t (T1 query_vec) question_embeddings in
  py_index sims 0.

(** Line 87: [top_idx = scores.argmax().item()]. *)
Definition top_index (question_embeddings : tensor) (user_input : string) : res nat :=
  let* scores := query_scores question_embeddings user_input in
  argmax Rltb scores.

(** Line 88: [match = prompt_library[top_idx]]. *)
Definition match_query (prompt_library : list prompt_entry) (question_embeddings : tensor)
    (user_input : string) : res prompt_entry :=
  let* top_idx := top_index question_embeddings user_input in
  py_index prompt_library top_idx.

(** Lines 82-91, with [user_input_value] the session's value of the
    text input. *)
Definition student_page (prompt_library : list prompt_entry) (question_embeddings : tensor)
    (user_input_value : string) : ui unit :=
  let! _ := emit (StHeader "🤖 Student Interface") in
  let! user_input := widget (StTextInput "📌 Ask a question about statistical analysis:") user_input_value in
  if bool_decide (user_input = "") then ui_ret tt else
  let! m := lift (match_query prompt_library question_embeddings user_input) in
  let! _ := emit (StSuccess ("📘 Suggested Method: " ++ py_str (method m))) in
  let! _ := emit (StMarkdown ("**🧠 Explanation:** " ++ py_str (explanation m))) in
  emit (StCode (py_str (code m)) "python").

End Matcher.

(** ** The matcher against a built index *)

Section MatcherTheorems.
Context `{EncoderLaws}.
Variables (lib : list prompt_entry) (vs : list (list R)).
Hypothesis Hbuild : build_index lib = Ok (T2 vs).

Lemma index_shape :
  lib <> [] /\ Forall2 (fun e v => encode_sentence (question e) = Ok v) lib vs.
Proof.
  unfold build_index in Hbuild.
  apply encode_batch_Ok_inv in Hbuild as [[_ ?]|(vs' & Hne & [= <-] & Hall)]; [discriminate|].
  split; [by intros ->|]. by apply Forall2_fmap_l in Hall.
Qed.

Lemma index_length : length vs = length lib.
Proof. destruct index_shape as [_ Hall]. symmetry. by eapply Forall2_length. Qed.

Lemma index_dims : Forall (fun v => length v = enc_dim) vs.
Proof.
  destruct index_shape as [_ Hall]. eapply Forall2_Forall_r; [exact Hall|].
  apply Forall_forall. intros e _ v Hv. by eapply encode_sentence_dim.
Qed.

Lemma index_nonempty : vs <> [].
Proof.
  pose proof index_length as Hl. destruct index_shape as [Hne _].
  intros Hnil. rewrite Hnil in Hl. destruct lib; [done|discriminate].
Qed.

Lemma query_scores_ok s q :
  encode_text s = Ok q -> query_scores (T2 vs) s = Ok (map (cos_sim q) vs).
Proof.
  intros Hq. unfold query_scores. rewrite Hq. simpl.
  rewrite cos_sim_t_row; [done|apply index_nonempty|].
  eapply Forall_impl; [apply index_dims|]. intros v Hv. by rewrite (encode_dim _ _ Hq).
Qed.

Lemma top_index_spec s q i :
  encode_text s = Ok q ->
  top_index (T2 vs) s = Ok i <-> first_max Rltb (map (cos_sim q) vs) i.
Proof.
  intros Hq. unfold top_index. rewrite (query_scores_ok s q Hq). simpl.
  apply argmax_refines; [apply Rltb_irrefl|apply Rltb_trans|apply Rltb_total].
Qed.

Lemma match_query_total s q :
  encode_text s = Ok q ->
  exists i e, first_max Rltb (map (cos_sim q) vs) i /\ lib !! i = Some e /\
              match_query lib (T2 vs) s = Ok e.
Proof.
  intros Hq.
  destruct (first_max_exists Rltb Rltb_irrefl Rltb_trans Rltb_total (map (cos_sim q) vs)) as [i Hi].
  { intros Hnil%(f_equal length). rewrite length_map in Hnil. simpl in Hnil.
    apply index_nonempty, length_zero_iff_nil. done. }
  destruct (lookup_lt_is_Some_2 lib i) as [e He].
  { destruct Hi as (x & Hx & _). apply lookup_lt_Some in Hx.
    rewrite length_map, index_length in Hx. done. }
  exists i, e. split; [done|]. split; [done|].
  unfold match_query. rewrite (proj2 (top_index_spec s q i Hq) Hi). simpl.
  by apply py_index_Ok.
Qed.

(** C2: The index the matcher selects is exactly the first index of a
    maximal similarity between the query vector and the indexed
    vectors. *)
Theorem top_index_first_max s q i :
  encode_text s = Ok q ->
  top_index (T2 vs) s = Ok i <-> first_max Rltb (map (cos_sim q) vs) i.
Proof. apply top_index_spec. Qed.

(** C1: When the query encodes, the matcher returns an entry, and it is
    the entry at the first index of maximal similarity. *)
Theorem match_query_spec s q :
  encode_text s = Ok q ->
  exists i e, first_max Rltb (map (cos_sim q) vs) i /\ lib !! i = Some e /\
              match_query lib (T2 vs) s = Ok e.
Proof. apply match_query_total. Qed.

(** C4: Tie-break: of two entries with the same question vector, the
    later one is never selected. *)
Theorem top_index_tie s q i j v :
  encode_text s = Ok q -> vs !! i = Some v -> vs !! j = Some v -> i < j ->
  top_index (T2 vs) s <> Ok j.
Proof.
  intros Hq Hi Hj Hij Htop.
  apply (top_index_spec s q j Hq) in Htop as (x & Hx & _ & Hlt).
  rewrite lookup_map, Hj in Hx. injection Hx as <-.
  specialize (Hlt i (cos_sim q v) Hij). rewrite lookup_map, Hi in Hlt.
  rewrite Rltb_irrefl in Hlt. by specialize (Hlt eq_refl).
Qed.

(** C6: Asking exactly the question of a library entry whose vector
    is not below the [eps] clamp selects an entry of similarity 1, the
    largest possible. *)
Theorem match_query_own_question s k e v :
  lib !! k = Some e -> question e = VStr s -> encode_text s = Ok v -> (eps <= norm v)%R ->
  exists i e' w, lib !! i = Some e' /\ vs !! i = Some w /\
                 match_query lib (T2 vs) s = Ok e' /\ cos_sim v w = 1%R.
Proof.
  intros Hk Hq Hv Hn.
  destruct (match_query_total s v Hv) as (i & e' & (x & Hx & Hle & _) & He' & Hm).
  rewrite lookup_map in Hx. destruct (vs !! i) as [w|] eqn:Hw; [|discriminate].
  injection Hx as <-. exists i, e', w. do 3 (split; [done|]).
  destruct index_shape as [_ Hall].
  destruct (Forall2_lookup_l _ _ _ _ _ Hall Hk) as (v' & Hv' & Henc).
  rewrite Hq in Henc. unfold encode_sentence in Henc. simpl in Henc. rewrite Hv in Henc. injection Henc as <-.
  specialize (Hle k (cos_sim v v)). rewrite lookup_map, Hv' in Hle.
  specialize (Hle eq_refl). apply Rltb_false in Hle.
  rewrite cos_sim_self_one in Hle by done.
  pose proof (cos_sim_range v w). lra.
Qed.

(** C16: With a one-entry library, every query that encodes returns
    that entry, with a similarity in [-1, 1]. *)
Theorem match_query_single s q e w :
  lib = [e] -> vs = [w] -> encode_text s = Ok q ->
  match_query lib (T2 vs) s = Ok e /\ (-1 <= cos_sim q w <= 1)%R.
Proof.
  intros Hl Hv Hq. split; [|apply cos_sim_range].
  destruct (match_query_total s q Hq) as (i & e' & _ & He' & Hm).
  rewrite Hl in He'. destruct i as [|i]; [by injection He' as ->|].
  by rewrite lookup_cons, lookup_nil in He'.
Qed.

End MatcherTheorems.

(** ** The page *)

Section StudentPage.
Context `{Encoder}.

Lemma student_page_frame lib emb s : ui_frame (student_page lib emb s).
Proof. unfold student_page. solve_frame. Qed.

(** C8: An empty text input renders the header and the input only: no
    query is encoded and no entry is shown. *)
Theorem student_page_empty lib emb :
  run (student_page lib emb "") = ([StHeader "🤖 Student Interface"; StTextInput "📌 Ask a question about statistical analysis:"], Ok tt).
Proof. reflexivity. Qed.

Lemma student_page_no_download lib emb s : ui_avoids no_download (student_page lib emb s).
Proof. unfold student_page. solve_avoids. Qed.

Lemma student_page_run lib emb s e :
  s <> "" -> match_query lib emb s = Ok e ->
  run (student_page lib emb s) =
  ([StHeader "🤖 Student Interface"; StTextInput "📌 Ask a question about statistical analysis:";
    StSuccess ("📘 Suggested Method: " ++ py_str (method e));
    StMarkdown ("**🧠 Explanation:** " ++ py_str (explanation e));
    StCode (py_str (code e)) "python"], Ok tt).
Proof.
  intros Hs Hm. unfold run, student_page. autorewrite with ui_rw.
  rewrite bool_decide_false by done. rewrite Hm. reflexivity.
Qed.

(** C7: Any non-empty text input, whitespace only included, is matched:
    the page renders the method, the explanation and the code of the
    entry [match_query] returns. *)
Theorem student_page_match lib emb s e :
  s <> "" -> match_query lib emb s = Ok e ->
  run (student_page lib emb s) =
  ([StHeader "🤖 Student Interface"; StTextInput "📌 Ask a question about statistical analysis:";
    StSuccess ("📘 Suggested Method: " ++ py_str (method e));
    StMarkdown ("**🧠 Explanation:** " ++ py_str (explanation e));
    StCode (py_str (code e)) "python"], Ok tt).
Proof. apply student_page_run. Qed.

(** C9: When matching raises (the embedding model fails, the shapes do
    not agree, the library is empty), the page stops after the input
    with that exception and renders no entry. *)
Theorem student_page_error lib emb s ex :
  s <> "" -> match_query lib emb s = Err ex ->
  run (student_page lib emb s) = ([StHeader "🤖 Student Interface"; StTextInput "📌 Ask a question about statistical analysis:"], Err ex).
Proof.
  intros Hs Hm. unfold run, student_page. autorewrite with ui_rw.
  rewrite bool_decide_false by done. rewrite Hm. reflexivity.
Qed.

(** C10: An empty library is accepted by the loader and the index, and
    every query then raises [RuntimeError] ([torch.mm] gets a query of
    positive dimension and an index of zero columns). *)
Theorem match_query_empty_library s q :
  encode_text s = Ok q -> q <> [] ->
  build_index [] = Ok (T1 []) /\ match_query [] (T1 []) s = Err RuntimeError.
Proof.
  intros Hq Hne. split; [apply encode_batch_nil|]. unfold match_query, top_index, query_scores.
  rewrite Hq. simpl. unfold cos_sim_t. simpl.
  destruct q; [done|]. reflexivity.
Qed.

End StudentPage.

(** ** Concrete runs, with stand-in embedding models *)

Module Examples.

(** A text's vector: its length and 1. *)
#[local] Instance length_encoder : Encoder := StandIn.length_encoder.

#[local] Instance length_encoder_laws : EncoderLaws := StandIn.length_encoder_laws.

Definition entry_ttest : prompt_entry :=
  mk_entry (VStr "How do I compare two means?") (VStr "t-test") (VStr "Compare the means of two groups.")
           (VStr "stats.ttest_ind(a, b)").
Definition entry_chi2 : prompt_entry :=
  mk_entry (VStr "How do I test independence of categories?") (VStr "chi-square test")
           (VStr "Test independence in a contingency table.") (VStr "stats.chi2_contingency(t)").

Definition lib2 : list prompt_entry := [entry_ttest; entry_chi2].
Definition vs2 : list (list R) := [[INR 27; 1%R]; [INR 41; 1%R]].

Lemma norm_length_vector x : (eps <= norm [x; 1%R])%R.
Proof.
  unfold norm, eps. simpl.
  assert (1 <= sqrt (x * x + (1 * 1 + 0)))%R.
  { pose proof (sqrt_le_1_alt 1 (x * x + (1 * 1 + 0))) as Hs.
    rewrite sqrt_1 in Hs. apply Hs. nra. }
  lra.
Qed.

Definition query : string := "comparing averages between two groups".

Lemma top_index_first_max_witness :
  top_index (T2 vs2) query = Ok 0 <->
  first_max Rltb (map (cos_sim [INR 37; 1%R]) vs2) 0.
Proof. apply (top_index_first_max lib2 vs2); reflexivity. Defined.

Lemma match_query_spec_witness :
  exists i e, first_max Rltb (map (cos_sim [INR 37; 1%R]) vs2) i /\
              lib2 !! i = Some e /\ match_query lib2 (T2 vs2) query = Ok e.
Proof. apply (match_query_spec lib2 vs2); reflexivity. Defined.

(** Two entries with the same question text get the same vector. *)
Definition lib_dup : list prompt_entry :=
  [entry_ttest; mk_entry (VStr "How do I compare two means?") (VStr "Welch t-test") (VStr "Unequal variances.")
                         (VStr "stats.ttest_ind(a, b, equal_var=False)")].
Definition vs_dup : list (list R) := [[INR 27; 1%R]; [INR 27; 1%R]].

Lemma top_index_tie_witness : top_index (T2 vs_dup) query <> Ok 1.
Proof.
  refine (top_index_tie lib_dup vs_dup _ query [INR 37; 1%R] 0 1 [INR 27; 1%R] _ _ _ _);
    [reflexivity..|lia].
Defined.

Lemma match_query_own_question_witness :
  exists i e' w, lib2 !! i = Some e' /\ vs2 !! i = Some w /\
                 match_query lib2 (T2 vs2) "How do I test independence of categories?" = Ok e' /\
                 cos_sim [INR 41; 1%R] w = 1%R.
Proof.
  refine (match_query_own_question lib2 vs2 _ "How do I test independence of categories?" 1
            entry_chi2 [INR 41; 1%R] _ _ _ _); [reflexivity..|].
  apply norm_length_vector.
Defined.

Definition lib1 : list prompt_entry := [entry_ttest].
Definition vs1 : list (list R) := [[INR 27; 1%R]].

Lemma match_query_single_witness :
  match_query lib1 (T2 vs1) "   " = Ok entry_ttest /\
  (-1 <= cos_sim [INR 3; 1%R] [INR 27; 1%R] <= 1)%R.
Proof. apply (match_query_single lib1 vs1); reflexivity. Defined.

(** A whitespace-only question is matched and its entry rendered. *)
Lemma student_page_match_witness :
  run (student_page lib1 (T2 vs1) "   ") =
  ([StHeader "🤖 Student Interface"; StTextInput "📌 Ask a question about statistical analysis:";
    StSuccess ("📘 Suggested Method: " ++ py_str (method entry_ttest));
    StMarkdown ("**🧠 Explanation:** " ++ py_str (explanation entry_ttest));
    StCode (py_str (code entry_ttest)) "python"], Ok tt).
Proof. apply student_page_match; [discriminate|reflexivity]. Defined.

(** An embedding model that is unavailable. *)
Definition failing_encoder : Encoder := {|
  encode_text _ := Err EncodeError;
  argsort := StandIn.stable_argsort
|}.

Lemma student_page_error_witness :
  run (@student_page failing_encoder lib1 (T2 vs1) query) =
  ([StHeader "🤖 Student Interface"; StTextInput "📌 Ask a question about statistical analysis:"], Err EncodeError).
Proof. apply (@student_page_error failing_encoder); [discriminate|reflexivity]. Defined.

Lemma match_query_empty_library_witness :
  build_index [] = Ok (T1 []) /\ match_query [] (T1 []) query = Err RuntimeError.
Proof. apply (match_query_empty_library query [INR 37; 1%R]); [reflexivity|discriminate]. Defined.

End Examples.
