(* ===== verification/Rubric.v ===== *)
(** * The rubric page (src/app.py, lines 94-111)

    Three criteria, each scored by a select box over five levels whose
    default is index 2; on the button, the total is the sum of the first
    character of each chosen level read as an integer, and the page
    shows it out of 12.  The select boxes' values come from the session:
    [sel label] is [Some v] when the user picked [v], [None] when the box
    was never touched (Streamlit then returns [options[index]]).

    The results: the total shown is at most 12 whatever the user picks,
    and the page shows 12/12 exactly when every criterion is set to the
    top level. *)

From S2P Require Import Prelude Ui.
From stdpp Require Import sets pretty.
From Stdlib Require Import Ascii.

Module Rubric.

(** [criteria.keys()], in insertion order. *)
Definition criteria : list string :=
  ["Data Cleaning & Preprocessing"; "Statistical Analysis"; "Visualization & Presentation"].

Definition levels : list string :=
  ["0 - Not achieved"; "1 - Minimal"; "2 - Basic"; "3 - Expected"; "4 - Excellent"].

(** [st.selectbox(label, options, index=...)]. *)
Definition selectbox (label : string) (options : list string) (index : nat)
    (state : option string) : ui string :=
  widget (StSelectbox label options index)
    (match state with Some v => v | None => nth index options "" end).

(** [d[k] = v] on a dict kept as its items in insertion order. *)
Fixpoint dict_set (k v : string) (d : list (string * string)) : list (string * string) :=
  match d with
  | [] => [(k, v)]
  | (k', v') :: d' => if String.eqb k k' then (k, v) :: d' else (k', v') :: dict_set k v d'
  end.

(** [for k in criteria.keys(): scores[k] = st.selectbox(f"{k}:", levels, index=2)]. *)
Fixpoint select_loop (sel : string -> option string) (ks : list string)
    (scores : list (string * string)) : ui (list (string * string)) :=
  match ks with
  | [] => ui_ret scores
  | k :: ks' =>
      let! v := selectbox (k ++ ":")%string levels 2 (sel (k ++ ":")%string) in
      select_loop sel ks' (dict_set k v scores)
  end.

(** [int(c)] of a one-character string. *)
Definition py_int_char (c : ascii) : res nat :=
  let n := nat_of_ascii c in
  if (48 <=? n) && (n <=? 57) then Ok (n - 48) else Err ValueError.

(** [int(s[0])]: [s[0]] raises on the empty string. *)
Definition int_first (s : string) : res nat :=
  match s with
  | EmptyString => Err IndexError
  | String c _ => py_int_char c
  end.

Definition rubric_page (sel : string -> option string) (clicked : bool) : ui unit :=
  let! _ := emit (StHeader "📋 Evaluate Group Using Rubric") in
  let! _ := emit (StMarkdown "Select performance level for each criterion:") in
  let! scores := select_loop sel criteria [] in
  let! pressed := widget (StButton "✅ Calculate Total Score") clicked in
  if pressed then
    let! vals := lift (map_res int_first (map snd scores)) in
    let total := sum_list vals in
    emit (StMarkdown ("**🔢 Total Score: " ++ pretty total ++ "/12**")%string)
  else ui_ret tt.

(** ** Lemmas *)

Lemma select_loop_frame sel ks acc : ui_frame (select_loop sel ks acc).
Proof. revert acc. induction ks as [|k ks IH]; intros acc; simpl; unfold selectbox; solve_frame; auto. Qed.

Lemma rubric_page_frame sel clicked : ui_frame (rubric_page sel clicked).
Proof. unfold rubric_page. solve_frame. apply select_loop_frame. Qed.

Lemma select_loop_no_download sel ks acc : ui_avoids no_download (select_loop sel ks acc).
Proof. revert acc. induction ks as [|k ks IH]; intros acc; simpl; unfold selectbox; solve_avoids; auto. Qed.

Lemma rubric_page_no_download sel clicked : ui_avoids no_download (rubric_page sel clicked).
Proof. unfold rubric_page. solve_avoids. apply select_loop_no_download. Qed.

(** The value the select box of criterion [k] returns. *)
Definition chosen (sel : string -> option string) (k : string) : string :=
  match sel (k ++ ":")%string with Some v => v | None => "2 - Basic" end.

(** A session whose select boxes only hold levels. *)
Definition sel_ok (sel : string -> option string) : Prop :=
  forall l v, sel l = Some v -> v ∈ levels.

Definition rubric_widgets : list st_call :=
  [StHeader "📋 Evaluate Group Using Rubric";
   StMarkdown "Select performance level for each criterion:"] ++
  map (fun k => StSelectbox (k ++ ":")%string levels 2) criteria ++
  [StButton "✅ Calculate Total Score"].

Lemma dict_set_fresh k v d : k ∉ d.*1 -> dict_set k v d = d ++ [(k, v)].
Proof.
  induction d as [|[k' v'] d IH]; simpl; [done|]. intros Hk.
  apply not_elem_of_cons in Hk as [Hne Hk].
  destruct (String.eqb_spec k k'); [done|]. by rewrite IH.
Qed.

Lemma select_loop_run sel ks acc tr :
  NoDup ks -> (forall k, k ∈ ks -> k ∉ acc.*1) ->
  select_loop sel ks acc tr =
  (tr ++ map (fun k => StSelectbox (k ++ ":")%string levels 2) ks,
   Ok (acc ++ map (fun k => (k, chosen sel k)) ks)).
Proof.
  revert acc tr. induction ks as [|k ks IH]; intros acc tr Hnd Hfresh; simpl.
  - by rewrite !app_nil_r.
  - apply NoDup_cons in Hnd as [Hk Hnd].
    unfold selectbox. rewrite ui_bind_widget.
    rewrite dict_set_fresh by (apply Hfresh; set_solver).
    rewrite IH; [|done|].
    + by rewrite <-!app_assoc.
    + intros k' Hk'. rewrite fmap_app. simpl. apply not_elem_of_app. split.
      * apply Hfresh. set_solver.
      * apply not_elem_of_cons. split; [set_solver|set_solver].
Qed.

Lemma int_first_level v : v ∈ levels -> exists n, int_first v = Ok n /\ n <= 4.
Proof.
  unfold levels. repeat rewrite elem_of_cons. rewrite elem_of_nil.
  intros [->|[->|[->|[->|[->|[]]]]]];
    [exists 0|exists 1|exists 2|exists 3|exists 4]; split; (reflexivity || lia).
Qed.

Lemma int_first_level_4 v : v ∈ levels -> int_first v = Ok 4 -> v = "4 - Excellent".
Proof.
  unfold levels. repeat rewrite elem_of_cons. rewrite elem_of_nil.
  intros [->|[->|[->|[->|[->|[]]]]]]; done.
Qed.

Lemma chosen_level sel k : sel_ok sel -> chosen sel k ∈ levels.
Proof.
  intros Hok. unfold chosen. destruct (sel _) eqn:E; [by eapply Hok|].
  unfold levels. set_solver.
Qed.

Lemma chosen_int sel k : sel_ok sel -> exists n, int_first (chosen sel k) = Ok n /\ n <= 4.
Proof. intros Hok. apply int_first_level, chosen_level, Hok. Qed.

Lemma level_values sel :
  sel_ok sel ->
  exists vals, map_res int_first (map (chosen sel) criteria) = Ok vals /\
               Forall (fun d => d <= 4) vals /\ length vals = 3.
Proof.
  intros Hok. unfold criteria. simpl.
  destruct (chosen_int sel "Data Cleaning & Preprocessing" Hok) as (a & -> & ?).
  destruct (chosen_int sel "Statistical Analysis" Hok) as (b & -> & ?).
  destruct (chosen_int sel "Visualization & Presentation" Hok) as (c & -> & ?).
  exists [a; b; c]. split; [reflexivity|]. split; [repeat (constructor; [lia|]); constructor|done].
Qed.

Lemma rubric_page_run sel vals :
  map_res int_first (map (chosen sel) criteria) = Ok vals ->
  run (rubric_page sel true) =
  (rubric_widgets ++ [StMarkdown ("**🔢 Total Score: " ++ pretty (sum_list vals) ++ "/12**")%string],
   Ok tt).
Proof.
  intros Hv. unfold run, rubric_page. rewrite !ui_bind_emit.
  unfold ui_bind at 1. rewrite select_loop_run.
  - rewrite ui_bind_widget.
    replace (map snd ([] ++ map (fun k => (k, chosen sel k)) criteria))
      with (map (chosen sel) criteria) by (rewrite app_nil_l, map_map; reflexivity).
    rewrite Hv, ui_bind_lift_Ok.
    unfold emit, rubric_widgets. by rewrite <-!app_assoc.
  - unfold criteria. repeat constructor; set_solver.
  - set_solver.
Qed.

Lemma rubric_page_idle sel :
  run (rubric_page sel false) = (rubric_widgets, Ok tt).
Proof.
  unfold run, rubric_page. rewrite !ui_bind_emit. unfold ui_bind at 1. rewrite select_loop_run.
  - rewrite ui_bind_widget. unfold ui_ret, rubric_widgets. by rewrite <-!app_assoc.
  - unfold criteria. repeat constructor; set_solver.
  - set_solver.
Qed.

Lemma sum_list_le_4 (vals : list nat) : Forall (fun d => d <= 4) vals -> sum_list vals <= 4 * length vals.
Proof. induction 1; simpl; lia. Qed.

(** The total is 12 exactly when every criterion is at "4 - Excellent". *)
Lemma sum_levels_max sel vals :
  sel_ok sel -> map_res int_first (map (chosen sel) criteria) = Ok vals ->
  sum_list vals = 12 <-> Forall (fun k => chosen sel k = "4 - Excellent") criteria.
Proof.
  intros Hok Hv. unfold criteria in *. simpl in Hv.
  destruct (chosen_int sel "Data Cleaning & Preprocessing" Hok) as (a & Ha & ?).
  destruct (chosen_int sel "Statistical Analysis" Hok) as (b & Hb & ?).
  destruct (chosen_int sel "Visualization & Presentation" Hok) as (c & Hc & ?).
  rewrite Ha, Hb, Hc in Hv. simpl in Hv. injection Hv as <-. simpl.
  rewrite !Forall_cons, Forall_nil. split.
  - intros Hsum. assert (a = 4 /\ b = 4 /\ c = 4) as (-> & -> & ->) by lia.
    repeat split; by apply int_first_level_4; [apply chosen_level|].
  - intros (Ea & Eb & Ec & _). rewrite Ea in Ha. rewrite Eb in Hb. rewrite Ec in Hc.
    simpl in Ha, Hb, Hc. injection Ha as <-. injection Hb as <-. injection Hc as <-. done.
Qed.

Lemma chosen_top sel k : chosen sel k = "4 - Excellent" <-> sel (k ++ ":")%string = Some "4 - Excellent".
Proof. unfold chosen. destruct (sel _); split; congruence. Qed.

Lemma total_markdown_inj (n m : nat) :
  StMarkdown ("**🔢 Total Score: " ++ pretty n ++ "/12**")%string =
  StMarkdown ("**🔢 Total Score: " ++ pretty m ++ "/12**")%string -> n = m.
Proof. intros [= H]. apply (inj _) in H. apply string_app_inj_r in H. by apply (inj pretty). Qed.

(** ** Theorems *)

(** C22: Whatever levels the user picks, the button shows the sum of
    their first digits, and that total is at most the 12 the page
    prints as the maximum. *)
Theorem rubric_total_bounds sel :
  sel_ok sel ->
  exists vals, map_res int_first (map (chosen sel) criteria) = Ok vals /\
    sum_list vals <= 12 /\
    run (rubric_page sel true) =
    (rubric_widgets ++ [StMarkdown ("**🔢 Total Score: " ++ pretty (sum_list vals) ++ "/12**")%string],
     Ok tt).
Proof.
  intros Hok. destruct (level_values sel Hok) as (vals & Hv & Hle & Hlen).
  exists vals. split; [done|]. split; [|by apply rubric_page_run].
  pose proof (sum_list_le_4 vals Hle). lia.
Qed.



(** C23: Pressing the button shows the total 12/12 exactly when every
    criterion's select box holds "4 - Excellent", for every state of
    the select boxes that holds levels. *)
Theorem rubric_total_max sel :
  sel_ok sel ->
  last (fst (run (rubric_page sel true))) = Some (StMarkdown "**🔢 Total Score: 12/12**") <->
  Forall (fun k => sel (k ++ ":")%string = Some "4 - Excellent") criteria.
Proof.
  intros Hok. destruct (level_values sel Hok) as (vals & Hv & _ & _).
  rewrite (rubric_page_run sel vals Hv). cbn [fst]. rewrite last_snoc.
  change "**🔢 Total Score: 12/12**" with ("**🔢 Total Score: " ++ pretty 12 ++ "/12**")%string.
  rewrite <-(Forall_proper _ _ (fun k => chosen_top sel k) _ _ eq_refl), <-(sum_levels_max sel vals Hok Hv).
  split; [intros Hl; apply total_markdown_inj; congruence|intros ->; reflexivity].
Qed.

(** ** Witnesses *)

Definition sel_mixed : string -> option string :=
  fun l => if String.eqb l "Statistical Analysis:" then Some "4 - Excellent" else None.

Definition sel_top : string -> option string := fun _ => Some "4 - Excellent".

Lemma rubric_total_bounds_witness :
  exists vals, map_res int_first (map (chosen sel_mixed) criteria) = Ok vals /\
    sum_list vals <= 12 /\
    run (rubric_page sel_mixed true) =
    (rubric_widgets ++ [StMarkdown ("**🔢 Total Score: " ++ pretty (sum_list vals) ++ "/12**")%string],
     Ok tt).
Proof.
  apply rubric_total_bounds. intros l v. unfold sel_mixed.
  destruct (String.eqb l _); intros [= <-]. decide_goal.
Defined.

Lemma rubric_total_max_witness :
  last (fst (run (rubric_page sel_top true))) = Some (StMarkdown "**🔢 Total Score: 12/12**") <->
  Forall (fun k => sel_top (k ++ ":")%string = Some "4 - Excellent") criteria.
Proof.
  apply rubric_total_max. intros l v [= <-]. decide_goal.
Defined.

End Rubric.
