(* ===== verification/Instructor.v ===== *)
(** * The instructor page (src/app.py, lines 48-78) and [export_to_word] (lines 23-34)

    The page reads an uploaded CSV with pandas, shows its shape, a
    preview and a chart, splits its columns by dtype
    ([select_dtypes(include='object')] and [include='number']), suggests
    up to three project topics from the column counts, lists them, and
    on the export button writes a Word document with [export_to_word]
    and offers it for download.

    pandas is a collaborator: a parsed frame is its number of rows and
    its columns with their dtypes, and [read_csv] is a parameter that
    may raise.  [pd.read_csv] without options yields the dtypes
    [int64], [float64], [bool] and [object]; [include='number'] selects
    the first two ([bool] is not a number for pandas); [df.head()] keeps
    the first five rows.  [st.dataframe] and [st.bar_chart] are recorded
    with the row count and the column names of the frame they are given
    (the preview of [df.head()], the chart of the numeric columns); the
    cell values are not modelled.  A Word document
    is the list of blocks [python-docx] appends; [doc.save] is the file
    written, returned with its path.

    [read_summary] reads the summary of line 75 back (the two numbers,
    then the two lists [str] prints): the summary loses nothing
    ([summary_roundtrip]), whatever the column names hold. *)

From S2P Require Import Prelude Utf8 PyVal Ui.
From stdpp Require Import sets pretty.
From Stdlib Require Import Ascii NArith.

Module Instructor.

Inductive dtype := DInt64 | DFloat64 | DBool | DObject.

#[export] Instance dtype_eq_dec : EqDecision dtype.
Proof. solve_decision. Defined.

Record dataframe := mk_df {
  df_rows : nat;
  df_columns : list (string * dtype)
}.

(** [df.select_dtypes(include='number')]. *)
Definition is_number (t : dtype) : bool :=
  match t with DInt64 | DFloat64 => true | _ => false end.

Definition is_object (t : dtype) : bool :=
  match t with DObject => true | _ => false end.

(** [df.select_dtypes(include=...)]: the frame of the selected columns. *)
Definition select_dtypes (p : dtype -> bool) (df : dataframe) : dataframe :=
  mk_df (df_rows df) (filter (fun c => p c.2 = true) (df_columns df)).

(** [df.select_dtypes(include=...).columns.tolist()]. *)
Definition select_columns (p : dtype -> bool) (df : dataframe) : list string :=
  map fst (df_columns (select_dtypes p df)).

(** [df.head()]: the first five rows, all columns. *)
Definition df_head (df : dataframe) : dataframe :=
  mk_df (Nat.min 5 (df_rows df)) (df_columns df).

(** A frame as [st.dataframe] and [st.bar_chart] show it: its number of
    rows and its column names. *)
Definition shown_frame (df : dataframe) : nat * list string :=
  (df_rows df, map fst (df_columns df)).

Definition suggestion_correlation : string := "🔍 Explore correlation between numerical variables.".
Definition suggestion_independence : string := "📊 Test independence between categorical variables.".
Definition suggestion_means : string := "📈 Compare group means (t-test or ANOVA).".

(** Lines 61-68: [suggestions = []] and the three [if]s. *)
Definition suggestions_of (num_cols cat_cols : list string) : list string :=
  let s := [] in
  let s := if 2 <=? length num_cols then s ++ [suggestion_correlation] else s in
  let s := if 2 <=? length cat_cols then s ++ [suggestion_independence] else s in
  let s := if negb (bool_decide (cat_cols = [])) && negb (bool_decide (num_cols = []))
           then s ++ [suggestion_means] else s in
  s.

Definition newline : string := String "010"%char EmptyString.

(** Line 75: the summary f-string. *)
Definition summary_of (df : dataframe) (num_cols cat_cols : list string) : string :=
  "Rows: " ++ pretty (df_rows df) ++ ", Columns: " ++ pretty (length (df_columns df)) ++
  newline ++ "Numerical: " ++ py_str_list num_cols ++
  newline ++ "Categorical: " ++ py_str_list cat_cols.

(** ** Reading the summary back

    The summary of line 75 read as text: the numbers after [Rows: ] and
    [, Columns: ], then the two lists [str] prints after [Numerical: ]
    and [Categorical: ], each on its own line. *)

(** The text after the prefix [p], if the text starts with it. *)
Fixpoint strip_prefix (p s : list N) : option (list N) :=
  match p, s with
  | [], _ => Some s
  | c :: p', d :: s' => if N.eqb c d then strip_prefix p' s' else None
  | _ :: _, [] => None
  end.

Definition is_digit (c : N) : bool := (48 <=? c)%N && (c <=? 57)%N.

Fixpoint read_digits (s : list N) (acc : N) : N * list N :=
  match s with
  | c :: s' => if is_digit c then read_digits s' (10 * acc + (c - 48)) else (acc, s)
  | [] => (acc, s)
  end.

(** A decimal number at the head of a text. *)
Definition read_nat (s : list N) : option (nat * list N) :=
  match s with
  | c :: _ => if is_digit c then let '(n, r) := read_digits s 0 in Some (N.to_nat n, r) else None
  | [] => None
  end.

Definition read_summary (text : string) : option (nat * nat * list string * list string) :=
  r1 ← strip_prefix (str_cps "Rows: ") (str_cps text);
  '(rows, r2) ← read_nat r1;
  r3 ← strip_prefix (str_cps ", Columns: ") r2;
  '(cols, r4) ← read_nat r3;
  r5 ← strip_prefix (str_cps (newline ++ "Numerical: ")) r4;
  '(num, r6) ← Unrepr.parse_list_prefix r5;
  r7 ← strip_prefix (str_cps (newline ++ "Categorical: ")) r6;
  '(cat, r8) ← Unrepr.parse_list_prefix r7;
  if bool_decide (r8 = []) then Some (rows, cols, map cps_str num, map cps_str cat) else None.

(** A block of a [python-docx] document. *)
Inductive block :=
| Heading (text : string) (level : nat)
| Paragraph (text : string) (style : option string).

#[export] Instance block_eq_dec : EqDecision block.
Proof. solve_decision. Defined.

Definition add_heading (text : string) (level : nat) (doc : list block) : list block :=
  doc ++ [Heading text level].

Definition add_paragraph (text : string) (style : option string) (doc : list block) : list block :=
  doc ++ [Paragraph text style].

(** Lines 23-34: the path returned and the document [doc.save] writes. *)
Definition export_to_word (dataset_summary : string) (suggestions : list string)
    : string * list block :=
  let doc := [] in
  let doc := add_heading "Statistical Project Assignment" 1 doc in
  let doc := add_paragraph "The system analyzed the dataset and suggested the following project topics:" None doc in
  let doc := add_heading "1. Dataset Summary" 2 doc in
  let doc := add_paragraph dataset_summary None doc in
  let doc := add_heading "2. Suggested Tasks" 2 doc in
  let doc := foldl (fun d s => add_paragraph ("- " ++ s) (Some "List Bullet") d) doc suggestions in
  let file_path := "project_assignment.docx" in
  (file_path, doc).

Section Page.
(** The uploaded file and pandas' reading of it. *)
Context {upload : Type} (read_csv : upload -> res dataframe).

(** [for s in suggestions: st.markdown(f"- {s}")]. *)
Definition markdown_loop (suggestions : list string) : ui unit :=
  foldr (fun s k => let! _ := emit (StMarkdown ("- " ++ s)) in k) (ui_ret tt) suggestions.

(** Lines 49-78, with the session's uploaded file and export-button
    state; the result is the document written to disk, if any. *)
Definition instructor_page (uploaded_file : option upload) (export_clicked : bool)
    : ui (option (string * list block)) :=
  let! _ := emit (StHeader "👩‍🏫 Instructor Interface") in
  let! uploaded := widget (StFileUploader "📤 Upload CSV Dataset") uploaded_file in
  match uploaded with
  | None => ui_ret None
  | Some f =>
    let! df := lift (read_csv f) in
    let! _ := emit (StSuccess ("✅ Dataset loaded: " ++ pretty (df_rows df) ++ " rows × " ++
                               pretty (length (df_columns df)) ++ " columns.")) in
    let! _ := emit (StDataframe (shown_frame (df_head df)).1 (shown_frame (df_head df)).2) in
    let! _ := emit (StSubheader "📊 Quick Data Visualization") in
    let! _ := emit (StBarChart (shown_frame (select_dtypes is_number df)).2) in
    let cat_cols := select_columns is_object df in
    let num_cols := select_columns is_number df in
    let suggestions := suggestions_of num_cols cat_cols in
    let! _ := emit (StSubheader "📌 Suggested Project Topics") in
    let! _ := markdown_loop suggestions in
    let! pressed := widget (StButton "📝 Export to Word") export_clicked in
    if pressed then
      let summary := summary_of df num_cols cat_cols in
      let saved := export_to_word summary suggestions in
      let! _ := emit (StDownloadButton "📥 Download Assignment File" "project_assignment.docx") in
      ui_ret (Some saved)
    else ui_ret None
  end.
End Page.

(** ** Lemmas *)

Lemma markdown_loop_frame ss : ui_frame (markdown_loop ss).
Proof. induction ss as [|s ss IH]; simpl; solve_frame; auto. Qed.

Lemma instructor_page_frame {upload} (read_csv : upload -> res dataframe) f clicked :
  ui_frame (instructor_page read_csv f clicked).
Proof. unfold instructor_page. solve_frame. apply markdown_loop_frame. Qed.

Lemma markdown_loop_no_download ss : ui_avoids no_download (markdown_loop ss).
Proof. induction ss as [|s ss IH]; simpl; solve_avoids; auto. Qed.

(** Without the export click, the page offers no download. *)
Lemma instructor_page_no_download {upload} (read_csv : upload -> res dataframe) f :
  ui_avoids no_download (instructor_page read_csv f false).
Proof. unfold instructor_page. solve_avoids. apply markdown_loop_no_download. Qed.

Lemma foldl_add_paragraph doc ss :
  foldl (fun d s => add_paragraph ("- " ++ s) (Some "List Bullet") d) doc ss =
  doc ++ map (fun s => Paragraph ("- " ++ s) (Some "List Bullet")) ss.
Proof.
  revert doc. induction ss as [|s ss IH]; intros doc; simpl; [by rewrite app_nil_r|].
  rewrite IH. unfold add_paragraph. by rewrite <-app_assoc.
Qed.

Lemma markdown_loop_run ss tr :
  markdown_loop ss tr = (tr ++ map (fun s => StMarkdown ("- " ++ s)) ss, Ok tt).
Proof.
  revert tr. induction ss as [|s ss IH]; intros tr; simpl; [by rewrite app_nil_r|].
  rewrite ui_bind_emit. unfold markdown_loop in IH. rewrite IH. by rewrite <-app_assoc.
Qed.

Lemma suggestions_distinct :
  NoDup [suggestion_correlation; suggestion_independence; suggestion_means].
Proof. decide_goal. Qed.

(** *** The summary read back *)

Section SummaryLemmas.
Local Open Scope N_scope.

Lemma strip_prefix_app p s : strip_prefix p (p ++ s) = Some s.
Proof. induction p as [|c p IH]; [done|]. cbn. by rewrite N.eqb_refl. Qed.

Lemma read_digits_app ds t acc :
  Forall (fun c => is_digit c = true) ds -> (forall c t', t = c :: t' -> is_digit c = false) ->
  read_digits (ds ++ t) acc = (fold_left (fun a c => 10 * a + (c - 48)) ds acc, t).
Proof.
  intros Hds Ht. revert acc. induction Hds as [|c ds Hc _ IH]; intros acc.
  - destruct t as [|c t']; [done|]. cbn. by rewrite (Ht c t' eq_refl).
  - cbn [app read_digits fold_left]. rewrite Hc. apply IH.
Qed.

Lemma read_nat_app ds t n :
  ds <> [] -> Forall (fun c => is_digit c = true) ds -> (forall c t', t = c :: t' -> is_digit c = false) ->
  fold_left (fun a c => 10 * a + (c - 48)) ds 0 = N.of_nat n ->
  read_nat (ds ++ t) = Some (n, t).
Proof.
  intros Hne Hds Ht Hv. destruct ds as [|c ds']; [done|]. cbn [app read_nat].
  pose proof Hds as Hc. apply Forall_cons in Hc as [-> _].
  change (c :: ds' ++ t) with ((c :: ds') ++ t). rewrite read_digits_app by done.
  by rewrite Hv, Nat2N.id.
Qed.

Lemma pretty_char_byte m : m < 10 -> N_of_ascii (pretty_N_char m) = 48 + m.
Proof.
  intros Hm. assert (m = 0 \/ m = 1 \/ m = 2 \/ m = 3 \/ m = 4 \/ m = 5 \/ m = 6 \/ m = 7 \/ m = 8 \/ m = 9)
    as Hcases by lia.
  repeat destruct Hcases as [->|Hcases]; try reflexivity. subst m. reflexivity.
Qed.

(** The digits [pretty_N_go] writes in front of a text. *)
Lemma pretty_N_go_digits x : forall s, exists d,
  pretty_N_go x s = (String.string_of_list_ascii d ++ s)%string /\ (x <> 0 -> d <> []) /\
  Forall (fun c => is_digit c = true) (map N_of_ascii d) /\
  fold_left (fun a c => 10 * a + (c - 48)) (map N_of_ascii d) 0 = x.
Proof.
  induction (N.lt_wf_0 x) as [x _ IH]; intros s. destruct (N.eq_dec x 0) as [->|Hx].
  - exists []. split; [reflexivity|]. split; [done|]. split; [constructor|reflexivity].
  - rewrite pretty_N_go_step by lia.
    destruct (IH (x / 10) (N.div_lt x 10 ltac:(lia) ltac:(lia)) (String (pretty_N_char (x mod 10)) s))
      as (d & Hd & _ & Hdig & Hval).
    pose proof (N.mod_lt x 10 ltac:(lia)) as Hm.
    exists (d ++ [pretty_N_char (x mod 10)]). split; [|split; [by destruct d|split]].
    + rewrite Hd, string_of_list_ascii_app, string_app_assoc. reflexivity.
    + rewrite map_app. apply Forall_app. split; [done|]. constructor; [|constructor].
      unfold is_digit. rewrite pretty_char_byte by done. apply andb_true_iff. rewrite !N.leb_le.
      set (m := x mod 10) in *. lia.
    + rewrite map_app, fold_left_app, Hval. cbn [map fold_left]. rewrite pretty_char_byte by done.
      pose proof (N.div_mod x 10 ltac:(lia)). set (q := x / 10) in *. set (m := x mod 10) in *. lia.
Qed.

Lemma pretty_nat_digits n : exists d,
  pretty n = String.string_of_list_ascii d /\ d <> [] /\
  Forall (fun c => is_digit c = true) (map N_of_ascii d) /\
  fold_left (fun a c => 10 * a + (c - 48)) (map N_of_ascii d) 0 = N.of_nat n.
Proof.
  change (pretty n) with (if decide (N.of_nat n = 0) then "0" else pretty_N_go (N.of_nat n) "").
  case_decide as Hn.
  - exists ["0"%char]. rewrite Hn. split; [reflexivity|]. split; [done|]. split; [|reflexivity].
    repeat constructor.
  - destruct (pretty_N_go_digits (N.of_nat n) "") as (d & Hd & Hne & Hdig & Hval).
    exists d. rewrite Hd, string_app_nil_r. split; [reflexivity|]. split; [by apply Hne|done].
Qed.

(** A text of ASCII characters is valid and its code points are its bytes. *)
Lemma str_cps_ascii d :
  Forall (fun b => N_of_ascii b < 0x80) d ->
  str_cps (String.string_of_list_ascii d) = map N_of_ascii d /\
  str_valid (String.string_of_list_ascii d) = true.
Proof.
  intros Hd. assert (Henc : Utf8.encode (map N_of_ascii d) = d).
  { induction Hd as [|b d Hb _ IH]; [done|]. unfold Utf8.encode in *. cbn [map concat].
    change (N_of_ascii b) with (Utf8.byte b). rewrite Utf8.encode_cp_ascii by done. simpl. by rewrite IH. }
  assert (Hdec : Utf8.decode d = Some (map N_of_ascii d)).
  { rewrite <-Henc at 1. apply Utf8.decode_encode. apply Forall_map.
    eapply Forall_impl; [exact Hd|]. intros b Hb. by apply Utf8.valid_cp_ascii. }
  unfold str_cps, str_valid, Utf8.utf8_valid. rewrite String.list_ascii_of_string_of_list_ascii, Hdec.
  done.
Qed.

Lemma str_cps_pretty n : exists ds,
  str_cps (pretty n) = ds /\ str_valid (pretty n) = true /\ ds <> [] /\
  Forall (fun c => is_digit c = true) ds /\ fold_left (fun a c => 10 * a + (c - 48)) ds 0 = N.of_nat n.
Proof.
  destruct (pretty_nat_digits n) as (d & -> & Hne & Hdig & Hval).
  destruct (str_cps_ascii d) as [-> Hv].
  { apply Forall_map in Hdig. eapply Forall_impl; [exact Hdig|]. intros b Hb.
    unfold is_digit in Hb. apply andb_true_iff in Hb as [_ Hb]. apply N.leb_le in Hb. lia. }
  exists (map N_of_ascii d). repeat split; try done. by destruct d.
Qed.

Lemma bind_Some {A B} (x : A) (f : A -> option B) : Some x ≫= f = f x.
Proof. reflexivity. Qed.

Lemma strip_prefix_app2 p1 p2 s : strip_prefix (p1 ++ p2) (p1 ++ p2 ++ s) = Some s.
Proof. rewrite app_assoc. apply strip_prefix_app. Qed.

Lemma map_cps_str l : Forall (fun s => str_valid s = true) l -> map cps_str (map str_cps l) = l.
Proof. induction 1 as [|s l Hs _ IH]; [done|]. cbn [map]. by rewrite cps_str_str_cps, IH. Qed.

End SummaryLemmas.

(** The text after a number starts with the character [c], not a digit. *)
Ltac head_not_digit lit c rest :=
  let d := fresh in let t' := fresh in let E := fresh in
  intros d t' E; change (str_cps lit) with (c :: str_cps rest) in E;
  cbn [app] in E; injection E as <- _; reflexivity.

(** ** Theorems *)

Lemma export_doc dataset_summary suggestions :
  export_to_word dataset_summary suggestions =
  ("project_assignment.docx",
   [Heading "Statistical Project Assignment" 1;
    Paragraph "The system analyzed the dataset and suggested the following project topics:" None;
    Heading "1. Dataset Summary" 2; Paragraph dataset_summary None;
    Heading "2. Suggested Tasks" 2] ++
   map (fun s => Paragraph ("- " ++ s) (Some "List Bullet")) suggestions).
Proof. unfold export_to_word. by rewrite foldl_add_paragraph. Qed.

Lemma suggestions_of_eq num_cols cat_cols :
  suggestions_of num_cols cat_cols =
  (if 2 <=? length num_cols then [suggestion_correlation] else []) ++
  (if 2 <=? length cat_cols then [suggestion_independence] else []) ++
  (if negb (bool_decide (cat_cols = [])) && negb (bool_decide (num_cols = []))
   then [suggestion_means] else []).
Proof.
  unfold suggestions_of.
  destruct (2 <=? length num_cols), (2 <=? length cat_cols), (_ && _); reflexivity.
Qed.

Lemma elem_of_opt (b : bool) (x y : string) : x ∈ (if b then [y] else []) <-> b = true /\ x = y.
Proof. destruct b; set_solver. Qed.

(** C25: Each topic is suggested exactly under its condition on the
    column counts (correlation: two numeric columns; independence: two
    object columns; group means: one of each), each at most once, so
    there are at most three. *)
Theorem suggestions_spec num_cols cat_cols :
  let s := suggestions_of num_cols cat_cols in
  (suggestion_correlation ∈ s <-> 2 <= length num_cols) /\
  (suggestion_independence ∈ s <-> 2 <= length cat_cols) /\
  (suggestion_means ∈ s <-> num_cols <> [] /\ cat_cols <> []) /\
  NoDup s /\ length s <= 3.
Proof.
  pose proof suggestions_distinct as Hnd.
  assert (suggestion_correlation <> suggestion_independence /\
          suggestion_correlation <> suggestion_means /\
          suggestion_independence <> suggestion_means) as (H1 & H2 & H3) by set_solver.
  simpl. rewrite suggestions_of_eq, !elem_of_app, !elem_of_opt, Nat.leb_le, Nat.leb_le.
  rewrite andb_true_iff, !negb_true_iff, !bool_decide_eq_false.
  repeat split; try naive_solver.
  - destruct (2 <=? length num_cols), (2 <=? length cat_cols), (_ && _); simpl;
      repeat constructor; set_solver.
  - destruct (2 <=? length num_cols), (2 <=? length cat_cols), (_ && _); simpl; lia.
Qed.

(** C26: A file with at most one numeric or object column, in total, gets
    no suggestion: the page lists an empty set of topics. *)
Theorem suggestions_empty num_cols cat_cols :
  suggestions_of num_cols cat_cols = [] <-> length num_cols + length cat_cols <= 1.
Proof.
  rewrite suggestions_of_eq.
  destruct num_cols as [|n1 [|n2 num]], cat_cols as [|c1 [|c2 cat]]; simpl;
    split; intros; (lia || done).
Qed.

(** The calls the page makes for a frame [df] with suggestions [sugg],
    up to the export button. *)
Definition instructor_trace (df : dataframe) (sugg : list string) : list st_call :=
  [StHeader "👩‍🏫 Instructor Interface"; StFileUploader "📤 Upload CSV Dataset";
   StSuccess ("✅ Dataset loaded: " ++ pretty (df_rows df) ++ " rows × " ++
              pretty (length (df_columns df)) ++ " columns.");
   StDataframe (Nat.min 5 (df_rows df)) (map fst (df_columns df));
   StSubheader "📊 Quick Data Visualization"; StBarChart (select_columns is_number df);
   StSubheader "📌 Suggested Project Topics"] ++
  map (fun s => StMarkdown ("- " ++ s)) sugg ++ [StButton "📝 Export to Word"].

(** C32: The summary the export writes (line 75) reads back as the row
    count, the column count and the two column lists, for every frame
    whose column names are texts: the f-string loses nothing, commas,
    quotes, brackets and non-printable characters in the names
    included, so the document determines the frame's shape and its
    numeric and text columns. *)
Theorem summary_roundtrip df num_cols cat_cols :
  Forall (fun s => str_valid s = true) num_cols -> Forall (fun s => str_valid s = true) cat_cols ->
  read_summary (summary_of df num_cols cat_cols) =
  Some (df_rows df, length (df_columns df), num_cols, cat_cols).
Proof.
  intros Hnum Hcat.
  destruct (str_cps_pretty (df_rows df)) as (d1 & Hd1 & Hv1 & Hne1 & Hdig1 & Hval1).
  destruct (str_cps_pretty (length (df_columns df))) as (d2 & Hd2 & Hv2 & Hne2 & Hdig2 & Hval2).
  unfold summary_of, read_summary.
  rewrite !str_cps_app by (repeat first [done | apply str_valid_py_str_list | reflexivity | apply str_valid_app]).
  rewrite Hd1, Hd2, strip_prefix_app, bind_Some. cbv beta.
  rewrite (read_nat_app d1 _ (df_rows df)) by (done || head_not_digit ", Columns: " 44%N " Columns: ").
  rewrite bind_Some. cbv beta iota. rewrite strip_prefix_app, bind_Some. cbv beta.
  rewrite (read_nat_app d2 _ (length (df_columns df))) by (done || head_not_digit newline 10%N "").
  rewrite bind_Some. cbv beta iota. rewrite strip_prefix_app2, bind_Some. cbv beta.
  rewrite py_str_list_read, bind_Some. cbv beta iota. rewrite strip_prefix_app2, bind_Some. cbv beta.
  rewrite <-(app_nil_r (str_cps (py_str_list cat_cols))), py_str_list_read, bind_Some. cbv beta iota.
  rewrite bool_decide_true by done. by rewrite !map_cps_str.
Qed.

Section PageTheorems.
Context {upload : Type} (read_csv : upload -> res dataframe).

(** C27: With a readable upload and the export button pressed, the page
    lists the suggestions for the frame's column dtypes, and the
    document it writes has those same suggestions as its bullets, in
    the same order, after the summary of the frame. *)
Theorem instructor_page_export f df :
  read_csv f = Ok df ->
  let num_cols := select_columns is_number df in
  let cat_cols := select_columns is_object df in
  let sugg := suggestions_of num_cols cat_cols in
  run (instructor_page read_csv (Some f) true) =
  (instructor_trace df sugg ++ [StDownloadButton "📥 Download Assignment File" "project_assignment.docx"],
   Ok (Some ("project_assignment.docx",
             [Heading "Statistical Project Assignment" 1;
              Paragraph "The system analyzed the dataset and suggested the following project topics:" None;
              Heading "1. Dataset Summary" 2; Paragraph (summary_of df num_cols cat_cols) None;
              Heading "2. Suggested Tasks" 2] ++
             map (fun s => Paragraph ("- " ++ s) (Some "List Bullet")) sugg))).
Proof.
  intros Hdf. unfold run, instructor_page. rewrite ui_bind_emit, ui_bind_widget.
  rewrite Hdf, ui_bind_lift_Ok, !ui_bind_emit.
  unfold ui_bind at 1. rewrite markdown_loop_run, ui_bind_widget, ui_bind_emit.
  rewrite export_doc. unfold ui_ret, instructor_trace.
  by rewrite <-!app_assoc.
Qed.

(** C30: When pandas cannot read the upload, the page stops after the
    uploader with pandas' exception. *)
Theorem instructor_page_read_error f e clicked :
  read_csv f = Err e ->
  run (instructor_page read_csv (Some f) clicked) =
  ([StHeader "👩‍🏫 Instructor Interface"; StFileUploader "📤 Upload CSV Dataset"], Err e).
Proof. intros Hdf. unfold run, instructor_page. by rewrite ui_bind_emit, ui_bind_widget, Hdf. Qed.
End PageTheorems.

(** ** Witnesses *)

Definition grades : dataframe :=
  mk_df 30 [("score", DFloat64); ("group", DObject); ("passed", DBool); ("age", DInt64)].

Lemma instructor_page_export_witness :
  run (instructor_page (fun _ : unit => Ok grades) (Some tt) true) =
  (instructor_trace grades [suggestion_correlation; suggestion_means] ++
     [StDownloadButton "📥 Download Assignment File" "project_assignment.docx"],
   Ok (Some ("project_assignment.docx",
             [Heading "Statistical Project Assignment" 1;
              Paragraph "The system analyzed the dataset and suggested the following project topics:" None;
              Heading "1. Dataset Summary" 2;
              Paragraph (summary_of grades ["score"; "age"] ["group"]) None;
              Heading "2. Suggested Tasks" 2;
              Paragraph ("- " ++ suggestion_correlation) (Some "List Bullet");
              Paragraph ("- " ++ suggestion_means) (Some "List Bullet")]))).
Proof. rewrite (instructor_page_export (fun _ : unit => Ok grades) tt grades); reflexivity. Defined.

Lemma instructor_page_read_error_witness :
  run (instructor_page (fun _ : unit => Err ValueError) (Some tt) false) =
  ([StHeader "👩‍🏫 Instructor Interface"; StFileUploader "📤 Upload CSV Dataset"], Err ValueError).
Proof. apply instructor_page_read_error. reflexivity. Defined.


(** Column names with a quote, a comma and a bracket read back. *)
Definition odd_frame : dataframe :=
  mk_df 12 [("it's", DFloat64); ("a, [b]", DObject); ("age", DInt64)].

Lemma summary_roundtrip_witness :
  Forall (fun s => str_valid s = true) ["it's"; "age"] /\ Forall (fun s => str_valid s = true) ["a, [b]"] /\
  read_summary (summary_of odd_frame ["it's"; "age"] ["a, [b]"]) = Some (12, 3, ["it's"; "age"], ["a, [b]"]).
Proof.
  assert (H1 : Forall (fun s => str_valid s = true) ["it's"; "age"]) by (repeat constructor).
  assert (H2 : Forall (fun s => str_valid s = true) ["a, [b]"]) by (repeat constructor).
  split; [exact H1|split; [exact H2|exact (summary_roundtrip odd_frame _ _ H1 H2)]].
Defined.
End Instructor.
