(* ===== verification/App.v ===== *)
(** * The script: initialisation and the menu dispatch (src/app.py, lines 37-45, 48, 81, 94)

    Streamlit runs the whole script on every interaction.  Each run
    configures the page, shows the title and the sidebar menu, loads
    the prompt library from "ai_agent_prompt_library_full.csv" and
    encodes its questions (lines 42-45), and only then runs the page the
    menu selects.  The initialisation is therefore repeated on every
    run, before any page, whichever page is selected.

    [app_script] is one run: the bytes of the library file (or [None]
    when the file is missing, which [open] reports as
    [FileNotFoundError]), read by [Loader.load_prompt_library_file],
    and the session's widget values are its inputs, the trace of
    Streamlit calls and the outcome its result.  The embedding
    model is the [Encoder] instance (loading it is assumed to succeed)
    and pandas' [read_csv] a parameter, as in [Instructor]. *)

From S2P Require Import Prelude PyVal Csv DictReader Loader Argmax Cosine Embedding Ui Matcher Rubric Instructor.
From Stdlib Require Import Ascii.

Module App.

Definition menu_instructor : string := "👩‍🏫 Instructor".
Definition menu_student : string := "👨‍🎓 Student".
Definition menu_rubric : string := "📋 Rubric Evaluation".
Definition menu_options : list string := [menu_instructor; menu_student; menu_rubric].

(** The widget values of a session. *)
Record session {upload : Type} := mk_session {
  s_menu : option string;
  s_upload : option upload;
  s_export : bool;
  s_question : string;
  s_levels : string -> option string;
  s_calculate : bool
}.
Arguments session : clear implicits.

(** [load_prompt_library("ai_agent_prompt_library_full.csv")] on the
    bytes of the file, [None] when it does not exist: [open] raises
    [FileNotFoundError].  The loader always returns
    ([load_prompt_library_file_some]); its out-of-fuel case is never
    taken. *)
Definition load_library_file (file : option (list ascii)) : res (list prompt_entry) :=
  match file with
  | None => Err FileNotFoundError
  | Some raw => default (Err RuntimeError) (load_prompt_library_file raw)
  end.

Section Script.
Context `{Encoder} {upload : Type} (read_csv : upload -> res Instructor.dataframe).

(** Lines 37-45 and the dispatch of lines 48, 81 and 94. *)
Definition app_script (library_file : option (list ascii))
    (sess : session upload) : ui unit :=
  let! _ := emit (StPageConfig "AI-PBL for Statistics" "wide") in
  let! _ := emit (StTitle "📊 AI-Powered Support for Teaching Probability and Statistics") in
  let! menu := widget (StRadio "🎯 Select Mode" menu_options)
                      (match s_menu sess with Some m => m | None => menu_instructor end) in
  let! prompt_library := lift (load_library_file library_file) in
  let! question_embeddings := lift (build_index prompt_library) in
  if bool_decide (menu = menu_instructor) then
    let! _ := Instructor.instructor_page read_csv (s_upload sess) (s_export sess) in
    ui_ret tt
  else if bool_decide (menu = menu_student) then
    student_page prompt_library question_embeddings (s_question sess)
  else if bool_decide (menu = menu_rubric) then
    Rubric.rubric_page (s_levels sess) (s_calculate sess)
  else ui_ret tt.

End Script.

(** ** Theorems *)

(** The calls every run makes before the library is loaded. *)
Definition app_prefix : list st_call :=
  [StPageConfig "AI-PBL for Statistics" "wide";
   StTitle "📊 AI-Powered Support for Teaching Probability and Statistics";
   StRadio "🎯 Select Mode" menu_options].

Section ScriptTheorems.
Context `{Encoder} {upload : Type} (read_csv : upload -> res Instructor.dataframe).

Lemma app_init_failure file sess e :
  res_bind (load_library_file file) build_index = Err e ->
  run (app_script read_csv file sess) = (app_prefix, Err e).
Proof.
  intros Hinit. unfold run, app_script. rewrite !ui_bind_emit, ui_bind_widget.
  destruct (load_library_file file) as [lib|e']; simpl in Hinit.
  - by rewrite ui_bind_lift_Ok, Hinit, ui_bind_lift_Err.
  - injection Hinit as ->. by rewrite ui_bind_lift_Err.
Qed.

(** C14: A failing initialisation (missing library file, missing
    column, question that does not encode) ends every run right after
    the sidebar, whatever page the menu selects: the rubric and
    instructor pages, which do not use the library, included. *)
Theorem app_init_failure_blocks_all file sess e :
  res_bind (load_library_file file) build_index = Err e ->
  run (app_script read_csv file sess) = (app_prefix, Err e).
Proof. apply app_init_failure. Qed.

Lemma app_student_run file sess lib emb :
  s_menu sess = Some menu_student ->
  load_library_file file = Ok lib -> build_index lib = Ok emb ->
  run (app_script read_csv file sess) =
  (app_prefix ++ (run (student_page lib emb (s_question sess))).1,
   (run (student_page lib emb (s_question sess))).2).
Proof.
  intros Hm Hl Hb. unfold run, app_script. rewrite !ui_bind_emit, ui_bind_widget, Hm.
  rewrite Hl, ui_bind_lift_Ok, Hb, ui_bind_lift_Ok.
  rewrite bool_decide_false by discriminate. rewrite bool_decide_true by done.
  apply student_page_frame.
Qed.

(** C15: In student mode, a run loads the library and builds its index
    anew, then runs the student page on that index and that library. *)
Theorem app_student_mode file sess lib emb :
  s_menu sess = Some menu_student ->
  load_library_file file = Ok lib -> build_index lib = Ok emb ->
  run (app_script read_csv file sess) =
  (app_prefix ++ (run (student_page lib emb (s_question sess))).1,
   (run (student_page lib emb (s_question sess))).2).
Proof. apply app_student_run. Qed.

(** Without the export click, no run offers a download. *)
Lemma app_script_no_download file sess :
  s_export sess = false -> ui_avoids no_download (app_script read_csv file sess).
Proof.
  intros He. unfold app_script. rewrite He.
  solve_avoids; auto using Instructor.instructor_page_no_download, student_page_no_download,
    Rubric.rubric_page_no_download.
Qed.

Lemma app_rubric_mode file sess lib emb :
  s_menu sess = Some menu_rubric ->
  load_library_file file = Ok lib -> build_index lib = Ok emb ->
  run (app_script read_csv file sess) =
  (app_prefix ++ (run (Rubric.rubric_page (s_levels sess) (s_calculate sess))).1,
   (run (Rubric.rubric_page (s_levels sess) (s_calculate sess))).2).
Proof.
  intros Hm Hl Hb. unfold run, app_script. rewrite !ui_bind_emit, ui_bind_widget, Hm.
  rewrite Hl, ui_bind_lift_Ok, Hb, ui_bind_lift_Ok.
  rewrite !bool_decide_false by discriminate. rewrite bool_decide_true by done.
  apply Rubric.rubric_page_frame.
Qed.
End ScriptTheorems.

(** ** Witnesses *)

Definition rubric_session : session unit :=
  mk_session unit (Some menu_rubric) None false "" (fun _ => None) true.

(** A library file without its [method] column stops the rubric page. *)
Lemma app_init_failure_blocks_all_witness :
  run (@app_script Examples.length_encoder unit (fun _ => Err ValueError)
         (Some (Csv.Writer.write_rows [["question"; "answer"; "explanation"; "code"]; ["q"; "a"; "e"; "c"]]))
         rubric_session) =
  (app_prefix, Err (KeyError "method")).
Proof. apply app_init_failure_blocks_all. reflexivity. Defined.

Lemma app_student_mode_witness :
  run (@app_script Examples.length_encoder unit (fun _ => Err ValueError)
         (Some (Csv.Writer.write_rows
                 [["question"; "method"; "explanation"; "code"];
                  ["How do I compare two means?"; "t-test"; "Compare the means of two groups.";
                   "stats.ttest_ind(a, b)"]]))
         (mk_session unit (Some menu_student) None false "   " (fun _ => None) false)) =
  (app_prefix ++ (run (@student_page Examples.length_encoder
                        [Examples.entry_ttest] (T2 Examples.vs1) "   ")).1,
   (run (@student_page Examples.length_encoder
           [Examples.entry_ttest] (T2 Examples.vs1) "   ")).2).
Proof. apply (@app_student_mode Examples.length_encoder); reflexivity. Defined.

End App.
