(* ===== verification/Session.v ===== *)
(** * Reruns of the script over a browser session

    Streamlit runs [src/app.py] from the top when a session opens and
    again after every widget interaction.  Between two runs it keeps
    only the widget values of the session; the script itself keeps no
    state ([st.session_state] and the caches are not used), so every run
    reloads the library file as it is on disk at that moment and
    encodes it again (lines 42-45).  A button ([st.button]) is [True]
    only in the run its click triggers and [False] in every later run.
    A radio or a select box can only take one of its options.

    [step] is one interaction followed by the run it triggers, on the
    library file read by that run; [reachable] holds the states of a
    session, from its first run.  The lemma [reachable_inv] gives the
    invariant of the reachable states: the widget values are ones the
    widgets can produce, at most one button is pressed, and the page
    shown is the run of the script on the current file and values.
    The theorems are:
    - safety: in rubric mode every run of a session whose library
      initialises ends normally and any total it shows is at most 12;
      a download is offered only in the run an export click triggers;
    - liveness: from any state, two interactions (the menu, the text
      input) show the student the entry the matcher selects. *)

From S2P Require Import Prelude PyVal Csv DictReader Loader Argmax Cosine Embedding Ui Matcher Rubric Instructor App.
From stdpp Require Import relations pretty.
From Stdlib Require Import Reals.

Module Session.
Import App.

Section Session.
Context `{Encoder} {upload : Type} (read_csv : upload -> res Instructor.dataframe).

(** The widget interactions of the script's widgets. *)
Inductive event :=
| SelectMenu (m : string)
| UploadFile (f : option upload)
| ClickExport
| TypeQuestion (q : string)
| SelectLevel (label level : string)
| ClickCalculate.

(** The values the widgets let the user choose. *)
Definition valid_event (ev : event) : Prop :=
  match ev with
  | SelectMenu m => m ∈ menu_options
  | SelectLevel _ v => v ∈ Rubric.levels
  | _ => True
  end.

(** The widget values of a new session: nothing touched or pressed. *)
Definition init_session : session upload :=
  mk_session upload None None false "" (fun _ => None) false.

(** The widget values after an interaction: the touched widget takes
    its new value, and a button is pressed only for the run its own
    click triggers. *)
Definition apply_event (ev : event) (sess : session upload) : session upload :=
  let m := s_menu sess in
  let u := s_upload sess in
  let q := s_question sess in
  let lv := s_levels sess in
  match ev with
  | SelectMenu m' => mk_session upload (Some m') u false q lv false
  | UploadFile f => mk_session upload m f false q lv false
  | ClickExport => mk_session upload m u true q lv false
  | TypeQuestion q' => mk_session upload m u false q' lv false
  | SelectLevel l v =>
      mk_session upload m u false q (fun l' => if String.eqb l' l then Some v else lv l') false
  | ClickCalculate => mk_session upload m u false q lv true
  end.

(** The library file read by the last run, the widget values, and
    what the last run showed. *)
Record state := mk_state {
  st_file : option (list Ascii.ascii);
  st_session : session upload;
  st_shown : list st_call * res unit
}.

(** A run of the script on a file and widget values. *)
Definition rerun (file : option (list Ascii.ascii)) (sess : session upload) : state :=
  mk_state file sess (run (app_script read_csv file sess)).

Inductive step : state -> state -> Prop :=
| step_event s ev file :
    valid_event ev -> step s (rerun file (apply_event ev (st_session s))).

Inductive reachable : state -> Prop :=
| reachable_init file : reachable (rerun file init_session)
| reachable_step s s' : reachable s -> step s s' -> reachable s'.

(** A session as the sequence of its interactions, on one library file. *)
Definition run_events (file : option (list Ascii.ascii)) (evs : list event) : state :=
  foldl (fun s ev => rerun file (apply_event ev (st_session s))) (rerun file init_session) evs.

(** The widget values Streamlit can hold. *)
Definition session_ok (sess : session upload) : Prop :=
  (forall m, s_menu sess = Some m -> m ∈ menu_options) /\
  Rubric.sel_ok (s_levels sess) /\
  s_export sess && s_calculate sess = false.

End Session.

#[export] Instance valid_event_dec {upload} (ev : @event upload) : Decision (valid_event ev).
Proof. destruct ev; simpl; apply _. Defined.

(** ** Lemmas *)

Section SessionLemmas.
Context `{Encoder} {upload : Type} (read_csv : upload -> res Instructor.dataframe).

Lemma init_session_ok : session_ok (@init_session upload).
Proof. split; [done|]. split; [|done]. by intros l v. Qed.

Lemma apply_event_ok ev (sess : session upload) :
  valid_event ev -> session_ok sess -> session_ok (apply_event ev sess).
Proof.
  intros Hev (Hm & Hl & Hb). destruct ev as [m'| | |q'|l v|]; simpl in *;
    repeat split; try done.
  - by intros m [= <-].
  - intros l' v' Hv. simpl in Hv.
    destruct (String.eqb l' l); [by injection Hv as <-|by apply (Hl l')].
Qed.

(** The export button is pressed exactly after an export click. *)
Lemma apply_event_export ev (sess : session upload) :
  s_export (apply_event ev sess) = true -> ev = ClickExport.
Proof. by destruct ev. Qed.

Lemma reachable_inv s :
  reachable read_csv s ->
  session_ok (st_session s) /\ st_shown s = run (app_script read_csv (st_file s) (st_session s)).
Proof.
  induction 1 as [file|s s' _ [Hok _] Hstep].
  - split; [apply init_session_ok|done].
  - destruct Hstep as [s ev file Hev]. split; [by apply apply_event_ok|done].
Qed.

Lemma rerun_no_download file (sess : session upload) :
  s_export sess = false -> Forall no_download (st_shown (rerun read_csv file sess)).1.
Proof. intros He. apply (app_script_no_download read_csv file sess He []). constructor. Qed.


Lemma run_events_reachable file evs :
  Forall valid_event evs -> reachable read_csv (run_events read_csv file evs).
Proof.
  unfold run_events. generalize (reachable_init read_csv file).
  generalize (rerun read_csv file init_session). intros s0 Hs0 Hevs. revert s0 Hs0.
  induction Hevs as [|ev evs Hev _ IH]; intros s0 Hs0; [done|].
  simpl. apply IH. eapply reachable_step; [exact Hs0|by constructor].
Qed.

End SessionLemmas.

(** ** Theorems *)

Section SessionTheorems.
Context `{Encoder} {upload : Type} (read_csv : upload -> res Instructor.dataframe).

(** C38: In every state of a session in rubric mode whose library file
    loads and encodes, the run ends normally, shows the rubric widgets,
    and shows a total, at most 12, exactly when the calculate button
    was the last interaction. *)
Theorem reachable_rubric_safe s lib emb :
  reachable read_csv s -> s_menu (st_session s) = Some menu_rubric ->
  load_library_file (st_file s) = Ok lib -> build_index lib = Ok emb ->
  exists vals, sum_list vals <= 12 /\
    st_shown s =
    (app_prefix ++ Rubric.rubric_widgets ++
       (if s_calculate (st_session s)
        then [StMarkdown ("**🔢 Total Score: " ++ pretty (sum_list vals) ++ "/12**")%string]
        else []),
     Ok tt).
Proof.
  intros Hr Hm Hl Hb. destruct (reachable_inv read_csv s Hr) as ((_ & Hsel & _) & ->).
  destruct (Rubric.level_values _ Hsel) as (vals & Hv & Hle & Hlen).
  exists vals. split; [pose proof (Rubric.sum_list_le_4 vals Hle); simpl in *; lia|].
  rewrite (app_rubric_mode read_csv _ _ lib emb Hm Hl Hb).
  destruct (s_calculate (st_session s)).
  - by rewrite (Rubric.rubric_page_run _ vals Hv).
  - by rewrite Rubric.rubric_page_idle, app_nil_r.
Qed.

(** C40: A download is offered only in the run that an export click
    triggers: after any other interaction the export button reads
    [False] again and no page shows the download button. *)
Theorem download_only_after_click s s' l fn :
  step read_csv s s' -> StDownloadButton l fn ∈ (st_shown s').1 ->
  exists file, s' = rerun read_csv file (apply_event ClickExport (st_session s)).
Proof.
  destruct 1 as [s ev file Hev]. intros Hin.
  destruct (s_export (apply_event ev (st_session s))) eqn:He.
  - apply apply_event_export in He as ->. by exists file.
  - pose proof (rerun_no_download read_csv file _ He) as Hall.
    eapply Forall_forall in Hall; [|exact Hin]. contradiction.
Qed.

End SessionTheorems.

Section Liveness.
Context `{EncoderLaws} {upload : Type} (read_csv : upload -> res Instructor.dataframe).

(** C39: From any state whose library file loads and encodes, two
    interactions (choosing the student mode, typing a non-empty question
    the model encodes) lead to a state that shows the entry at the first
    index of maximal similarity. *)
Theorem student_answer_reachable s q v lib vs :
  q <> "" -> encode_text q = Ok v ->
  load_library_file (st_file s) = Ok lib -> build_index lib = Ok (T2 vs) ->
  exists s' i e, rtc (step read_csv) s s' /\
    first_max Rltb (map (cos_sim v) vs) i /\ lib !! i = Some e /\
    st_shown s' =
    (app_prefix ++
       [StHeader "🤖 Student Interface"; StTextInput "📌 Ask a question about statistical analysis:";
        StSuccess ("📘 Suggested Method: " ++ py_str (method e));
        StMarkdown ("**🧠 Explanation:** " ++ py_str (explanation e));
        StCode (py_str (code e)) "python"], Ok tt).
Proof.
  intros Hq Hv Hl Hb.
  destruct (match_query_total lib vs Hb q v Hv) as (i & e & Hi & He & Hm).
  set (s1 := rerun read_csv (st_file s) (apply_event (SelectMenu menu_student) (st_session s))).
  set (s2 := rerun read_csv (st_file s1) (apply_event (TypeQuestion q) (st_session s1))).
  exists s2, i, e. split; [|split; [done|split; [done|]]].
  - apply (rtc_l _ _ s1); [apply step_event; decide_goal|apply rtc_once, step_event; done].
  - unfold s2, rerun. cbn [st_shown st_session st_file s_question apply_event].
    rewrite (app_student_run read_csv _ _ lib (T2 vs)) by done.
    cbn [s_question]. by rewrite (student_page_run _ _ q e Hq Hm).
Qed.

End Liveness.

(** ** Witnesses *)

Module Examples.
#[local] Existing Instance Matcher.Examples.length_encoder.
#[local] Existing Instance Matcher.Examples.length_encoder_laws.

Definition grades_csv : unit -> res Instructor.dataframe := fun _ => Ok Instructor.grades.

(** A library file with a header and no entry. *)
Definition header_only : option (list Ascii.ascii) :=
  Some (Csv.Writer.write_rows [["question"; "method"; "explanation"; "code"]]).

Definition ttest_file : option (list Ascii.ascii) :=
  Some (Csv.Writer.write_rows
          [["question"; "method"; "explanation"; "code"];
           ["How do I compare two means?"; "t-test"; "Compare the means of two groups.";
            "stats.ttest_ind(a, b)"]]).

Definition export_session : state :=
  run_events grades_csv header_only [UploadFile (Some tt); ClickExport].

Definition rubric_session : state :=
  run_events grades_csv header_only
    [SelectMenu menu_rubric; SelectLevel "Statistical Analysis:" "4 - Excellent"; ClickCalculate].

Lemma reachable_rubric_safe_witness :
  exists vals, sum_list vals <= 12 /\
    st_shown rubric_session =
    (app_prefix ++ Rubric.rubric_widgets ++
       (if s_calculate (st_session rubric_session)
        then [StMarkdown ("**🔢 Total Score: " ++ pretty (sum_list vals) ++ "/12**")%string]
        else []),
     Ok tt).
Proof.
  apply (reachable_rubric_safe grades_csv rubric_session [] (T1 [])); [|reflexivity..].
  apply run_events_reachable. decide_goal.
Defined.

Lemma student_answer_reachable_witness :
  exists s' i e, rtc (step grades_csv) (run_events grades_csv ttest_file []) s' /\
    first_max Rltb (map (cos_sim [INR (String.length Matcher.Examples.query); 1%R]) Matcher.Examples.vs1) i /\
    [Matcher.Examples.entry_ttest] !! i = Some e /\
    st_shown s' =
    (app_prefix ++
       [StHeader "🤖 Student Interface"; StTextInput "📌 Ask a question about statistical analysis:";
        StSuccess ("📘 Suggested Method: " ++ py_str (method e));
        StMarkdown ("**🧠 Explanation:** " ++ py_str (explanation e));
        StCode (py_str (code e)) "python"], Ok tt).
Proof.
  apply (student_answer_reachable grades_csv _ Matcher.Examples.query); [discriminate|reflexivity..].
Defined.

Definition upload_session : state := run_events grades_csv header_only [UploadFile (Some tt)].

Lemma download_only_after_click_witness :
  exists file,
    rerun grades_csv header_only (apply_event ClickExport (st_session upload_session)) =
    rerun grades_csv file (apply_event ClickExport (st_session upload_session)).
Proof.
  apply (download_only_after_click _ upload_session _
           "📥 Download Assignment File" "project_assignment.docx").
  - by apply step_event.
  - decide_goal.
Defined.

End Examples.

End Session.
